(** * OpenClawMemory: the recall engine and the context assembler

    A shallow embedding of the class [OpenClawMemory] (memory operations:
    [generateEmbedding], [remember], [recall], [hybridRecall], [forget],
    [findSimilarMemories], [getMessages], [getContext]) together with a
    relational model of the part of the Supabase store those methods talk to.

    Conventions.
    - A TypeScript optional field [x?: T] is an [option T]; [None] is
      [undefined].
    - A JavaScript [number] is a rational ([Q]) where it is a score and an
      integer ([Z]) where it is a count; NaN and the infinities are not
      modelled.
    - A timestamp column is a [Z] (the store compares timestamps, not their
      ISO text).
    - An [async] method that may throw returns a [result]; a method that
      writes to the store also returns the new store.
    - The store is a pair of tables held as lists of rows.  A query built
      with the client's query builder is a value ([Postgrest.query]) that
      [Postgrest.run] evaluates; the stored procedures whose SQL is not part
      of the sources are modelled from the specification, and what belongs
      to neither (the embedding service, the vector similarity, the key
      generator, the hybrid procedure) is a field of [Backend]. *)

From Stdlib Require Import List String Ascii Bool ZArith QArith Lia.
From Stdlib Require Import Sorting.Sorted Sorting.Permutation.
Import ListNotations.

Local Open Scope string_scope.
Local Open Scope Z_scope.

(** ** JavaScript values and operators *)

Module Js.

(** What a rejected promise carries. *)
Inductive exn : Type :=
| Error (message : string)            (* [new Error(message)] *)
| ProviderError (message : string)    (* thrown inside the OpenAI SDK *)
| PostgrestError (code : string).     (* the [error] of a store response *)

Inductive result (A : Type) : Type :=
| Ok (value : A)
| Throw (e : exn).
Arguments Ok {A} value.
Arguments Throw {A} e.

Definition bind {A B : Type} (r : result A) (k : A -> result B) : result B :=
  match r with
  | Ok a => k a
  | Throw e => Throw e
  end.

(** Truthiness of an optional string: [undefined] and [''] are falsy. *)
Definition truthy_string (s : option string) : option string :=
  match s with
  | Some v => if String.eqb v "" then None else Some v
  | None => None
  end.

(** Truthiness of an optional score: [undefined] and [0] are falsy. *)
Definition truthy_number (q : option Q) : option Q :=
  match q with
  | Some v => if Qeq_bool v 0 then None else Some v
  | None => None
  end.

(** [x || d] on an optional count. *)
Definition or_count (x : option Z) (d : Z) : Z :=
  match x with
  | Some v => if Z.eqb v 0 then d else v
  | None => d
  end.

(** [x || d] on an optional string. *)
Definition or_string (x : option string) (d : string) : string :=
  match truthy_string x with
  | Some v => v
  | None => d
  end.

(** [x ?? d]: only [undefined] is replaced. *)
Definition nullish {A : Type} (x : option A) (d : A) : A :=
  match x with
  | Some v => v
  | None => d
  end.

(** [data || []] on a nullable array (an array is always truthy). *)
Definition or_empty {A : Type} (x : option (list A)) : list A :=
  match x with
  | Some l => l
  | None => []
  end.

(** [Array.prototype.join]. *)
Fixpoint join (sep : string) (l : list string) : string :=
  match l with
  | [] => ""
  | [x] => x
  | x :: rest => x ++ sep ++ join sep rest
  end.

End Js.

Import Js.

Notation "x <- r ;; k" := (bind r (fun x => k))
  (at level 61, r at next level, right associativity).

(** ** Data model (the exported interfaces) *)

Definition timestamp := Z.

(** [Record<string, unknown>] *)
Inductive json : Type :=
| JNull
| JBool (b : bool)
| JNumber (q : Q)
| JString (s : string).

Definition json_object := list (string * json).

Inductive embedding_provider : Type := Openai | Voyage | ProviderNone.

Record OpenClawMemoryConfig := {
  supabaseUrl : string;
  supabaseKey : string;
  agentId : string;
  embeddingProvider : option embedding_provider;
  openaiApiKey : option string;
  embeddingModel : option string
}.

Inductive role : Type := User | Assistant | System | Tool.

Record Message := {
  msg_id : string;
  session_id : string;
  msg_role : role;
  msg_content : string;
  msg_created_at : timestamp;
  token_count : option Z;
  msg_metadata : json_object
}.

Record Memory := {
  id : string;
  agent_id : string;
  user_id : option string;
  category : option string;
  content : string;
  importance : Q;
  source_session_id : option string;
  created_at : timestamp;
  updated_at : timestamp;
  expires_at : option timestamp;
  embedding : option (list Q);
  metadata : json_object
}.

(** ** The store: SQL pattern matching

    [q.ilike('content', pattern)] asks the store for
    [content ILIKE pattern].  In a pattern [%] stands for any run of
    characters, [_] for any one character and a backslash takes the next
    character literally; PostgREST also reads [*] as [%].  Letters are
    compared without regard to case (ASCII letters here, and a character
    is a byte: the model is that of the store on ASCII texts,
    [Spec.ascii_text] below). *)

Module Like.

Inductive token : Type :=
| Any                 (* [%] *)
| One                 (* [_] *)
| Lit (c : ascii).

Definition backslash : ascii := ascii_of_nat 92.

Definition star_alias (c : ascii) : ascii :=
  if Ascii.eqb c "*" then "%"%char else c.

(** [None]: the pattern ends in the middle of an escape, which the store
    rejects. *)
Fixpoint parse (p : list ascii) : option (list token) :=
  match p with
  | [] => Some []
  | c :: rest =>
      if Ascii.eqb c backslash then
        match rest with
        | [] => None
        | d :: rest' => option_map (cons (Lit d)) (parse rest')
        end
      else if Ascii.eqb c "%" then option_map (cons Any) (parse rest)
      else if Ascii.eqb c "_" then option_map (cons One) (parse rest)
      else option_map (cons (Lit c)) (parse rest)
  end.

Definition lower (c : ascii) : ascii :=
  let n := nat_of_ascii c in
  if (Nat.leb 65 n && Nat.leb n 90)%bool then ascii_of_nat (n + 32) else c.

Fixpoint matches (p : list token) (s : list ascii) {struct p} : bool :=
  match p with
  | [] => match s with [] => true | _ :: _ => false end
  | Any :: p' =>
      (fix skip (s : list ascii) : bool :=
         matches p' s
         || match s with [] => false | _ :: s' => skip s' end) s
  | One :: p' =>
      match s with [] => false | _ :: s' => matches p' s' end
  | Lit c :: p' =>
      match s with
      | [] => false
      | d :: s' => Ascii.eqb (lower c) (lower d) && matches p' s'
      end
  end.

Definition compile (pattern : string) : option (list token) :=
  parse (map star_alias (list_ascii_of_string pattern)).

(** [s ILIKE pattern]; [None] when the pattern is rejected. *)
Definition ilike (s pattern : string) : option bool :=
  option_map (fun p => matches p (list_ascii_of_string s)) (compile pattern).

End Like.

(** ** The store: tables, the query builder and the stored procedures *)

Module Postgrest.

Definition pg_error := string.

(** A store response is either [{ data, error: null }] or
    [{ data: null, error }]. *)
Inductive response (A : Type) : Type :=
| Success (data : A)
| Failure (error : pg_error).
Arguments Success {A} data.
Arguments Failure {A} error.

Definition range_not_satisfiable : pg_error := "PGRST103".
Definition invalid_escape_sequence : pg_error := "22025".
Definition not_found : pg_error := "NotFound".

Record Store := {
  memories : list Memory;
  messages : list Message;
  id_seq : nat;          (* rows inserted so far *)
  clock : timestamp      (* the store's [now()] *)
}.

(** Stable insertion sort: [ORDER BY] with ties left in table order. *)
Section Sort.
Context {A : Type} (leb : A -> A -> bool).

Fixpoint insert_sorted (x : A) (l : list A) : list A :=
  match l with
  | [] => [x]
  | y :: l' => if leb x y then x :: y :: l' else y :: insert_sorted x l'
  end.

Fixpoint sort_by (l : list A) : list A :=
  match l with
  | [] => []
  | x :: l' => insert_sorted x (sort_by l')
  end.
End Sort.

(** *** The query builder on [from('memories').select()] *)

Inductive column : Type := Importance | Created_at.

Inductive filter : Type :=
| Eq_agent_id (v : string)                (* [.eq('agent_id', v)] *)
| Eq_category (v : string)                (* [.eq('category', v)] *)
| Or_user_id_eq_or_is_null (v : string)   (* [.or('user_id.eq.v,user_id.is.null')],
                                             for a [v] free of the filter
                                             grammar's reserved characters
                                             ([Spec.is_plain] below) *)
| Gte_importance (v : Q)                  (* [.gte('importance', v)] *)
| Ilike_content (pattern : string).       (* [.ilike('content', pattern)] *)

Record query := {
  filters : list filter;
  ordering : list (column * bool);   (* column, ascending *)
  row_limit : option Z
}.

Definition from_memories_select : query :=
  {| filters := []; ordering := []; row_limit := None |}.

Definition where_ (f : filter) (q : query) : query :=
  {| filters := filters q ++ [f]; ordering := ordering q;
     row_limit := row_limit q |}.

Definition order (c : column) (ascending : bool) (q : query) : query :=
  {| filters := filters q; ordering := ordering q ++ [(c, ascending)];
     row_limit := row_limit q |}.

Definition limit (n : Z) (q : query) : query :=
  {| filters := filters q; ordering := ordering q; row_limit := Some n |}.

Definition option_eqb (o : option string) (v : string) : bool :=
  match o with
  | Some x => String.eqb x v
  | None => false
  end.

Definition filter_ok (f : filter) : bool :=
  match f with
  | Ilike_content p =>
      match Like.compile p with Some _ => true | None => false end
  | _ => true
  end.

Definition holds (f : filter) (m : Memory) : bool :=
  match f with
  | Eq_agent_id v => String.eqb (agent_id m) v
  | Eq_category v => option_eqb (category m) v
  | Or_user_id_eq_or_is_null v =>
      match user_id m with
      | Some u => String.eqb u v
      | None => true
      end
  | Gte_importance v => Qle_bool v (importance m)
  | Ilike_content p =>
      match Like.ilike (content m) p with
      | Some b => b
      | None => false
      end
  end.

Definition compare_column (c : column) (m1 m2 : Memory) : comparison :=
  match c with
  | Importance => Qcompare (importance m1) (importance m2)
  | Created_at => Z.compare (created_at m1) (created_at m2)
  end.

(** [true] when [m1] may stand before [m2] under [ORDER BY keys]. *)
Fixpoint before (keys : list (column * bool)) (m1 m2 : Memory) : bool :=
  match keys with
  | [] => true
  | (c, ascending) :: keys' =>
      match compare_column c m1 m2 with
      | Eq => before keys' m1 m2
      | Lt => ascending
      | Gt => negb ascending
      end
  end.

Definition rows_of (q : query) (table : list Memory) : list Memory :=
  sort_by (before (ordering q))
          (List.filter (fun m => forallb (fun f => holds f m) (filters q))
                       table).

(** Running a built query ([await q]): the rows that pass every filter, in
    the requested order, the first [row_limit] of them.  The store refuses a
    negative limit (range not satisfiable) and a pattern that ends inside an
    escape. *)
Definition run (st : Store) (q : query) : response (option (list Memory)) :=
  if negb (forallb filter_ok (filters q)) then Failure invalid_escape_sequence
  else
    match row_limit q with
    | Some n =>
        if n <? 0 then Failure range_not_satisfiable
        else Success (Some (firstn (Z.to_nat n) (rows_of q (memories st))))
    | None => Success (Some (rows_of q (memories st)))
    end.

(** *** [from('messages')] *)

Definition message_before (m1 m2 : Message) : bool :=
  msg_created_at m1 <=? msg_created_at m2.

(** [.select().eq('session_id', sid).order('created_at', { ascending: true })
    .range(from, to)]: rows [from .. to] of the ordered selection. *)

Definition select_messages (st : Store) (sid : string) (from to : Z)
  : response (option (list Message)) :=
  if (from <? 0) || (to - from + 1 <? 0) then Failure range_not_satisfiable
  else
    Success (Some
      (firstn (Z.to_nat (to - from + 1))
         (skipn (Z.to_nat from)
            (sort_by message_before
               (List.filter (fun m => String.eqb (session_id m) sid)
                            (messages st)))))).

(** *** Writes to [memories] *)

(** The object handed to [.insert(...)]. *)
Record memory_insert := {
  ins_agent_id : string;
  ins_user_id : option string;
  ins_category : option string;
  ins_content : string;
  ins_importance : Q;
  ins_source_session_id : option string;
  ins_expires_at : option timestamp;
  ins_embedding : option (list Q);
  ins_metadata : json_object
}.

(** [.insert(row).select().single()]: the store supplies the key and the
    two timestamps, keeps every column it was given, and answers with the
    stored row.  [uuid] is the store's key generator. *)
Definition insert_memory (uuid : nat -> string) (st : Store)
           (row : memory_insert) : response Memory * Store :=
  let stored :=
    {| id := uuid (id_seq st);
       agent_id := ins_agent_id row;
       user_id := ins_user_id row;
       category := ins_category row;
       content := ins_content row;
       importance := ins_importance row;
       source_session_id := ins_source_session_id row;
       created_at := clock st;
       updated_at := clock st;
       expires_at := ins_expires_at row;
       embedding := ins_embedding row;
       metadata := ins_metadata row |} in
  (Success stored,
   {| memories := memories st ++ [stored];
      messages := messages st;
      id_seq := S (id_seq st);
      clock := clock st + 1 |}).

(** [.delete().eq('id', v)] *)
Definition delete_memory_eq_id (st : Store) (v : string)
  : response unit * Store :=
  (Success tt,
   {| memories :=
        List.filter (fun m => negb (String.eqb (id m) v)) (memories st);
      messages := messages st;
      id_seq := id_seq st;
      clock := clock st |}).

(** *** Stored procedures ([supabase.rpc]) *)

Record match_memories_args := {
  query_embedding : list Q;
  match_threshold : Q;
  match_count : Z;
  p_agent_id : string;
  p_user_id : option string;
  p_category : option string;
  p_min_importance : option Q
}.

Record hybrid_search_memories_args := {
  h_query_embedding : list Q;
  h_query_text : string;
  h_vector_weight : Q;
  h_keyword_weight : Q;
  h_match_count : Z;
  h_p_agent_id : string;
  h_p_user_id : option string;
  h_p_category : option string;
  h_p_min_importance : option Q
}.

Record find_similar_memories_args := {
  memory_id : string;
  f_match_threshold : Q;
  f_match_count : Z
}.

Definition optional (A : Type) (p : A -> bool) (o : option A) : bool :=
  match o with
  | Some v => p v
  | None => true
  end.
Arguments optional {A} p o.

Section Procedures.
(** The vector index's similarity of two embeddings. *)
Variable similarity : list Q -> list Q -> Q.

Definition similar_to (e : list Q) (threshold : Q) (m : Memory) : bool :=
  match embedding m with
  | Some e' => Qle_bool threshold (similarity e e')
  | None => false
  end.

Definition score (e : list Q) (m : Memory) : Q :=
  match embedding m with
  | Some e' => similarity e e'
  | None => 0
  end.

Definition closer (e : list Q) (m1 m2 : Memory) : bool :=
  Qle_bool (score e m2) (score e m1).

(** Modelled from the spec: the stored procedure [match_memories] (the
    vector-search migration is not among the sources).  Rows of the
    agent that carry an embedding, pass each filter that was given (a
    row without a user passes the user filter) and are at least
    [match_threshold] similar to the query vector, by similarity
    descending, at most [match_count] of them. *)
Definition match_memories (st : Store) (a : match_memories_args)
  : response (option (list Memory)) :=
  Success (Some
    (firstn (Z.to_nat (match_count a))
       (sort_by (closer (query_embedding a))
          (List.filter
             (fun m =>
                String.eqb (agent_id m) (p_agent_id a)
                && optional (fun u => holds (Or_user_id_eq_or_is_null u) m)
                            (p_user_id a)
                && optional (fun c => holds (Eq_category c) m)
                            (p_category a)
                && optional (fun i => holds (Gte_importance i) m)
                            (p_min_importance a)
                && similar_to (query_embedding a) (match_threshold a) m)
             (memories st))))).

(** Modelled from the spec: the stored procedure
    [find_similar_memories] (not among the sources).  It looks up the
    stored embedding of the referenced memory, failing with NotFound
    when the memory is absent or has none, and searches the other
    memories of the same agent with it. *)
Definition find_similar_memories (st : Store)
           (a : find_similar_memories_args)
  : response (option (list Memory)) :=
  match List.find (fun m => String.eqb (id m) (memory_id a)) (memories st)
  with
  | None => Failure not_found
  | Some source =>
      match embedding source with
      | None => Failure not_found
      | Some e =>
          Success (Some
            (firstn (Z.to_nat (f_match_count a))
               (sort_by (closer e)
                  (List.filter
                     (fun m =>
                        negb (String.eqb (id m) (memory_id a))
                        && String.eqb (agent_id m) (agent_id source)
                        && similar_to e (f_match_threshold a) m)
                     (memories st)))))
      end
  end.
End Procedures.

End Postgrest.

(** ** The collaborators the engine does not own *)

Record Backend := {
  (** [openai.embeddings.create({ model, input })] followed by
      [response.data[0].embedding], for the client built from an API key *)
  embeddings_create : string -> string -> string -> result (list Q);
  (** the vector index's similarity *)
  similarity : list Q -> list Q -> Q;
  (** the store's key generator *)
  gen_random_uuid : nat -> string;
  (** the stored procedure [hybrid_search_memories]; its fusion of the two
      scores is left open by the specification and is not fixed here *)
  hybrid_search_memories :
    Postgrest.Store -> Postgrest.hybrid_search_memories_args ->
    Postgrest.response (option (list Memory))
}.

(** ** Option bags of the public methods *)

Module RememberArg.
Record t := {
  content : string;
  category : option string;
  importance : option Q;
  userId : option string;
  sessionId : option string;
  expiresAt : option timestamp;
  metadata : option json_object
}.
End RememberArg.

Module RecallOpts.
Record t := {
  userId : option string;
  category : option string;
  limit : option Z;
  minImportance : option Q;
  minSimilarity : option Q
}.
(** [{}], the default argument *)
Definition empty : t :=
  {| userId := None; category := None; limit := None;
     minImportance := None; minSimilarity := None |}.
(** [{ ...o, limit: l }] *)
Definition with_limit (l : option Z) (o : t) : t :=
  {| userId := userId o; category := category o; limit := l;
     minImportance := minImportance o; minSimilarity := minSimilarity o |}.
End RecallOpts.

Module HybridOpts.
Record t := {
  userId : option string;
  category : option string;
  limit : option Z;
  minImportance : option Q;
  vectorWeight : option Q;
  keywordWeight : option Q
}.
Definition empty : t :=
  {| userId := None; category := None; limit := None;
     minImportance := None; vectorWeight := None; keywordWeight := None |}.
Definition with_limit (l : option Z) (o : t) : t :=
  {| userId := userId o; category := category o; limit := l;
     minImportance := minImportance o; vectorWeight := vectorWeight o;
     keywordWeight := keywordWeight o |}.

(** The same object read at the type of [recall]'s options: the fields
    [recall] knows are the shared ones, and [minSimilarity] is absent. *)
Definition as_recall (o : t) : RecallOpts.t :=
  {| RecallOpts.userId := userId o;
     RecallOpts.category := category o;
     RecallOpts.limit := limit o;
     RecallOpts.minImportance := minImportance o;
     RecallOpts.minSimilarity := None |}.
End HybridOpts.

Module SimilarOpts.
Record t := {
  minSimilarity : option Q;
  limit : option Z
}.
Definition empty : t := {| minSimilarity := None; limit := None |}.
End SimilarOpts.

Module MessagesOpts.
Record t := {
  limit : option Z;
  offset : option Z
}.
End MessagesOpts.

Module ContextOpts.
Record t := {
  userId : option string;
  sessionId : option string;
  maxMemories : option Z;
  maxMessages : option Z
}.
Definition empty : t :=
  {| userId := None; sessionId := None;
     maxMemories := None; maxMessages := None |}.
End ContextOpts.

Record Context := {
  ctx_memories : list Memory;
  recentMessages : list Message;
  summary : string
}.

Notation "q |> f" := (f q) (at level 45, left associativity, only parsing).

(** ** The class [OpenClawMemory] *)

Section OpenClawMemory.

Variable B : Backend.
(** the instance: its [config] (of which [agentId] is a copy) *)
Variable this : OpenClawMemoryConfig.

Import Postgrest.

(** [this.openai], set by the constructor when an API key was given;
    the client is represented by its key. *)
Definition openai : option string := truthy_string (openaiApiKey this).

(** [{ data, error } = await ...; if (error) throw error; return data || []] *)
Definition rows_or_throw {A : Type} (r : response (option (list A)))
  : result (list A) :=
  match r with
  | Failure error => Throw (PostgrestError error)
  | Success data => Ok (or_empty data)
  end.

Definition generateEmbedding (text : string) : result (option (list Q)) :=
  match embeddingProvider this with
  | None | Some ProviderNone => Ok None
  | Some Openai =>
      match openai with
      | None => Throw (Error "OpenAI API key not provided")
      | Some client =>
          let model :=
            or_string (embeddingModel this) "text-embedding-3-small" in
          e <- embeddings_create B client model text ;;
          Ok (Some e)
      end
  | Some Voyage => Throw (Error "Voyage AI embeddings not yet implemented")
  end.

(** The row [remember] hands to the store. *)
Definition remember_row (memory : RememberArg.t) (embedding : option (list Q))
  : memory_insert :=
  {| ins_agent_id := agentId this;
     ins_user_id := RememberArg.userId memory;
     ins_category := RememberArg.category memory;
     ins_content := RememberArg.content memory;
     ins_importance := nullish (RememberArg.importance memory) (1 # 2)%Q;
     ins_source_session_id := RememberArg.sessionId memory;
     ins_expires_at := RememberArg.expiresAt memory;
     ins_embedding := embedding;
     ins_metadata := nullish (RememberArg.metadata memory) [] |}.

Definition remember (st : Store) (memory : RememberArg.t)
  : result Memory * Store :=
  match generateEmbedding (RememberArg.content memory) with
  | Throw e => (Throw e, st)
  | Ok embedding =>
      match insert_memory (gen_random_uuid B) st
              (remember_row memory embedding) with
      | (Failure error, st') => (Throw (PostgrestError error), st')
      | (Success data, st') => (Ok data, st')
      end
  end.

(** The text search of [recall]: its whole body in the first version of
    the class, the fallback without embeddings in the second. *)
Definition text_search_query (query : string) (opts : RecallOpts.t)
  : Postgrest.query :=
  let q := from_memories_select
           |> where_ (Eq_agent_id (agentId this))
           |> order Importance false
           |> order Created_at false
           |> Postgrest.limit (or_count (RecallOpts.limit opts) 10) in
  let q := match truthy_string (RecallOpts.userId opts) with
           | Some userId => q |> where_ (Or_user_id_eq_or_is_null userId)
           | None => q
           end in
  let q := match truthy_string (RecallOpts.category opts) with
           | Some category => q |> where_ (Eq_category category)
           | None => q
           end in
  let q := match truthy_number (RecallOpts.minImportance opts) with
           | Some minImportance => q |> where_ (Gte_importance minImportance)
           | None => q
           end in
  q |> where_ (Ilike_content ("%" ++ query ++ "%")).

Definition text_search (st : Store) (query : string) (opts : RecallOpts.t)
  : result (list Memory) :=
  rows_or_throw (run st (text_search_query query opts)).

Definition recall_rpc_args (queryEmbedding : list Q) (opts : RecallOpts.t)
  : match_memories_args :=
  {| query_embedding := queryEmbedding;
     match_threshold := nullish (RecallOpts.minSimilarity opts) (7 # 10)%Q;
     match_count := or_count (RecallOpts.limit opts) 10;
     p_agent_id := agentId this;
     p_user_id := RecallOpts.userId opts;
     p_category := RecallOpts.category opts;
     p_min_importance := RecallOpts.minImportance opts |}.

Definition recall (st : Store) (query : string) (opts : RecallOpts.t)
  : result (list Memory) :=
  queryEmbedding <- generateEmbedding query ;;
  match queryEmbedding with
  | Some queryEmbedding =>
      rows_or_throw
        (match_memories (similarity B) st
           (recall_rpc_args queryEmbedding opts))
  | None => text_search st query opts
  end.

Definition hybrid_rpc_args (queryEmbedding : list Q) (query : string)
           (opts : HybridOpts.t) : hybrid_search_memories_args :=
  let vectorWeight := nullish (HybridOpts.vectorWeight opts) (7 # 10)%Q in
  let keywordWeight := nullish (HybridOpts.keywordWeight opts) (3 # 10)%Q in
  {| h_query_embedding := queryEmbedding;
     h_query_text := query;
     h_vector_weight := vectorWeight;
     h_keyword_weight := keywordWeight;
     h_match_count := or_count (HybridOpts.limit opts) 10;
     h_p_agent_id := agentId this;
     h_p_user_id := HybridOpts.userId opts;
     h_p_category := HybridOpts.category opts;
     h_p_min_importance := HybridOpts.minImportance opts |}.

Definition hybridRecall (st : Store) (query : string) (opts : HybridOpts.t)
  : result (list Memory) :=
  queryEmbedding <- generateEmbedding query ;;
  match queryEmbedding with
  | Some queryEmbedding =>
      rows_or_throw
        (hybrid_search_memories B st
           (hybrid_rpc_args queryEmbedding query opts))
  | None => recall st query (HybridOpts.as_recall opts)
  end.

Definition forget (st : Store) (memoryId : string) : result unit * Store :=
  match delete_memory_eq_id st memoryId with
  | (Failure error, st') => (Throw (PostgrestError error), st')
  | (Success _, st') => (Ok tt, st')
  end.

Definition similar_rpc_args (memoryId : string) (opts : SimilarOpts.t)
  : find_similar_memories_args :=
  {| memory_id := memoryId;
     f_match_threshold := nullish (SimilarOpts.minSimilarity opts) (8 # 10)%Q;
     f_match_count := or_count (SimilarOpts.limit opts) 5 |}.

Definition findSimilarMemories (st : Store) (memoryId : string)
           (opts : SimilarOpts.t) : result (list Memory) :=
  rows_or_throw
    (find_similar_memories (similarity B) st (similar_rpc_args memoryId opts)).

Definition getMessages (st : Store) (sessionId : string)
           (opts : MessagesOpts.t) : result (list Message) :=
  let offset := or_count (MessagesOpts.offset opts) 0 in
  rows_or_throw
    (select_messages st sessionId offset
       (offset + or_count (MessagesOpts.limit opts) 100 - 1)).

Definition getContext (st : Store) (query : string) (opts : ContextOpts.t)
  : result Context :=
  memories <- recall st query
                {| RecallOpts.userId := ContextOpts.userId opts;
                   RecallOpts.category := None;
                   RecallOpts.limit :=
                     Some (or_count (ContextOpts.maxMemories opts) 5);
                   RecallOpts.minImportance := None;
                   RecallOpts.minSimilarity := None |} ;;
  recentMessages <-
    match truthy_string (ContextOpts.sessionId opts) with
    | Some sessionId =>
        getMessages st sessionId
          {| MessagesOpts.limit :=
               Some (or_count (ContextOpts.maxMessages opts) 20);
             MessagesOpts.offset := None |}
    | None => Ok []
    end ;;
  let memoryText := join (String (ascii_of_nat 10) "")
                         (map (fun m => "- " ++ content m) memories) in
  let summary :=
    if (0 <? Z.of_nat (List.length memories))
    then "Relevant memories:" ++ String (ascii_of_nat 10) "" ++ memoryText
    else "No relevant memories found." in
  Ok {| ctx_memories := memories;
        recentMessages := recentMessages;
        summary := summary |}.

End OpenClawMemory.

(** ** The first version of the class

    Before embeddings were added the class had no provider: [remember]
    stored a null embedding and the body of [recall] was the text search;
    [forget] and [getContext] read as above. *)

Module FirstVersion.

Import Postgrest.

Definition remember (uuid : nat -> string) (this : OpenClawMemoryConfig)
           (st : Store) (memory : RememberArg.t) : result Memory * Store :=
  let embedding : option (list Q) := None in
  match insert_memory uuid st (remember_row this memory embedding) with
  | (Failure error, st') => (Throw (PostgrestError error), st')
  | (Success data, st') => (Ok data, st')
  end.

Definition recall (this : OpenClawMemoryConfig) (st : Store) (query : string)
           (opts : RecallOpts.t) : result (list Memory) :=
  text_search this st query opts.

End FirstVersion.

(** ** Sample instances

    Two agents share one store.  Agent [agent-1] holds the two memories of
    the specification's scenarios and one whose importance lies outside the
    nominal range; agent [agent-2] holds one memory. *)

Module Sample.

Import Postgrest.

Definition dot (e1 e2 : list Q) : Q :=
  fold_right Qplus 0%Q (map (fun p => (fst p * snd p)%Q) (combine e1 e2)).

Definition backend : Backend :=
  {| embeddings_create := fun _ _ _ => Ok [1%Q; 0%Q];
     similarity := dot;
     gen_random_uuid := fun n => String (ascii_of_nat (48 + n)) "";
     hybrid_search_memories := fun _ _ => Success None |}.

Definition config (agent : string) (provider : option embedding_provider)
           (key : option string) : OpenClawMemoryConfig :=
  {| supabaseUrl := "https://example.supabase.co";
     supabaseKey := "anon";
     agentId := agent;
     embeddingProvider := provider;
     openaiApiKey := key;
     embeddingModel := None |}.

(** no embedding provider *)
Definition plain : OpenClawMemoryConfig := config "agent-1" None None.
(** OpenAI selected, no API key given *)
Definition keyless : OpenClawMemoryConfig := config "agent-1" (Some Openai) None.
(** OpenAI selected with a key *)
Definition keyed : OpenClawMemoryConfig :=
  config "agent-1" (Some Openai) (Some "sk-test").

Definition row (i agent : string) (user cat : option string) (text : string)
           (imp : Q) (at_ : timestamp) (e : option (list Q)) : Memory :=
  {| id := i; agent_id := agent; user_id := user; category := cat;
     content := text; importance := imp; source_session_id := None;
     created_at := at_; updated_at := at_; expires_at := None;
     embedding := e; metadata := [] |}.

Definition mem_a : Memory :=
  row "A" "agent-1" None (Some "preference") "prefers TypeScript"
      (9 # 10) 1 (Some [1%Q; 0%Q]).
Definition mem_b : Memory :=
  row "B" "agent-1" (Some "u1") (Some "habit") "likes coffee"
      (2 # 10) 2 (Some [0%Q; 1%Q]).
Definition mem_n : Memory :=
  row "N" "agent-1" None (Some "debt") "owes a favour" (- (1 # 2)) 3 None.
Definition mem_z : Memory :=
  row "Z" "agent-2" None None "prefers Rust" (1 # 2) 4 (Some [1%Q; 0%Q]).

Definition store : Store :=
  {| memories := [mem_a; mem_b; mem_n; mem_z];
     messages := [];
     id_seq := 0;
     clock := 10 |}.

Definition note : RememberArg.t :=
  {| RememberArg.content := "uses vim";
     RememberArg.category := None;
     RememberArg.importance := None;
     RememberArg.userId := None;
     RememberArg.sessionId := None;
     RememberArg.expiresAt := None;
     RememberArg.metadata := None |}.

(** A store in which memory [A] has a near-duplicate [T] of the same
    agent, next to the equally similar [Z] of another agent. *)
Definition mem_t : Memory :=
  row "T" "agent-1" None None "likes TypeScript" (1 # 2) 5
      (Some [1%Q; 0%Q]).

Definition twins : Store :=
  {| memories := [mem_a; mem_t; mem_b; mem_z];
     messages := [];
     id_seq := 0;
     clock := 10 |}.

(** [{ limit: 0 }] *)
Definition zero_limit : HybridOpts.t :=
  HybridOpts.with_limit (Some 0) HybridOpts.empty.

(** [{ minImportance: 0 }] *)
Definition zero_importance : RecallOpts.t :=
  {| RecallOpts.userId := None; RecallOpts.category := None;
     RecallOpts.limit := None; RecallOpts.minImportance := Some 0%Q;
     RecallOpts.minSimilarity := None |}.

(** [{ userId: 'u1', category: 'habit', limit: 3, minImportance: 0.1 }] *)
Definition narrow : RecallOpts.t :=
  {| RecallOpts.userId := Some "u1"; RecallOpts.category := Some "habit";
     RecallOpts.limit := Some 3; RecallOpts.minImportance := Some (1 # 10)%Q;
     RecallOpts.minSimilarity := None |}.

End Sample.

(** ** The vocabulary of the specification *)

Module Spec.

(** The embedding provider answers Unavailable: none is configured, or
    embeddings are switched off. *)
Definition unavailable (cfg : OpenClawMemoryConfig) : Prop :=
  embeddingProvider cfg = None \/ embeddingProvider cfg = Some ProviderNone.

Definition fold_case (s : string) : list ascii :=
  map Like.lower (list_ascii_of_string s).

(** [q] occurs in [s], letter case aside. *)
Definition occurs_in (q s : string) : Prop :=
  exists pre post, fold_case s = (pre ++ fold_case q ++ post)%list.

(** No character of [q] has a meaning of its own inside a pattern. *)
Definition literal_char (c : ascii) : bool :=
  negb (Ascii.eqb c "%" || Ascii.eqb c "_" || Ascii.eqb c "*"
        || Ascii.eqb c Like.backslash).

Definition literal (q : string) : Prop :=
  forallb literal_char (list_ascii_of_string q) = true.

(** Importance descending, then creation time descending. *)
Definition ranks_before (m1 m2 : Memory) : Prop :=
  (importance m2 < importance m1)%Q
  \/ ((importance m1 == importance m2)%Q /\ created_at m2 <= created_at m1).

(** A row is visible under a user filter when it is that user's or
    nobody's. *)
Definition visible_to (u : string) (m : Memory) : bool :=
  match user_id m with
  | Some v => String.eqb v u
  | None => true
  end.

(** What the text search asks of a row: the agent, each filter that carries
    a value (a non-empty string, a non-zero number), and the pattern. *)
Definition qualifies (cfg : OpenClawMemoryConfig) (query : string)
           (opts : RecallOpts.t) (m : Memory) : bool :=
  String.eqb (agent_id m) (agentId cfg)
  && match truthy_string (RecallOpts.userId opts) with
     | Some u => visible_to u m
     | None => true
     end
  && match truthy_string (RecallOpts.category opts) with
     | Some c => Postgrest.option_eqb (category m) c
     | None => true
     end
  && match truthy_number (RecallOpts.minImportance opts) with
     | Some i => Qle_bool i (importance m)
     | None => true
     end
  && match Like.ilike (content m) ("%" ++ query ++ "%") with
     | Some b => b
     | None => false
     end.

(** [ORDER BY importance DESC, created_at DESC] *)
Definition rank_keys : list (Postgrest.column * bool) :=
  [(Postgrest.Importance, false); (Postgrest.Created_at, false)].

(** The same in words: the row is the agent's and passes each filter
    that carries a value. *)
Definition passes (cfg : OpenClawMemoryConfig) (opts : RecallOpts.t)
           (m : Memory) : Prop :=
  agent_id m = agentId cfg
  /\ (forall u, RecallOpts.userId opts = Some u -> u <> "" ->
        user_id m = Some u \/ user_id m = None)
  /\ (forall c, RecallOpts.category opts = Some c -> c <> "" ->
        category m = Some c)
  /\ (forall i, RecallOpts.minImportance opts = Some i -> ~ (i == 0)%Q ->
        (i <= importance m)%Q).

(** The options of a [hybridRecall] call and of a [recall] call that carry
    the same filters and limit. *)
Definition same_options (h : HybridOpts.t) (r : RecallOpts.t) : Prop :=
  RecallOpts.userId r = HybridOpts.userId h
  /\ RecallOpts.category r = HybridOpts.category h
  /\ RecallOpts.limit r = HybridOpts.limit h
  /\ RecallOpts.minImportance r = HybridOpts.minImportance h.

(** The options [getContext] recalls with: the given user filter and
    [maxMemories] (5 by default) as the limit. *)
Definition context_recall_options (opts : ContextOpts.t) : RecallOpts.t :=
  {| RecallOpts.userId := ContextOpts.userId opts;
     RecallOpts.category := None;
     RecallOpts.limit := Some (or_count (ContextOpts.maxMemories opts) 5);
     RecallOpts.minImportance := None;
     RecallOpts.minSimilarity := None |}.

Definition newline : string := String (ascii_of_nat 10) "".

(** One bulleted line per memory, each on a line of its own and whole. *)
Fixpoint bulleted (ms : list Memory) : string :=
  match ms with
  | [] => ""
  | m :: rest => newline ++ "- " ++ content m ++ bulleted rest
  end.

(** The template of the summary: a header line and the bulleted lines, or
    the fallback text when there is no memory. *)
Definition summary_of (ms : list Memory) : string :=
  match ms with
  | [] => "No relevant memories found."
  | _ :: _ => "Relevant memories:" ++ bulleted ms
  end.

(** The cap on the number of rows: the limit, or 10 when the limit is
    absent or 0. *)
Definition cap (opts : RecallOpts.t) : Z := or_count (RecallOpts.limit opts) 10.

(** *** The inputs on which the model of the store is exact

    [recall] splices the user id into the text of an [or] filter, and the
    store compares texts character by character under its own case rules.
    The model reads the spliced id as one value and matches byte by byte
    with the case rules of ASCII, which is what the store does for the ids
    and the texts below. *)

(** A character that means nothing in the store's filter grammar: a
    letter, a digit, [-] or [_] (the characters of a UUID among them). *)
Definition plain_char (c : ascii) : bool :=
  let n := nat_of_ascii c in
  (Nat.leb 48 n && Nat.leb n 57)
  || (Nat.leb 65 n && Nat.leb n 90)
  || (Nat.leb 97 n && Nat.leb n 122)
  || Nat.eqb n 45 || Nat.eqb n 95.

Definition is_plain (s : string) : bool :=
  forallb plain_char (list_ascii_of_string s).

(** The user id of a call, when there is one, is plain. *)
Definition plain_user (userId : option string) : Prop :=
  match userId with
  | Some u => is_plain u = true
  | None => True
  end.

(** A text of ASCII characters only. *)
Definition is_ascii (s : string) : bool :=
  forallb (fun c => Nat.ltb (nat_of_ascii c) 128) (list_ascii_of_string s).

Definition ascii_text (s : string) : Prop := is_ascii s = true.

(** Every stored content is an ASCII text. *)
Definition ascii_contents (st : Postgrest.Store) : Prop :=
  forallb (fun m => is_ascii (content m)) (Postgrest.memories st) = true.

End Spec.

(** ** Statements of the specification, as they are worded *)

Module AsWorded.

Import Postgrest.

(** A limit of 0 or less gives the empty sequence, for both strategies. *)
Definition nonpositive_limit_is_empty (B : Backend)
           (cfg : OpenClawMemoryConfig) (st : Store) (query : string)
           (opts : HybridOpts.t) : Prop :=
  forall n, HybridOpts.limit opts = Some n -> n <= 0 ->
    recall B cfg st query (HybridOpts.as_recall opts) = Ok []
    /\ hybridRecall B cfg st query opts = Ok [].

(** At most [limit] rows, each passing every filter that was supplied. *)
Definition within_limit_and_filters (opts : RecallOpts.t)
           (rows : list Memory) : Prop :=
  (forall n, RecallOpts.limit opts = Some n ->
     Z.of_nat (List.length rows) <= n)
  /\ Forall
       (fun m =>
          (forall u, RecallOpts.userId opts = Some u ->
             user_id m = Some u \/ user_id m = None)
          /\ (forall c, RecallOpts.category opts = Some c ->
                category m = Some c)
          /\ (forall i, RecallOpts.minImportance opts = Some i ->
                (i <= importance m)%Q))
       rows.

Definition recall_within_limit_and_filters (B : Backend)
           (cfg : OpenClawMemoryConfig) (st : Store) (query : string)
           (opts : RecallOpts.t) : Prop :=
  forall rows, recall B cfg st query opts = Ok rows ->
    within_limit_and_filters opts rows.

(** Without an embedding: no error, pattern matches under the same
    filters, ranked, capped at [limit]. *)
Definition keyword_fallback (B : Backend) (cfg : OpenClawMemoryConfig)
           (st : Store) (query : string) (opts : RecallOpts.t) : Prop :=
  Spec.unavailable cfg ->
  exists rows,
    recall B cfg st query opts = Ok rows
    /\ Forall (fun m => Like.ilike (content m) ("%" ++ query ++ "%")
                       = Some true) rows
    /\ StronglySorted Spec.ranks_before rows
    /\ within_limit_and_filters opts rows.

(** [forget] leaves the memories of every other agent in place. *)
Definition forget_within_agent (cfg : OpenClawMemoryConfig) (st : Store)
           (memoryId : string) : Prop :=
  forall m, In m (memories st) -> agent_id m <> agentId cfg ->
    In m (memories (snd (forget st memoryId))).

(** [recall("")] is the first [limit] of the agent's memories in rank
    order. *)
Definition empty_query_top_limit (B : Backend) (cfg : OpenClawMemoryConfig)
           (st : Store) (opts : RecallOpts.t) : Prop :=
  Spec.unavailable cfg ->
  RecallOpts.userId opts = None ->
  RecallOpts.category opts = None ->
  RecallOpts.minImportance opts = None ->
  forall n, RecallOpts.limit opts = Some n ->
    exists ranked,
      Permutation ranked
        (List.filter (fun m => String.eqb (agent_id m) (agentId cfg))
                     (memories st))
      /\ StronglySorted Spec.ranks_before ranked
      /\ recall B cfg st "" opts = Ok (firstn (Z.to_nat n) ranked).

(** [getContext] recalls with [maxMemories] as the limit: its memories
    are what [recall] returns for the given user and that limit. *)
Definition context_limit_is_maxMemories (B : Backend)
           (cfg : OpenClawMemoryConfig) (st : Store) (query : string)
           (opts : ContextOpts.t) : Prop :=
  forall n ctx,
    ContextOpts.maxMemories opts = Some n ->
    getContext B cfg st query opts = Ok ctx ->
    recall B cfg st query
           {| RecallOpts.userId := ContextOpts.userId opts;
              RecallOpts.category := None;
              RecallOpts.limit := Some n;
              RecallOpts.minImportance := None;
              RecallOpts.minSimilarity := None |}
    = Ok (ctx_memories ctx).

End AsWorded.

(** ** The other tables

    Sessions, tasks and the paged listings go through the same client as
    the memories.  [Table] gives the query builder and the single-row
    requests for any row type: a condition is a predicate on rows, a sort
    key a comparison with a direction. *)

Module Table.

Import Postgrest.

(** The error of [.single()] when the request does not yield exactly one
    row. *)
Definition not_single : pg_error := "PGRST116".

Record select (R : Type) := {
  conds : list (R -> bool);
  keys : list ((R -> R -> comparison) * bool);   (* comparison, ascending *)
  first_row : Z;
  row_count : option Z
}.
Arguments conds {R} s.
Arguments keys {R} s.
Arguments first_row {R} s.
Arguments row_count {R} s.

(** [from(table).select()] *)
Definition from_select {R : Type} : select R :=
  {| conds := []; keys := []; first_row := 0; row_count := None |}.

(** [.eq(column, value)], given as the test it makes on a row *)
Definition eq_ {R : Type} (test : R -> bool) (q : select R) : select R :=
  {| conds := conds q ++ [test]; keys := keys q;
     first_row := first_row q; row_count := row_count q |}.

(** [.order(column, { ascending })] *)
Definition order_by {R : Type} (cmp : R -> R -> comparison) (ascending : bool)
           (q : select R) : select R :=
  {| conds := conds q; keys := keys q ++ [(cmp, ascending)];
     first_row := first_row q; row_count := row_count q |}.

(** [.limit(n)] *)
Definition limit {R : Type} (n : Z) (q : select R) : select R :=
  {| conds := conds q; keys := keys q;
     first_row := first_row q; row_count := Some n |}.

(** [.range(from, to)]: an offset of [from] and a limit of
    [to - from + 1] *)
Definition range {R : Type} (from to : Z) (q : select R) : select R :=
  {| conds := conds q; keys := keys q;
     first_row := from; row_count := Some (to - from + 1) |}.

Fixpoint before_by {R : Type} (ks : list ((R -> R -> comparison) * bool))
         (r1 r2 : R) : bool :=
  match ks with
  | [] => true
  | (cmp, ascending) :: ks' =>
      match cmp r1 r2 with
      | Eq => before_by ks' r1 r2
      | Lt => ascending
      | Gt => negb ascending
      end
  end.

(** The selection in order, before the window is cut out. *)
Definition selected {R : Type} (q : select R) (rows : list R) : list R :=
  sort_by (before_by (keys q))
          (List.filter (fun r => forallb (fun test => test r) (conds q)) rows).

(** [await q]: the store refuses a negative offset or limit. *)
Definition run {R : Type} (rows : list R) (q : select R)
  : response (option (list R)) :=
  if (first_row q <? 0)
     || match row_count q with Some n => n <? 0 | None => false end
  then Failure range_not_satisfiable
  else
    let rest := skipn (Z.to_nat (first_row q)) (selected q rows) in
    Success (Some match row_count q with
                  | Some n => firstn (Z.to_nat n) rest
                  | None => rest
                  end).

(** [.single()]: exactly one row, or the error [not_single]. *)
Definition single {R : Type} (l : list R) : response R :=
  match l with
  | [r] => Success r
  | _ => Failure not_single
  end.

(** A table with what the store adds to an inserted row: a key and the
    time of the insert. *)
Record t (R : Type) := {
  rows : list R;
  next_key : nat;
  now : timestamp
}.
Arguments rows {R} t.
Arguments next_key {R} t.
Arguments now {R} t.

(** [.insert(row).select().single()]; [stored key time] is the row as the
    store keeps it. *)
Definition insert_single {R : Type} (uuid : nat -> string)
           (stored : string -> timestamp -> R) (tbl : t R)
  : response R * t R :=
  let r := stored (uuid (next_key tbl)) (now tbl) in
  (Success r,
   {| rows := rows tbl ++ [r];
      next_key := S (next_key tbl);
      now := now tbl + 1 |}).

(** [.select().eq('id', v).single()] *)
Definition select_single {R : Type} (key : R -> string) (tbl : t R)
           (v : string) : response R :=
  single (List.filter (fun r => String.eqb (key r) v) (rows tbl)).

(** [.update(patch).eq('id', v).select().single()]: when the update does
    not touch exactly one row the store reports [not_single] and rolls the
    update back. *)
Definition update_single {R : Type} (key : R -> string) (patch : R -> R)
           (tbl : t R) (v : string) : response R * t R :=
  match List.filter (fun r => String.eqb (key r) v) (rows tbl) with
  | [r] =>
      (Success (patch r),
       {| rows := map (fun r => if String.eqb (key r) v then patch r else r)
                      (rows tbl);
          next_key := next_key tbl;
          now := now tbl |})
  | _ => (Failure not_single, tbl)
  end.

(** A sort key on an integer column. *)
Definition by_column {R : Type} (column : R -> Z) (r1 r2 : R) : comparison :=
  Z.compare (column r1) (column r2).

End Table.

(** ** Sessions *)

Module Sessions.

Import Postgrest.

Record Session := {
  id : string;
  agent_id : string;
  user_id : option string;
  channel : option string;
  started_at : timestamp;
  ended_at : option timestamp;
  summary : option string;
  metadata : json_object
}.

Module StartOpts.
Record t := {
  userId : option string;
  channel : option string;
  metadata : option json_object
}.
End StartOpts.

Module EndOpts.
Record t := { summary : option string }.
End EndOpts.

Module RecentOpts.
Record t := {
  userId : option string;
  limit : option Z
}.
End RecentOpts.

(** The object [startSession] inserts. *)
Record session_insert := {
  ins_agent_id : string;
  ins_user_id : option string;
  ins_channel : option string;
  ins_metadata : json_object
}.

(** The row the store keeps for it: a session starts when it is inserted,
    open and without a summary. *)
Definition stored (row : session_insert) (key : string) (time : timestamp)
  : Session :=
  {| id := key;
     agent_id := ins_agent_id row;
     user_id := ins_user_id row;
     channel := ins_channel row;
     started_at := time;
     ended_at := None;
     summary := None;
     metadata := ins_metadata row |}.

(** The object [endSession] sends: a property that is [undefined] is not
    part of the request, so its column keeps its value. *)
Record session_update := {
  upd_ended_at : timestamp;
  upd_summary : option string
}.

Definition updated (u : session_update) (s : Session) : Session :=
  {| id := id s;
     agent_id := agent_id s;
     user_id := user_id s;
     channel := channel s;
     started_at := started_at s;
     ended_at := Some (upd_ended_at u);
     summary := match upd_summary u with
                | Some v => Some v
                | None => summary s
                end;
     metadata := metadata s |}.

Section Methods.

Variable B : Backend.
Variable this : OpenClawMemoryConfig.

Definition startSession (tbl : Table.t Session) (opts : StartOpts.t)
  : result Session * Table.t Session :=
  match Table.insert_single (gen_random_uuid B)
          (stored {| ins_agent_id := agentId this;
                     ins_user_id := StartOpts.userId opts;
                     ins_channel := StartOpts.channel opts;
                     ins_metadata := nullish (StartOpts.metadata opts) [] |})
          tbl with
  | (Failure error, tbl') => (Throw (PostgrestError error), tbl')
  | (Success data, tbl') => (Ok data, tbl')
  end.

(** [today] is what [new Date()] reads. *)
Definition endSession (today : timestamp) (tbl : Table.t Session)
           (sessionId : string) (opts : EndOpts.t)
  : result Session * Table.t Session :=
  match Table.update_single id
          (updated {| upd_ended_at := today;
                      upd_summary := EndOpts.summary opts |})
          tbl sessionId with
  | (Failure error, tbl') => (Throw (PostgrestError error), tbl')
  | (Success data, tbl') => (Ok data, tbl')
  end.

Definition getSession (tbl : Table.t Session) (sessionId : string)
  : result (option Session) :=
  match Table.select_single id tbl sessionId with
  | Failure error =>
      if negb (String.eqb error "PGRST116")
      then Throw (PostgrestError error)
      else Ok None
  | Success data => Ok (Some data)
  end.


End Methods.

End Sessions.

(** ** Messages and the listing of memories *)

Module MessageArg.
Record t := {
  role : role;
  content : string;
  tokenCount : option Z;
  metadata : option json_object
}.
End MessageArg.

Module MemoriesOpts.
Record t := {
  userId : option string;
  category : option string;
  limit : option Z;
  offset : option Z
}.
Definition empty : t :=
  {| userId := None; category := None; limit := None; offset := None |}.
End MemoriesOpts.

Section MessagesAndListing.

Import Postgrest.

Variable B : Backend.
Variable this : OpenClawMemoryConfig.

(** [from('messages').insert(...).select().single()]: as for a memory, the
    store supplies the key and the time. *)
Definition insert_message (st : Store) (sid : string) (message : MessageArg.t)
  : response Message * Store :=
  let stored :=
    {| msg_id := gen_random_uuid B (id_seq st);
       session_id := sid;
       msg_role := MessageArg.role message;
       msg_content := MessageArg.content message;
       msg_created_at := clock st;
       token_count := MessageArg.tokenCount message;
       msg_metadata := nullish (MessageArg.metadata message) [] |} in
  (Success stored,
   {| memories := memories st;
      messages := messages st ++ [stored];
      id_seq := S (id_seq st);
      clock := clock st + 1 |}).

Definition addMessage (st : Store) (sessionId : string)
           (message : MessageArg.t) : result Message * Store :=
  match insert_message st sessionId message with
  | (Failure error, st') => (Throw (PostgrestError error), st')
  | (Success data, st') => (Ok data, st')
  end.

Definition getMemories (st : Store) (opts : MemoriesOpts.t)
  : result (list Memory) :=
  let offset := or_count (MemoriesOpts.offset opts) 0 in
  let query := Table.from_select
               |> Table.eq_ (fun m => String.eqb (agent_id m) (agentId this))
               |> Table.order_by (Table.by_column created_at) false
               |> Table.range offset
                    (offset + or_count (MemoriesOpts.limit opts) 50 - 1) in
  let query := match truthy_string (MemoriesOpts.userId opts) with
               | Some userId =>
                   query |> Table.eq_ (fun m => option_eqb (user_id m) userId)
               | None => query
               end in
  let query := match truthy_string (MemoriesOpts.category opts) with
               | Some wanted =>
                   query |> Table.eq_ (fun m => option_eqb (category m) wanted)
               | None => query
               end in
  rows_or_throw (Table.run (memories st) query).

End MessagesAndListing.

(** ** Tasks *)

Module Tasks.

Import Postgrest.

Inductive task_status : Type := Pending | In_progress | Blocked | Done.

(** The text of a status in the [status] column. *)

Definition status_name (s : task_status) : string :=
  match s with
  | Pending => "pending"
  | In_progress => "in_progress"
  | Blocked => "blocked"
  | Done => "done"
  end.

Record Task := {
  id : string;
  agent_id : string;
  user_id : option string;
  title : string;
  description : option string;
  status : task_status;
  priority : Z;
  due_at : option timestamp;
  completed_at : option timestamp;
  parent_task_id : option string;
  metadata : json_object;
  created_at : timestamp;
  updated_at : timestamp
}.

Module TaskArg.
Record t := {
  title : string;
  description : option string;
  priority : option Z;
  dueAt : option timestamp;
  userId : option string;
  parentTaskId : option string;
  metadata : option json_object
}.
End TaskArg.

(** [Partial<{ ... }>] *)
Module Updates.
Record t := {
  title : option string;
  description : option string;
  status : option task_status;
  priority : option Z;
  dueAt : option timestamp;
  metadata : option json_object
}.
Definition none : t :=
  {| title := None; description := None; status := None;
     priority := None; dueAt := None; metadata := None |}.
End Updates.

Module TasksOpts.
Record t := {
  status : option string;
  userId : option string;
  limit : option Z
}.
End TasksOpts.

(** The object [createTask] inserts. *)
Record task_insert := {
  ins_agent_id : string;
  ins_user_id : option string;
  ins_title : string;
  ins_description : option string;
  ins_priority : Z;
  ins_due_at : option timestamp;
  ins_parent_task_id : option string;
  ins_metadata : json_object
}.

(** [updateData]: the columns that are set. *)
Record task_update := {
  set_updated_at : timestamp;
  set_title : option string;
  set_description : option string;
  set_status : option task_status;
  set_completed_at : option timestamp;
  set_priority : option Z;
  set_due_at : option timestamp;
  set_metadata : option json_object
}.

Definition updated (u : task_update) (t : Task) : Task :=
  {| id := id t;
     agent_id := agent_id t;
     user_id := user_id t;
     title := nullish (set_title u) (title t);
     description := match set_description u with
                    | Some v => Some v
                    | None => description t
                    end;
     status := nullish (set_status u) (status t);
     priority := nullish (set_priority u) (priority t);
     due_at := match set_due_at u with
               | Some v => Some v
               | None => due_at t
               end;
     completed_at := match set_completed_at u with
                     | Some v => Some v
                     | None => completed_at t
                     end;
     parent_task_id := parent_task_id t;
     metadata := nullish (set_metadata u) (metadata t);
     created_at := created_at t;
     updated_at := set_updated_at u |}.

Section Methods.

Variable B : Backend.
Variable this : OpenClawMemoryConfig.
(** the status the store gives a task that is inserted without one *)
Variable initial_status : task_status.

Definition stored (row : task_insert) (key : string) (time : timestamp)
  : Task :=
  {| id := key;
     agent_id := ins_agent_id row;
     user_id := ins_user_id row;
     title := ins_title row;
     description := ins_description row;
     status := initial_status;
     priority := ins_priority row;
     due_at := ins_due_at row;
     completed_at := None;
     parent_task_id := ins_parent_task_id row;
     metadata := ins_metadata row;
     created_at := time;
     updated_at := time |}.

Definition createTask (tbl : Table.t Task) (task : TaskArg.t)
  : result Task * Table.t Task :=
  match Table.insert_single (gen_random_uuid B)
          (stored {| ins_agent_id := agentId this;
                     ins_user_id := TaskArg.userId task;
                     ins_title := TaskArg.title task;
                     ins_description := TaskArg.description task;
                     ins_priority := nullish (TaskArg.priority task) 0;
                     ins_due_at := TaskArg.dueAt task;
                     ins_parent_task_id := TaskArg.parentTaskId task;
                     ins_metadata := nullish (TaskArg.metadata task) [] |})
          tbl with
  | (Failure error, tbl') => (Throw (PostgrestError error), tbl')
  | (Success data, tbl') => (Ok data, tbl')
  end.

(** [today] and [later] are what the first and the second [new Date()]
    read.  A title, a description or a status is taken when it is truthy, a
    priority when it is not [undefined]; a due date or a metadata object
    that is given is truthy. *)
Definition updateData (today later : timestamp) (updates : Updates.t)
  : task_update :=
  {| set_updated_at := today;
     set_title := truthy_string (Updates.title updates);
     set_description := truthy_string (Updates.description updates);
     set_status := Updates.status updates;
     set_completed_at := match Updates.status updates with
                         | Some Done => Some later
                         | _ => None
                         end;
     set_priority := Updates.priority updates;
     set_due_at := Updates.dueAt updates;
     set_metadata := Updates.metadata updates |}.

Definition updateTask (today later : timestamp) (tbl : Table.t Task)
           (taskId : string) (updates : Updates.t)
  : result Task * Table.t Task :=
  match Table.update_single id (updated (updateData today later updates))
          tbl taskId with
  | (Failure error, tbl') => (Throw (PostgrestError error), tbl')
  | (Success data, tbl') => (Ok data, tbl')
  end.

Definition getTasks (tbl : Table.t Task) (opts : TasksOpts.t)
  : result (list Task) :=
  let query := Table.from_select
               |> Table.eq_ (fun t => String.eqb (agent_id t) (agentId this))
               |> Table.order_by (Table.by_column priority) false
               |> Table.order_by (Table.by_column created_at) false
               |> Table.limit (or_count (TasksOpts.limit opts) 50) in
  let query := match truthy_string (TasksOpts.status opts) with
               | Some wanted =>
                   query
                   |> Table.eq_ (fun t => String.eqb (status_name (status t))
                                                     wanted)
               | None => query
               end in
  let query := match truthy_string (TasksOpts.userId opts) with
               | Some userId =>
                   query |> Table.eq_ (fun t => option_eqb (user_id t) userId)
               | None => query
               end in
  rows_or_throw (Table.run (Table.rows tbl) query).

End Methods.

End Tasks.

(** ** Vocabulary for the listings *)

Module Listing.

Import Postgrest.

(** Sort keys on integer columns, each with its direction. *)
Definition columns {R : Type} (cols : list ((R -> Z) * bool))
  : list ((R -> R -> comparison) * bool) :=
  map (fun c => (Table.by_column (fst c), snd c)) cols.

(** The order these keys ask for: the first column on which two rows
    differ decides, in that column's direction. *)
Fixpoint in_order {R : Type} (cols : list ((R -> Z) * bool)) (r1 r2 : R)
  : Prop :=
  match cols with
  | [] => True
  | (c, ascending) :: rest =>
      (if ascending then c r1 < c r2 else c r2 < c r1)
      \/ (c r1 = c r2 /\ in_order rest r1 r2)
  end.

(** The messages of a session, oldest first. *)
Definition history (st : Store) (sid : string) : list Message :=
  sort_by message_before
          (List.filter (fun m => String.eqb (session_id m) sid) (messages st)).

End Listing.

(** ** More sample instances *)

Module Demo.

Import Postgrest.

Definition said (i sid text : string) (at_ : timestamp) : Message :=
  {| msg_id := i; session_id := sid; msg_role := User; msg_content := text;
     msg_created_at := at_; token_count := None; msg_metadata := [] |}.

(** Session [s1] holds three messages, session [s2] one. *)
Definition chat : Store :=
  {| memories := [Sample.mem_a; Sample.mem_b];
     messages := [said "m2" "s1" "second" 2; said "m1" "s1" "first" 1;
                  said "x1" "s2" "other" 3; said "m3" "s1" "third" 4];
     id_seq := 5;
     clock := 10 |}.

Definition hello : MessageArg.t :=
  {| MessageArg.role := User; MessageArg.content := "hello";
     MessageArg.tokenCount := None; MessageArg.metadata := None |}.

Definition session (i agent : string) (user : option string)
           (at_ : timestamp) : Sessions.Session :=
  {| Sessions.id := i; Sessions.agent_id := agent; Sessions.user_id := user;
     Sessions.channel := None; Sessions.started_at := at_;
     Sessions.ended_at := None; Sessions.summary := Some "so far";
     Sessions.metadata := [] |}.

Definition sessions : Table.t Sessions.Session :=
  {| Table.rows := [session "s1" "agent-1" (Some "u1") 1;
                    session "s2" "agent-1" None 2;
                    session "s3" "agent-2" (Some "u1") 3];
     Table.next_key := 4;
     Table.now := 10 |}.

Definition start_opts : Sessions.StartOpts.t :=
  {| Sessions.StartOpts.userId := Some "u1";
     Sessions.StartOpts.channel := None;
     Sessions.StartOpts.metadata := None |}.

(** The session [startSession(start_opts)] stores in [sessions], and the
    table after it. *)
Definition started : Sessions.Session * Table.t Sessions.Session :=
  let s := {| Sessions.id := "4"; Sessions.agent_id := "agent-1";
              Sessions.user_id := Some "u1"; Sessions.channel := None;
              Sessions.started_at := 10; Sessions.ended_at := None;
              Sessions.summary := None; Sessions.metadata := [] |} in
  (s, {| Table.rows := Table.rows sessions ++ [s];
         Table.next_key := 5;
         Table.now := 11 |}).

Definition task (i agent title : string) (s : Tasks.task_status) (p : Z)
           (done : option timestamp) (at_ : timestamp) : Tasks.Task :=
  {| Tasks.id := i; Tasks.agent_id := agent; Tasks.user_id := None;
     Tasks.title := title; Tasks.description := Some "details";
     Tasks.status := s; Tasks.priority := p; Tasks.due_at := None;
     Tasks.completed_at := done; Tasks.parent_task_id := None;
     Tasks.metadata := []; Tasks.created_at := at_; Tasks.updated_at := at_ |}.

Definition tasks : Table.t Tasks.Task :=
  {| Table.rows := [task "t1" "agent-1" "write" Tasks.Pending 1 None 1;
                    task "t2" "agent-1" "review" Tasks.Done 5 (Some 3) 2;
                    task "t3" "agent-2" "deploy" Tasks.Pending 9 None 3];
     Table.next_key := 4;
     Table.now := 10 |}.

Definition new_task : Tasks.TaskArg.t :=
  {| Tasks.TaskArg.title := "plan";
     Tasks.TaskArg.description := None;
     Tasks.TaskArg.priority := None;
     Tasks.TaskArg.dueAt := None;
     Tasks.TaskArg.userId := None;
     Tasks.TaskArg.parentTaskId := None;
     Tasks.TaskArg.metadata := None |}.

(** The task [createTask(new_task)] stores in [tasks] when the store
    starts tasks as pending, and the table after it. *)
Definition created : Tasks.Task * Table.t Tasks.Task :=
  let t := {| Tasks.id := "4"; Tasks.agent_id := "agent-1";
              Tasks.user_id := None; Tasks.title := "plan";
              Tasks.description := None; Tasks.status := Tasks.Pending;
              Tasks.priority := 0; Tasks.due_at := None;
              Tasks.completed_at := None; Tasks.parent_task_id := None;
              Tasks.metadata := []; Tasks.created_at := 10;
              Tasks.updated_at := 10 |} in
  (t, {| Table.rows := Table.rows tasks ++ [t];
         Table.next_key := 5;
         Table.now := 11 |}).

(** [{ status: 'pending' }]: a finished task is reopened *)
Definition reopen : Tasks.Updates.t :=
  {| Tasks.Updates.title := Some "";
     Tasks.Updates.description := None;
     Tasks.Updates.status := Some Tasks.Pending;
     Tasks.Updates.priority := Some 0;
     Tasks.Updates.dueAt := None;
     Tasks.Updates.metadata := None |}.

(** What [remember(Sample.note)] stores in the sample store, and the store
    after it. *)
Definition noted : Memory :=
  Sample.row "0" "agent-1" None None "uses vim" (1 # 2) 10 None.

Definition after_note : Store :=
  {| memories := memories Sample.store ++ [noted];
     messages := [];
     id_seq := 1;
     clock := 11 |}.

(** [{ sessionId: 's1', maxMessages: 2 }] *)
Definition two_of_s1 : ContextOpts.t :=
  {| ContextOpts.userId := None; ContextOpts.sessionId := Some "s1";
     ContextOpts.maxMemories := None; ContextOpts.maxMessages := Some 2 |}.

(** Six memories of agent-1, each a note. *)
Definition note_row (i text : string) (at_ : timestamp) : Memory :=
  Sample.row i "agent-1" None None text (1 # 2) at_ None.

Definition six : Store :=
  {| memories := [note_row "n1" "note one" 1; note_row "n2" "note two" 2;
                  note_row "n3" "note three" 3; note_row "n4" "note four" 4;
                  note_row "n5" "note five" 5; note_row "n6" "note six" 6];
     messages := [];
     id_seq := 6;
     clock := 10 |}.

(** [{ maxMemories: 0 }] *)
Definition no_memories : ContextOpts.t :=
  {| ContextOpts.userId := None; ContextOpts.sessionId := None;
     ContextOpts.maxMemories := Some 0; ContextOpts.maxMessages := None |}.



Definition page (o l : option Z) : MessagesOpts.t :=
  {| MessagesOpts.limit := l; MessagesOpts.offset := o |}.

Definition listing (o l : option Z) : MemoriesOpts.t :=
  {| MemoriesOpts.userId := None; MemoriesOpts.category := None;
     MemoriesOpts.limit := l; MemoriesOpts.offset := o |}.

End Demo.

(** * Properties *)

(** ** Sorting *)

Section SortFacts.
Context {A : Type} (leb : A -> A -> bool).
Import Postgrest.

Lemma insert_sorted_perm (x : A) (l : list A) :
  Permutation (insert_sorted leb x l) (x :: l).
Proof.
  induction l as [|y l IH]; simpl.
  - apply Permutation_refl.
  - destruct (leb x y).
    + apply Permutation_refl.
    + apply perm_trans with (y :: x :: l).
      * now apply perm_skip.
      * apply perm_swap.
Qed.

Lemma sort_by_perm (l : list A) : Permutation (sort_by leb l) l.
Proof.
  induction l as [|x l IH]; simpl.
  - apply perm_nil.
  - apply perm_trans with (x :: sort_by leb l).
    + apply insert_sorted_perm.
    + now apply perm_skip.
Qed.

Lemma sort_by_In (l : list A) (x : A) : In x (sort_by leb l) <-> In x l.
Proof.
  split; apply Permutation_in.
  - apply sort_by_perm.
  - apply Permutation_sym, sort_by_perm.
Qed.

Lemma sort_by_length (l : list A) : List.length (sort_by leb l) = List.length l.
Proof. apply Permutation_length, sort_by_perm. Qed.

Hypothesis leb_total : forall x y, leb x y = true \/ leb y x = true.
Hypothesis leb_trans :
  forall x y z, leb x y = true -> leb y z = true -> leb x z = true.

Lemma insert_sorted_sorted (x : A) (l : list A) :
  StronglySorted (fun a b => leb a b = true) l ->
  StronglySorted (fun a b => leb a b = true) (insert_sorted leb x l).
Proof.
  induction 1 as [|y l Hl IH Hy]; simpl.
  - constructor; constructor.
  - destruct (leb x y) eqn:Hxy.
    + constructor.
      * now constructor.
      * constructor; [exact Hxy|].
        rewrite Forall_forall in *. intros z Hz.
        apply leb_trans with y; auto.
    + constructor; [exact IH|].
      rewrite Forall_forall in *. intros z Hz.
      apply (Permutation_in _ (insert_sorted_perm x l)) in Hz.
      destruct Hz as [<-|Hz]; auto.
      destruct (leb_total x y) as [H|H]; congruence.
Qed.

Lemma sort_by_sorted (l : list A) :
  StronglySorted (fun a b => leb a b = true) (sort_by leb l).
Proof.
  induction l as [|x l IH]; simpl.
  - constructor.
  - now apply insert_sorted_sorted.
Qed.

End SortFacts.

Lemma firstn_In {A : Type} (n : nat) (l : list A) (x : A) :
  In x (firstn n l) -> In x l.
Proof.
  revert l; induction n as [|n IH]; intros [|y l]; simpl; try tauto.
  intros [->|H]; auto.
Qed.

Lemma firstn_sorted {A : Type} (R : A -> A -> Prop) (n : nat) (l : list A) :
  StronglySorted R l -> StronglySorted R (firstn n l).
Proof.
  revert l; induction n as [|n IH]; intros l Hl; simpl.
  - constructor.
  - destruct Hl as [|y l Hl Hy]; constructor.
    + now apply IH.
    + rewrite Forall_forall in *. intros z Hz. apply Hy.
      now apply firstn_In in Hz.
Qed.

(** ** Pattern matching *)

Section LikeFacts.
Import Like.
Local Open Scope list_scope.

Lemma matches_any_iff (p : list token) (s : list ascii) :
  matches (Any :: p) s = true <->
  exists pre rest, s = pre ++ rest /\ matches p rest = true.
Proof.
  induction s as [|c s IH].
  - simpl. rewrite orb_false_r. split.
    + intros H. now exists [], [].
    + intros (pre & rest & E & H).
      symmetry in E. apply app_eq_nil in E. destruct E as [_ ->]. exact H.
  - change (matches (Any :: p) (c :: s))
      with (matches p (c :: s) || matches (Any :: p) s).
    rewrite orb_true_iff, IH. split.
    + intros [H|(pre & rest & -> & H)].
      * now exists [], (c :: s).
      * now exists (c :: pre), rest.
    + intros (pre & rest & E & H). destruct pre as [|d pre]; simpl in E.
      * left. now subst rest.
      * right. injection E as _ ->. now exists pre, rest.
Qed.

Lemma matches_any (s : list ascii) : matches [Any] s = true.
Proof.
  apply matches_any_iff. exists s, []. split.
  - now rewrite app_nil_r.
  - reflexivity.
Qed.

Lemma matches_lits_iff (l : list ascii) (p : list token) (s : list ascii) :
  matches (map Lit l ++ p) s = true <->
  exists mid rest,
    s = mid ++ rest /\ map lower mid = map lower l /\ matches p rest = true.
Proof.
  revert s; induction l as [|c l IH]; intros s.
  - simpl. split.
    + intros H. now exists [], s.
    + intros (mid & rest & -> & E & H).
      apply map_eq_nil in E. now subst mid.
  - simpl. destruct s as [|d s].
    + split; [discriminate|].
      intros (mid & rest & E & Em & _).
      symmetry in E. apply app_eq_nil in E. destruct E as [-> _].
      discriminate.
    + rewrite andb_true_iff, Ascii.eqb_eq, IH. split.
      * intros (Ec & mid & rest & -> & Em & H).
        exists (d :: mid), rest. simpl. now rewrite Em, Ec.
      * intros (mid & rest & E & Em & H).
        destruct mid as [|d' mid]; [discriminate|].
        simpl in E, Em. injection E as <- ->. injection Em as Ec Em.
        split; [now symmetry|]. now exists mid, rest.
Qed.

Lemma parse_percent_end (l : list ascii) :
  (exists t, parse (l ++ ["%"%char]) = Some t)
  /\ (forall c, exists t, parse (c :: l ++ ["%"%char]) = Some t).
Proof.
  induction l as [|a l [IH1 IH2]].
  - split; [now exists [Any]|].
    intros c. simpl.
    destruct (Ascii.eqb c backslash); [now eexists|].
    destruct (Ascii.eqb c "%"); [now eexists|].
    destruct (Ascii.eqb c "_"); now eexists.
  - split; [apply (IH2 a)|].
    intros c. destruct IH1 as [t1 E1]. destruct (IH2 a) as [t2 E2].
    change (parse (c :: (a :: l) ++ ["%"%char]))
      with (if Ascii.eqb c backslash
            then option_map (cons (Lit a)) (parse (l ++ ["%"%char]))
            else if Ascii.eqb c "%"
                 then option_map (cons Any) (parse (a :: l ++ ["%"%char]))
                 else if Ascii.eqb c "_"
                      then option_map (cons One) (parse (a :: l ++ ["%"%char]))
                      else option_map (cons (Lit c))
                                      (parse (a :: l ++ ["%"%char]))).
    rewrite E1, E2.
    destruct (Ascii.eqb c backslash); [now eexists|].
    destruct (Ascii.eqb c "%"); [now eexists|].
    destruct (Ascii.eqb c "_"); now eexists.
Qed.

Lemma list_ascii_of_string_app (s1 s2 : string) :
  list_ascii_of_string (s1 ++ s2)%string
  = list_ascii_of_string s1 ++ list_ascii_of_string s2.
Proof.
  induction s1 as [|c s1 IH]; simpl; [reflexivity|now rewrite IH].
Qed.

Lemma wrap_chars (query : string) :
  list_ascii_of_string ("%" ++ query ++ "%")%string
  = "%"%char :: list_ascii_of_string query ++ ["%"%char].
Proof.
  simpl. now rewrite list_ascii_of_string_app.
Qed.

(** The pattern [recall] builds is never rejected. *)
Lemma compile_wrap (query : string) :
  exists t, compile ("%" ++ query ++ "%")%string = Some t.
Proof.
  unfold compile. rewrite wrap_chars.
  change (map star_alias
            ("%"%char :: list_ascii_of_string query ++ ["%"%char]))
    with ("%"%char
            :: map star_alias (list_ascii_of_string query ++ ["%"%char])).
  rewrite map_app.
  apply (proj2 (parse_percent_end _)).
Qed.

Lemma parse_cons_literal (c : ascii) (rest : list ascii) :
  Spec.literal_char c = true ->
  parse (star_alias c :: rest) = option_map (cons (Lit c)) (parse rest).
Proof.
  unfold Spec.literal_char. rewrite negb_true_iff, !orb_false_iff.
  intros [[[Hp Hu] Hs] Hb].
  unfold star_alias. rewrite Hs.
  destruct rest; simpl; now rewrite Hb, Hp, Hu.
Qed.

Lemma parse_literal (l : list ascii) :
  forallb Spec.literal_char l = true ->
  parse (map star_alias l ++ ["%"%char]) = Some (map Lit l ++ [Any]).
Proof.
  induction l as [|c l IH]; [reflexivity|].
  cbn [forallb map app]. rewrite andb_true_iff. intros [Hc Hl].
  now rewrite (parse_cons_literal _ _ Hc), (IH Hl).
Qed.

Lemma compile_literal (query : string) :
  Spec.literal query ->
  compile ("%" ++ query ++ "%")%string
  = Some (Any :: map Lit (list_ascii_of_string query) ++ [Any]).
Proof.
  intros H. unfold compile. rewrite wrap_chars.
  change (map star_alias
            ("%"%char :: list_ascii_of_string query ++ ["%"%char]))
    with ("%"%char
            :: map star_alias (list_ascii_of_string query ++ ["%"%char])).
  rewrite map_app.
  change (parse ("%"%char :: ?l)) with (option_map (cons Any) (parse l)).
  change (map star_alias ["%"%char]) with ["%"%char].
  now rewrite (parse_literal _ H).
Qed.

(** For a query without pattern characters, [content ILIKE %query%] is
    containment up to letter case. *)
Lemma ilike_literal (query s : string) :
  Spec.literal query ->
  ilike s ("%" ++ query ++ "%")%string = Some true <-> Spec.occurs_in query s.
Proof.
  intros H. unfold ilike. rewrite (compile_literal _ H). cbn [option_map].
  split.
  - intros E. injection E as E.
    apply matches_any_iff in E. destruct E as (pre & rest & Es & E).
    apply matches_lits_iff in E. destruct E as (mid & post & -> & Em & _).
    exists (map lower pre), (map lower post).
    unfold Spec.fold_case. now rewrite Es, !map_app, Em.
  - intros (pre & post & E). unfold Spec.fold_case in E.
    apply map_eq_app in E. destruct E as (pre' & r & Es & _ & E).
    apply map_eq_app in E. destruct E as (mid & post' & -> & Em & _).
    f_equal. apply matches_any_iff. exists pre', (mid ++ post').
    split; [exact Es|].
    apply matches_lits_iff. exists mid, post'.
    repeat split; [exact Em|apply matches_any].
Qed.

(** The pattern of the empty query, [%%], is matched by every text. *)
Lemma ilike_empty_query (s : string) : ilike s ("%" ++ "" ++ "%")%string = Some true.
Proof.
  unfold ilike. change (compile ("%" ++ "" ++ "%")%string) with (Some [Any; Any]).
  cbn [option_map]. f_equal.
  apply matches_any_iff. exists [], (list_ascii_of_string s).
  split; [reflexivity|apply matches_any].
Qed.

End LikeFacts.

(** ** The ranking of the text search *)

Section RankFacts.
Import Postgrest.

Lemma before_rank (m1 m2 : Memory) :
  before Spec.rank_keys m1 m2 = true <-> Spec.ranks_before m1 m2.
Proof.
  unfold Spec.ranks_before. simpl.
  destruct (Qcompare (importance m1) (importance m2)) eqn:Ei.
  - apply Qeq_alt in Ei.
    destruct (Z.compare_spec (created_at m1) (created_at m2)) as [Ec|Ec|Ec];
      simpl.
    + split; [|reflexivity].
      intros _. right. split; [exact Ei|lia].
    + split; [discriminate|].
      intros [H|[_ H]]; [|lia].
      rewrite Ei in H. now apply Qlt_irrefl in H.
    + split; [|reflexivity].
      intros _. right. split; [exact Ei|lia].
  - apply Qlt_alt in Ei. simpl. split; [discriminate|].
    intros [H|[H _]].
    + exfalso. apply (Qlt_irrefl (importance m1)).
      now apply Qlt_trans with (importance m2).
    + rewrite H in Ei. now apply Qlt_irrefl in Ei.
  - apply Qgt_alt in Ei. simpl. split; [|reflexivity].
    intros _. now left.
Qed.

Lemma ranks_before_total (m1 m2 : Memory) :
  Spec.ranks_before m1 m2 \/ Spec.ranks_before m2 m1.
Proof.
  unfold Spec.ranks_before.
  destruct (Q_dec (importance m1) (importance m2)) as [[H|H]|H].
  - right. now left.
  - left. now left.
  - destruct (Z_le_gt_dec (created_at m2) (created_at m1)).
    + left. right. now split.
    + right. right. split; [now symmetry|lia].
Qed.

Lemma ranks_before_trans (m1 m2 m3 : Memory) :
  Spec.ranks_before m1 m2 -> Spec.ranks_before m2 m3 ->
  Spec.ranks_before m1 m3.
Proof.
  unfold Spec.ranks_before.
  intros [H12|[E12 C12]] [H23|[E23 C23]].
  - left. now apply Qlt_trans with (importance m2).
  - left. now rewrite <- E23.
  - left. now rewrite E12.
  - right. split; [now rewrite E12|lia].
Qed.

Lemma before_rank_total (m1 m2 : Memory) :
  before Spec.rank_keys m1 m2 = true \/ before Spec.rank_keys m2 m1 = true.
Proof. rewrite !before_rank. apply ranks_before_total. Qed.

Lemma before_rank_trans (m1 m2 m3 : Memory) :
  before Spec.rank_keys m1 m2 = true -> before Spec.rank_keys m2 m3 = true ->
  before Spec.rank_keys m1 m3 = true.
Proof. rewrite !before_rank. apply ranks_before_trans. Qed.

Lemma StronglySorted_impl {A : Type} (R S : A -> A -> Prop) (l : list A) :
  (forall x y, R x y -> S x y) -> StronglySorted R l -> StronglySorted S l.
Proof.
  intros HRS. induction 1 as [|x l Hl IH Hx]; constructor; auto.
  rewrite Forall_forall in *. auto.
Qed.

Lemma sort_by_rank_sorted (l : list Memory) :
  StronglySorted Spec.ranks_before (sort_by (before Spec.rank_keys) l).
Proof.
  apply StronglySorted_impl with (fun a b => before Spec.rank_keys a b = true).
  - intros x y. apply before_rank.
  - apply sort_by_sorted.
    + apply before_rank_total.
    + apply before_rank_trans.
Qed.

End RankFacts.

(** ** The engine *)

Section EngineFacts.
Import Postgrest.
Variable B : Backend.
Variable this : OpenClawMemoryConfig.

Lemma generateEmbedding_unavailable (text : string) :
  generateEmbedding B this text = Ok None <-> Spec.unavailable this.
Proof.
  unfold generateEmbedding, Spec.unavailable.
  destruct (embeddingProvider this) as [[| |]|].
  - destruct (openai this).
    + destruct (embeddings_create B _ _ text); simpl;
        (split; [discriminate|intros [H|H]; discriminate]).
    + split; [discriminate|intros [H|H]; discriminate].
  - split; [discriminate|intros [H|H]; discriminate].
  - split; auto.
  - split; auto.
Qed.

Lemma text_search_query_limit (query : string) (opts : RecallOpts.t) :
  row_limit (text_search_query this query opts) = Some (Spec.cap opts).
Proof.
  unfold text_search_query.
  destruct (truthy_string (RecallOpts.userId opts)),
    (truthy_string (RecallOpts.category opts)),
    (truthy_number (RecallOpts.minImportance opts)); reflexivity.
Qed.

Lemma text_search_query_ordering (query : string) (opts : RecallOpts.t) :
  ordering (text_search_query this query opts) = Spec.rank_keys.
Proof.
  unfold text_search_query.
  destruct (truthy_string (RecallOpts.userId opts)),
    (truthy_string (RecallOpts.category opts)),
    (truthy_number (RecallOpts.minImportance opts)); reflexivity.
Qed.

Lemma text_search_query_holds (query : string) (opts : RecallOpts.t)
      (m : Memory) :
  forallb (fun f => holds f m) (filters (text_search_query this query opts))
  = Spec.qualifies this query opts m.
Proof.
  unfold text_search_query, Spec.qualifies.
  destruct (truthy_string (RecallOpts.userId opts)),
    (truthy_string (RecallOpts.category opts)),
    (truthy_number (RecallOpts.minImportance opts));
    cbn [filters where_ from_memories_select order Postgrest.limit app
         forallb holds Spec.visible_to];
    rewrite ?andb_true_r, ?andb_assoc; reflexivity.
Qed.

Lemma text_search_query_ok (query : string) (opts : RecallOpts.t) :
  forallb filter_ok (filters (text_search_query this query opts)) = true.
Proof.
  destruct (compile_wrap query) as [t Ht].
  unfold text_search_query.
  destruct (truthy_string (RecallOpts.userId opts)),
    (truthy_string (RecallOpts.category opts)),
    (truthy_number (RecallOpts.minImportance opts));
    cbn [filters where_ from_memories_select order Postgrest.limit app
         forallb filter_ok];
    now rewrite Ht.
Qed.

(** The rows the text search selects, before the cap. *)
Lemma text_search_rows (st : Store) (query : string) (opts : RecallOpts.t) :
  rows_of (text_search_query this query opts) (memories st)
  = sort_by (before Spec.rank_keys)
            (List.filter (Spec.qualifies this query opts) (memories st)).
Proof.
  unfold rows_of. rewrite text_search_query_ordering. f_equal.
  apply filter_ext. intros m. apply text_search_query_holds.
Qed.

Lemma text_search_ok (st : Store) (query : string) (opts : RecallOpts.t) :
  0 <= Spec.cap opts ->
  text_search this st query opts
  = Ok (firstn (Z.to_nat (Spec.cap opts))
          (sort_by (before Spec.rank_keys)
             (List.filter (Spec.qualifies this query opts) (memories st)))).
Proof.
  intros Hcap. unfold text_search, run.
  rewrite text_search_query_ok, text_search_query_limit. simpl negb. cbv iota.
  destruct (Z.ltb_spec (Spec.cap opts) 0) as [H|_]; [lia|].
  simpl. now rewrite text_search_rows.
Qed.

Lemma text_search_negative (st : Store) (query : string) (opts : RecallOpts.t) :
  Spec.cap opts < 0 ->
  text_search this st query opts
  = Throw (PostgrestError range_not_satisfiable).
Proof.
  intros Hcap. unfold text_search, run.
  rewrite text_search_query_ok, text_search_query_limit. simpl negb. cbv iota.
  destruct (Z.ltb_spec (Spec.cap opts) 0) as [_|H]; [reflexivity|lia].
Qed.

Lemma recall_unavailable (st : Store) (query : string) (opts : RecallOpts.t) :
  Spec.unavailable this ->
  recall B this st query opts = text_search this st query opts.
Proof.
  intros H. unfold recall.
  now rewrite (proj2 (generateEmbedding_unavailable query) H).
Qed.

End EngineFacts.

(** ** What a returned row satisfies *)

Section RowFacts.
Import Postgrest.

Lemma truthy_string_some (o : option string) (v : string) :
  truthy_string o = Some v <-> o = Some v /\ v <> "".
Proof.
  unfold truthy_string. destruct o as [x|].
  - destruct (String.eqb_spec x "") as [E|E].
    + split; [discriminate|]. intros [[= ->] H]. contradiction.
    + split.
      * intros [= ->]. now split.
      * now intros [[= ->] _].
  - split; [discriminate|]. now intros [H _].
Qed.

Lemma truthy_string_none (o : option string) :
  truthy_string o = None <-> o = None \/ o = Some "".
Proof.
  unfold truthy_string. destruct o as [x|].
  - destruct (String.eqb_spec x "") as [E|E].
    + subst x. split; auto.
    + split; [discriminate|]. intros [H|[= H]]; [discriminate|contradiction].
  - split; auto.
Qed.

Lemma truthy_number_some (o : option Q) (v : Q) :
  truthy_number o = Some v <-> o = Some v /\ ~ (v == 0)%Q.
Proof.
  unfold truthy_number. destruct o as [x|].
  - destruct (Qeq_bool x 0) eqn:E.
    + apply Qeq_bool_iff in E. split; [discriminate|].
      intros [[= ->] H]. contradiction.
    + split.
      * intros [= ->]. split; [reflexivity|].
        intros H. apply Qeq_bool_iff in H. congruence.
      * now intros [[= ->] _].
  - split; [discriminate|]. now intros [H _].
Qed.

Lemma truthy_number_none (o : option Q) :
  truthy_number o = None <-> o = None \/ exists v, o = Some v /\ (v == 0)%Q.
Proof.
  unfold truthy_number. destruct o as [x|].
  - destruct (Qeq_bool x 0) eqn:E.
    + apply Qeq_bool_iff in E. split; [|reflexivity].
      intros _. right. now exists x.
    + split; [discriminate|].
      intros [H|(v & [= ->] & H)]; [discriminate|].
      apply Qeq_bool_iff in H. congruence.
  - split; auto.
Qed.

Lemma visible_to_iff (u : string) (m : Memory) :
  Spec.visible_to u m = true <-> user_id m = Some u \/ user_id m = None.
Proof.
  unfold Spec.visible_to. destruct (user_id m) as [v|].
  - rewrite String.eqb_eq. split.
    + intros ->. now left.
    + intros [[= ->]|H]; [reflexivity|discriminate].
  - split; auto.
Qed.

Lemma option_eqb_iff (o : option string) (v : string) :
  option_eqb o v = true <-> o = Some v.
Proof.
  unfold option_eqb. destruct o as [x|].
  - rewrite String.eqb_eq. split; [now intros ->|now intros [= ->]].
  - split; discriminate.
Qed.

Lemma qualifies_iff (cfg : OpenClawMemoryConfig) (query : string)
      (opts : RecallOpts.t) (m : Memory) :
  Spec.qualifies cfg query opts m = true <->
  Spec.passes cfg opts m
  /\ Like.ilike (content m) ("%" ++ query ++ "%") = Some true.
Proof.
  unfold Spec.qualifies, Spec.passes.
  rewrite !andb_true_iff, String.eqb_eq.
  assert (Hu : match truthy_string (RecallOpts.userId opts) with
               | Some u => Spec.visible_to u m
               | None => true
               end = true <->
               forall u, RecallOpts.userId opts = Some u -> u <> "" ->
                 user_id m = Some u \/ user_id m = None).
  { destruct (truthy_string (RecallOpts.userId opts)) as [u|] eqn:E.
    - apply truthy_string_some in E. destruct E as [E Hne].
      rewrite visible_to_iff. split.
      + intros H u' Eu _. congruence.
      + intros H. now apply H.
    - apply truthy_string_none in E. split; [|reflexivity].
      intros _ u Eu Hne. destruct E as [E|E]; congruence. }
  assert (Hc : match truthy_string (RecallOpts.category opts) with
               | Some c => option_eqb (category m) c
               | None => true
               end = true <->
               forall c, RecallOpts.category opts = Some c -> c <> "" ->
                 category m = Some c).
  { destruct (truthy_string (RecallOpts.category opts)) as [c|] eqn:E.
    - apply truthy_string_some in E. destruct E as [E Hne].
      rewrite option_eqb_iff. split.
      + intros H c' Ec _. congruence.
      + intros H. now apply H.
    - apply truthy_string_none in E. split; [|reflexivity].
      intros _ c Ec Hne. destruct E as [E|E]; congruence. }
  assert (Hi : match truthy_number (RecallOpts.minImportance opts) with
               | Some i => Qle_bool i (importance m)
               | None => true
               end = true <->
               forall i, RecallOpts.minImportance opts = Some i ->
                 ~ (i == 0)%Q -> (i <= importance m)%Q).
  { destruct (truthy_number (RecallOpts.minImportance opts)) as [i|] eqn:E.
    - apply truthy_number_some in E. destruct E as [E Hne].
      rewrite Qle_bool_iff. split.
      + intros H i' Ei _. congruence.
      + intros H. now apply H.
    - apply truthy_number_none in E. split; [|reflexivity].
      intros _ i Ei Hne. destruct E as [E|(v & E & Hv)]; congruence. }
  rewrite Hu, Hc, Hi.
  destruct (Like.ilike (content m) ("%" ++ query ++ "%")) as [[|]|];
    intuition congruence.
Qed.

End RowFacts.

(** ** The two branches of [recall] *)

Section RecallFacts.
Import Postgrest.
Variable B : Backend.
Variable this : OpenClawMemoryConfig.

Lemma similar_to_iff (sim : list Q -> list Q -> Q) (e : list Q) (t : Q)
      (m : Memory) :
  similar_to sim e t m = true <->
  exists e', embedding m = Some e' /\ (t <= sim e e')%Q.
Proof.
  unfold similar_to. destruct (embedding m) as [e'|].
  - rewrite Qle_bool_iff. split.
    + intros H. now exists e'.
    + now intros (x & [= ->] & H).
  - split; [discriminate|]. now intros (x & H & _).
Qed.

Lemma match_memories_sound (sim : list Q -> list Q -> Q) (st : Store)
      (a : match_memories_args) :
  exists rows,
    match_memories sim st a = Success (Some rows)
    /\ (List.length rows <= Z.to_nat (match_count a))%nat
    /\ Forall
         (fun m =>
            In m (memories st)
            /\ agent_id m = p_agent_id a
            /\ (forall u, p_user_id a = Some u ->
                  user_id m = Some u \/ user_id m = None)
            /\ (forall c, p_category a = Some c -> category m = Some c)
            /\ (forall i, p_min_importance a = Some i ->
                  (i <= importance m)%Q)
            /\ exists e, embedding m = Some e
                         /\ (match_threshold a <= sim (query_embedding a) e)%Q)
         rows.
Proof.
  eexists. split; [reflexivity|]. split; [apply firstn_le_length|].
  apply Forall_forall. intros m Hm.
  apply firstn_In, sort_by_In, filter_In in Hm. destruct Hm as [Hin Hm].
  rewrite !andb_true_iff in Hm. destruct Hm as [[[[Ha Hu] Hc] Hi] Hs].
  split; [exact Hin|]. split; [now apply String.eqb_eq|].
  split; [|split; [|split]].
  - intros u E. rewrite E in Hu. simpl in Hu.
    now apply (visible_to_iff u m).
  - intros c E. rewrite E in Hc. simpl in Hc. now apply option_eqb_iff.
  - intros i E. rewrite E in Hi. simpl in Hi. now apply Qle_bool_iff.
  - now apply similar_to_iff.
Qed.

(** With a limit that is absent, 0 or positive the text search answers, and
    its answer is the ranked selection cut at the cap. *)
Lemma text_search_sound (st : Store) (query : string) (opts : RecallOpts.t)
      (rows : list Memory) :
  text_search this st query opts = Ok rows ->
  0 <= Spec.cap opts
  /\ rows = firstn (Z.to_nat (Spec.cap opts))
              (sort_by (before Spec.rank_keys)
                 (List.filter (Spec.qualifies this query opts) (memories st))).
Proof.
  intros E. destruct (Z_lt_le_dec (Spec.cap opts) 0) as [H|H].
  - rewrite (text_search_negative this st query opts H) in E. discriminate.
  - rewrite (text_search_ok this st query opts H) in E.
    injection E as <-. now split.
Qed.

Lemma text_search_rows_qualify (st : Store) (query : string)
      (opts : RecallOpts.t) (rows : list Memory) :
  text_search this st query opts = Ok rows ->
  Forall (fun m => In m (memories st)
                   /\ Spec.qualifies this query opts m = true) rows.
Proof.
  intros E. apply text_search_sound in E. destruct E as [_ ->].
  apply Forall_forall. intros m Hm.
  now apply firstn_In, sort_by_In, filter_In in Hm.
Qed.

(** Whatever branch [recall] takes, its rows number at most the cap, belong
    to the agent and pass each filter that carries a value. *)
Lemma recall_sound (st : Store) (query : string) (opts : RecallOpts.t)
      (rows : list Memory) :
  recall B this st query opts = Ok rows ->
  (List.length rows <= Z.to_nat (Spec.cap opts))%nat
  /\ Forall (fun m => In m (memories st) /\ Spec.passes this opts m) rows.
Proof.
  unfold recall.
  destruct (generateEmbedding B this query) as [[e|]|err]; cbn [bind];
    [| |discriminate].
  - destruct (match_memories_sound (similarity B) st
                (recall_rpc_args this e opts)) as (r & -> & Hlen & Hall).
    cbn [rows_or_throw or_empty]. intros [= <-]. split; [exact Hlen|].
    eapply Forall_impl; [|exact Hall]. cbn beta.
    intros m (Hin & Ha & Hu & Hc & Hi & _). split; [exact Hin|].
    repeat split; eauto.
  - intros E. split.
    + apply text_search_sound in E. destruct E as [_ ->].
      apply firstn_le_length.
    + apply text_search_rows_qualify in E.
      eapply Forall_impl; [|exact E]. cbn beta.
      intros m [Hin Hq]. split; [exact Hin|].
      now apply qualifies_iff in Hq.
Qed.

End RecallFacts.

(** ** The keyword path shared by the two strategies *)

Section FallbackFacts.
Import Postgrest.
Variable B : Backend.
Variable this : OpenClawMemoryConfig.

Lemma text_search_query_same (query : string) (r1 r2 : RecallOpts.t) :
  RecallOpts.userId r1 = RecallOpts.userId r2 ->
  RecallOpts.category r1 = RecallOpts.category r2 ->
  RecallOpts.limit r1 = RecallOpts.limit r2 ->
  RecallOpts.minImportance r1 = RecallOpts.minImportance r2 ->
  text_search_query this query r1 = text_search_query this query r2.
Proof.
  unfold text_search_query. now intros -> -> -> ->.
Qed.

Lemma hybridRecall_unavailable (st : Store) (query : string)
      (opts : HybridOpts.t) :
  Spec.unavailable this ->
  hybridRecall B this st query opts
  = text_search this st query (HybridOpts.as_recall opts).
Proof.
  intros H. unfold hybridRecall.
  rewrite (proj2 (generateEmbedding_unavailable B this query) H).
  cbn [bind]. now apply recall_unavailable.
Qed.

Lemma recall_zero_limit (st : Store) (query : string) (opts : RecallOpts.t) :
  recall B this st query (RecallOpts.with_limit (Some 0) opts)
  = recall B this st query (RecallOpts.with_limit None opts).
Proof. reflexivity. Qed.

Lemma hybridRecall_zero_limit (st : Store) (query : string)
      (opts : HybridOpts.t) :
  hybridRecall B this st query (HybridOpts.with_limit (Some 0) opts)
  = hybridRecall B this st query (HybridOpts.with_limit None opts).
Proof. reflexivity. Qed.

(** Without a provider the class behaves as its first version did. *)
Lemma first_version_agrees (st : Store) (query : string)
      (opts : RecallOpts.t) (memory : RememberArg.t) :
  Spec.unavailable this ->
  recall B this st query opts = FirstVersion.recall this st query opts
  /\ remember B this st memory
     = FirstVersion.remember (gen_random_uuid B) this st memory.
Proof.
  intros H. split; [now apply recall_unavailable|].
  unfold remember, FirstVersion.remember.
  now rewrite (proj2 (generateEmbedding_unavailable B this _) H).
Qed.

End FallbackFacts.

(** * Main results *)

(** C1, counterexample: with no embedding provider, [recall] and
    [hybridRecall] called with [limit: 0] on the sample store return the
    memory that matches the query, not the empty sequence. *)
Lemma C1_limit_zero_counterexample :
  ~ AsWorded.nonpositive_limit_is_empty
      Sample.backend Sample.plain Sample.store "TypeScript" Sample.zero_limit.
Proof.
  intros H. destruct (H 0 eq_refl (Z.le_refl 0)) as [E _].
  vm_compute in E. discriminate E.
Qed.

(** C1 (amended): a supplied limit of 0 counts as no limit.  [recall] and
    [hybridRecall] called with [limit: 0] behave exactly as when the limit
    is absent: the cap they send to the store is the default 10, in the
    text search and with an embedding alike.  Any other limit, a negative
    one included, is sent to the store as it is.  When no embedding is
    available, for a plain user id and ASCII texts, both methods called
    with [limit: 0] answer without an error with at most 10 rows, and the
    answer of [recall] is empty only when no row of the store qualifies. *)
Theorem C1_zero_limit_is_default (B : Backend) (this : OpenClawMemoryConfig)
        (st : Postgrest.Store) (query : string)
        (opts : RecallOpts.t) (hopts : HybridOpts.t) :
  recall B this st query (RecallOpts.with_limit (Some 0) opts)
  = recall B this st query (RecallOpts.with_limit None opts)
  /\ hybridRecall B this st query (HybridOpts.with_limit (Some 0) hopts)
     = hybridRecall B this st query (HybridOpts.with_limit None hopts)
  /\ Postgrest.row_limit
       (text_search_query this query (RecallOpts.with_limit (Some 0) opts))
     = Some 10
  /\ (forall e,
        Postgrest.match_count
          (recall_rpc_args this e (RecallOpts.with_limit (Some 0) opts)) = 10
        /\ Postgrest.h_match_count
             (hybrid_rpc_args this e query
                (HybridOpts.with_limit (Some 0) hopts)) = 10)
  /\ (forall n, n <> 0 ->
        Postgrest.row_limit
          (text_search_query this query (RecallOpts.with_limit (Some n) opts))
        = Some n
        /\ forall e,
             Postgrest.match_count
               (recall_rpc_args this e (RecallOpts.with_limit (Some n) opts))
             = n
             /\ Postgrest.h_match_count
                  (hybrid_rpc_args this e query
                     (HybridOpts.with_limit (Some n) hopts)) = n)
  /\ (Spec.unavailable this ->
      Spec.ascii_text query ->
      Spec.ascii_contents st ->
      (Spec.plain_user (RecallOpts.userId opts) ->
       exists rows,
         recall B this st query (RecallOpts.with_limit (Some 0) opts) = Ok rows
         /\ (List.length rows <= 10)%nat
         /\ (rows = [] <->
             forall m, In m (Postgrest.memories st) ->
                       Spec.qualifies this query opts m = false))
      /\ (Spec.plain_user (HybridOpts.userId hopts) ->
          exists rows,
            hybridRecall B this st query (HybridOpts.with_limit (Some 0) hopts)
            = Ok rows
            /\ (List.length rows <= 10)%nat)).
Proof.
  split; [apply recall_zero_limit|]. split; [apply hybridRecall_zero_limit|].
  split; [now rewrite text_search_query_limit|].
  split; [intros e; split; reflexivity|].
  split.
  { intros n Hn.
    assert (E : or_count (Some n) 10 = n).
    { unfold or_count. destruct (Z.eqb_spec n 0); [contradiction|reflexivity]. }
    split; [rewrite text_search_query_limit; f_equal; exact E|].
    intros e. split; exact E. }
  intros Hun _ _. split.
  - intros _. rewrite (recall_unavailable B this st query _ Hun).
    rewrite text_search_ok by (cbv; discriminate).
    eexists. split; [reflexivity|]. split; [apply firstn_le_length|].
    change (Spec.qualifies this query (RecallOpts.with_limit (Some 0) opts))
      with (Spec.qualifies this query opts).
    set (f := Spec.qualifies this query opts).
    change (Z.to_nat (Spec.cap (RecallOpts.with_limit (Some 0) opts)))
      with 10%nat.
    split.
    + intros E m Hm. destruct (f m) eqn:Hf; [|reflexivity].
      assert (Hin : In m (Postgrest.sort_by (Postgrest.before Spec.rank_keys)
                            (List.filter f (Postgrest.memories st)))).
      { apply sort_by_In, filter_In. now split. }
      destruct (Postgrest.sort_by _ _) as [|x l]; [contradiction|].
      discriminate E.
    + intros Hnone.
      assert (E : List.filter f (Postgrest.memories st) = []).
      { destruct (List.filter f (Postgrest.memories st)) as [|x l] eqn:E;
          [reflexivity|].
        assert (Hx : In x (List.filter f (Postgrest.memories st)))
          by (rewrite E; now left).
        apply filter_In in Hx. destruct Hx as [Hx Hfx].
        rewrite (Hnone x Hx) in Hfx. discriminate. }
      now rewrite E.
  - intros _. rewrite (hybridRecall_unavailable B this st query _ Hun).
    rewrite text_search_ok by (cbv; discriminate).
    eexists. split; [reflexivity|]. apply firstn_le_length.
Qed.

Lemma C1_zero_limit_is_default_witness :
  Spec.unavailable Sample.plain
  /\ Spec.ascii_text "coffee"
  /\ Spec.ascii_contents Sample.store
  /\ Spec.plain_user (RecallOpts.userId Sample.narrow)
  /\ (exists rows,
        recall Sample.backend Sample.plain Sample.store "coffee"
               (RecallOpts.with_limit (Some 0) Sample.narrow) = Ok rows
        /\ (List.length rows <= 10)%nat
        /\ (rows = [] <->
            forall m, In m (Postgrest.memories Sample.store) ->
                      Spec.qualifies Sample.plain "coffee"
                                     Sample.narrow m = false))
  /\ -1 <> 0
  /\ Postgrest.row_limit
       (text_search_query Sample.plain "coffee"
          (RecallOpts.with_limit (Some (-1)) Sample.narrow))
     = Some (-1).
Proof.
  destruct (C1_zero_limit_is_default Sample.backend Sample.plain Sample.store
              "coffee" Sample.narrow HybridOpts.empty)
    as (_ & _ & _ & _ & Hn & Hrows).
  assert (Hun : Spec.unavailable Sample.plain) by (left; reflexivity).
  assert (Hq : Spec.ascii_text "coffee") by reflexivity.
  assert (Hst : Spec.ascii_contents Sample.store) by reflexivity.
  assert (Hu : Spec.plain_user (RecallOpts.userId Sample.narrow))
    by reflexivity.
  assert (Hneg : -1 <> 0) by discriminate.
  split; [exact Hun|]. split; [exact Hq|]. split; [exact Hst|].
  split; [exact Hu|].
  split; [exact (proj1 (Hrows Hun Hq Hst) Hu)|].
  split; [exact Hneg|]. exact (proj1 (Hn (-1) Hneg)).
Defined.

(** C2, counterexample: [recall("", { minImportance: 0 })] with no embedding
    provider returns the memory whose importance is -1/2, which is not
    [>= 0]. *)
Lemma C2_zero_min_importance_counterexample :
  ~ AsWorded.recall_within_limit_and_filters
      Sample.backend Sample.plain Sample.store "" Sample.zero_importance.
Proof.
  intros H.
  assert (E : recall Sample.backend Sample.plain Sample.store ""
                     Sample.zero_importance
              = Ok [Sample.mem_a; Sample.mem_b; Sample.mem_n])
    by (vm_compute; reflexivity).
  destruct (H _ E) as [_ Hall].
  rewrite Forall_forall in Hall.
  destruct (Hall Sample.mem_n) as (_ & _ & Hi).
  - right. right. now left.
  - specialize (Hi 0%Q eq_refl). vm_compute in Hi. now apply Hi.
Qed.

(** C2 (amended): for a plain user id, every sequence [recall] returns
    has at most [limit] rows when a non-zero limit is supplied and at most
    10 otherwise, and every returned memory is a row of the agent that
    passes each filter carrying a value: its user is a non-empty [userId]
    or absent, its category is a non-empty [category], its importance is at
    least a non-zero [minImportance].  When the query has an embedding
    every supplied filter holds, a [minImportance] of 0 and an empty
    [userId] or [category] included, and every returned memory is at least
    [minSimilarity] (0.7 when absent) similar to the query. *)
Theorem C2_recall_bounded_and_filtered (B : Backend)
        (this : OpenClawMemoryConfig) (st : Postgrest.Store) (query : string)
        (opts : RecallOpts.t) (rows : list Memory) :
  Spec.plain_user (RecallOpts.userId opts) ->
  recall B this st query opts = Ok rows ->
  (List.length rows <= Z.to_nat (or_count (RecallOpts.limit opts) 10))%nat
  /\ Forall
       (fun m =>
          In m (Postgrest.memories st)
          /\ agent_id m = agentId this
          /\ (forall u, RecallOpts.userId opts = Some u -> u <> "" ->
                user_id m = Some u \/ user_id m = None)
          /\ (forall c, RecallOpts.category opts = Some c -> c <> "" ->
                category m = Some c)
          /\ (forall i, RecallOpts.minImportance opts = Some i ->
                ~ (i == 0)%Q -> (i <= importance m)%Q))
       rows
  /\ (forall e,
        generateEmbedding B this query = Ok (Some e) ->
        Forall
          (fun m =>
             (forall u, RecallOpts.userId opts = Some u ->
                user_id m = Some u \/ user_id m = None)
             /\ (forall c, RecallOpts.category opts = Some c ->
                   category m = Some c)
             /\ (forall i, RecallOpts.minImportance opts = Some i ->
                   (i <= importance m)%Q)
             /\ exists e',
                  embedding m = Some e'
                  /\ (nullish (RecallOpts.minSimilarity opts) (7 # 10)
                      <= similarity B e e')%Q)
          rows).
Proof.
  intros _ E. split; [|split].
  - now apply recall_sound in E.
  - apply recall_sound in E. destruct E as [_ Hall].
    eapply Forall_impl; [|exact Hall]. cbn beta.
    intros m [Hin Hp]. split; [exact Hin|exact Hp].
  - intros e He. unfold recall in E. rewrite He in E. cbn [bind] in E.
    destruct (match_memories_sound (similarity B) st
                (recall_rpc_args this e opts)) as (r & Hr & _ & Hall).
    rewrite Hr in E. cbn [rows_or_throw or_empty] in E. injection E as <-.
    eapply Forall_impl; [|exact Hall]. cbn beta.
    intros m (_ & _ & Hu & Hc & Hi & Hs). repeat split; assumption.
Qed.

Lemma C2_recall_bounded_and_filtered_witness :
  Spec.plain_user (RecallOpts.userId Sample.narrow)
  /\ recall Sample.backend Sample.plain Sample.store "coffee" Sample.narrow
     = Ok [Sample.mem_b]
  /\ (List.length [Sample.mem_b]
      <= Z.to_nat (or_count (RecallOpts.limit Sample.narrow) 10))%nat
  /\ Forall
       (fun m =>
          In m (Postgrest.memories Sample.store)
          /\ agent_id m = agentId Sample.plain
          /\ (forall u, RecallOpts.userId Sample.narrow = Some u -> u <> "" ->
                user_id m = Some u \/ user_id m = None)
          /\ (forall c, RecallOpts.category Sample.narrow = Some c ->
                c <> "" -> category m = Some c)
          /\ (forall i, RecallOpts.minImportance Sample.narrow = Some i ->
                ~ (i == 0)%Q -> (i <= importance m)%Q))
       [Sample.mem_b]
  /\ Spec.plain_user (RecallOpts.userId Sample.zero_importance)
  /\ recall Sample.backend Sample.keyed Sample.store "TypeScript"
            Sample.zero_importance
     = Ok [Sample.mem_a]
  /\ generateEmbedding Sample.backend Sample.keyed "TypeScript"
     = Ok (Some [1%Q; 0%Q])
  /\ Forall
       (fun m =>
          forall i, RecallOpts.minImportance Sample.zero_importance = Some i ->
            (i <= importance m)%Q)
       [Sample.mem_a].
Proof.
  assert (Hu : Spec.plain_user (RecallOpts.userId Sample.narrow))
    by reflexivity.
  assert (E : recall Sample.backend Sample.plain Sample.store "coffee"
                     Sample.narrow = Ok [Sample.mem_b])
    by (vm_compute; reflexivity).
  assert (Hu' : Spec.plain_user (RecallOpts.userId Sample.zero_importance))
    by exact I.
  assert (E' : recall Sample.backend Sample.keyed Sample.store "TypeScript"
                      Sample.zero_importance = Ok [Sample.mem_a])
    by (vm_compute; reflexivity).
  assert (Ee : generateEmbedding Sample.backend Sample.keyed "TypeScript"
               = Ok (Some [1%Q; 0%Q]))
    by (vm_compute; reflexivity).
  destruct (C2_recall_bounded_and_filtered Sample.backend Sample.plain
              Sample.store "coffee" Sample.narrow [Sample.mem_b] Hu E)
    as (Hlen & Hall & _).
  destruct (C2_recall_bounded_and_filtered Sample.backend Sample.keyed
              Sample.store "TypeScript" Sample.zero_importance
              [Sample.mem_a] Hu' E')
    as (_ & _ & Hemb).
  split; [exact Hu|]. split; [exact E|]. split; [exact Hlen|].
  split; [exact Hall|]. split; [exact Hu'|]. split; [exact E'|].
  split; [exact Ee|].
  eapply Forall_impl; [|exact (Hemb _ Ee)]. cbn beta.
  intros m (_ & _ & Hi & _). exact Hi.
Defined.

(** C3: when the embedding provider is unconfigured or set to 'none',
    [hybridRecall] returns exactly what [recall] returns for the same query
    and the same options (the same filters and limit, whatever [recall]'s
    own [minSimilarity]). *)
Theorem C3_hybrid_degrades_to_recall (B : Backend)
        (this : OpenClawMemoryConfig) (st : Postgrest.Store) (query : string)
        (opts : HybridOpts.t) (ropts : RecallOpts.t) :
  Spec.unavailable this ->
  Spec.same_options opts ropts ->
  hybridRecall B this st query opts = recall B this st query ropts.
Proof.
  intros Hun (Hu & Hc & Hl & Hi).
  rewrite (hybridRecall_unavailable B this st query opts Hun).
  rewrite (recall_unavailable B this st query ropts Hun).
  unfold text_search.
  now rewrite (text_search_query_same this query ropts
                 (HybridOpts.as_recall opts) Hu Hc Hl Hi).
Qed.

Lemma C3_hybrid_degrades_to_recall_witness :
  Spec.unavailable Sample.plain
  /\ Spec.same_options Sample.zero_limit
                       (HybridOpts.as_recall Sample.zero_limit)
  /\ hybridRecall Sample.backend Sample.plain Sample.store "coffee"
                  Sample.zero_limit
     = recall Sample.backend Sample.plain Sample.store "coffee"
              (HybridOpts.as_recall Sample.zero_limit).
Proof.
  split; [left; reflexivity|].
  split; [repeat split|].
  apply C3_hybrid_degrades_to_recall.
  - left. reflexivity.
  - repeat split.
Defined.

(** C4, counterexample: with no embedding provider,
    [recall("coffee", { limit: 0 })] returns one memory, so the result of
    the keyword fallback is not capped at the limit. *)
Lemma C4_fallback_cap_counterexample :
  ~ AsWorded.keyword_fallback
      Sample.backend Sample.plain Sample.store "coffee"
      (HybridOpts.as_recall Sample.zero_limit).
Proof.
  intros H. destruct H as (rows & E & _ & _ & Hlim & _); [now left|].
  vm_compute in E. injection E as <-.
  specialize (Hlim 0 eq_refl). simpl in Hlim. lia.
Qed.

(** C4 (amended): when no embedding is available and the limit is absent, 0
    or positive, for a plain user id and ASCII texts, [recall] raises no
    error and returns an ordinary sequence: the agent's memories whose
    content matches the pattern [%query%] (containment up to letter case
    when the query has no pattern character) and that pass each filter
    carrying a value, ordered by importance descending then [created_at]
    descending, cut at the limit, or at 10 when the limit is absent or
    0. *)
Theorem C4_keyword_fallback (B : Backend) (this : OpenClawMemoryConfig)
        (st : Postgrest.Store) (query : string) (opts : RecallOpts.t) :
  Spec.unavailable this ->
  0 <= or_count (RecallOpts.limit opts) 10 ->
  Spec.plain_user (RecallOpts.userId opts) ->
  Spec.ascii_text query ->
  Spec.ascii_contents st ->
  exists rows ranked,
    recall B this st query opts = Ok rows
    /\ Permutation ranked
         (List.filter (Spec.qualifies this query opts) (Postgrest.memories st))
    /\ StronglySorted Spec.ranks_before ranked
    /\ rows = firstn (Z.to_nat (or_count (RecallOpts.limit opts) 10)) ranked
    /\ StronglySorted Spec.ranks_before rows
    /\ (List.length rows <= Z.to_nat (or_count (RecallOpts.limit opts) 10))%nat
    /\ Forall
         (fun m =>
            In m (Postgrest.memories st)
            /\ Spec.passes this opts m
            /\ Like.ilike (content m) ("%" ++ query ++ "%") = Some true)
         rows
    /\ (Spec.literal query ->
        Forall (fun m => Spec.occurs_in query (content m)) rows)
    /\ (forall m,
          In m (Postgrest.memories st) ->
          Spec.passes this opts m ->
          Like.ilike (content m) ("%" ++ query ++ "%") = Some true ->
          In m ranked).
Proof.
  intros Hun Hcap _ _ _.
  set (ranked := Postgrest.sort_by (Postgrest.before Spec.rank_keys)
                   (List.filter (Spec.qualifies this query opts)
                                (Postgrest.memories st))).
  assert (Hrows : Forall
            (fun m =>
               In m (Postgrest.memories st)
               /\ Spec.passes this opts m
               /\ Like.ilike (content m) ("%" ++ query ++ "%") = Some true)
            (firstn (Z.to_nat (or_count (RecallOpts.limit opts) 10)) ranked)).
  { apply Forall_forall. intros m Hm.
    apply firstn_In, sort_by_In, filter_In in Hm. destruct Hm as [Hin Hq].
    apply qualifies_iff in Hq. tauto. }
  exists (firstn (Z.to_nat (or_count (RecallOpts.limit opts) 10)) ranked),
    ranked.
  split.
  { rewrite (recall_unavailable B this st query opts Hun).
    now apply text_search_ok. }
  split; [apply sort_by_perm|].
  split; [apply sort_by_rank_sorted|].
  split; [reflexivity|].
  split; [apply firstn_sorted, sort_by_rank_sorted|].
  split; [apply firstn_le_length|].
  split; [exact Hrows|].
  split.
  - intros Hlit. eapply Forall_impl; [|exact Hrows]. cbn beta.
    intros m (_ & _ & Hm). now apply (ilike_literal query (content m) Hlit).
  - intros m Hin Hp Hm. apply sort_by_In, filter_In. split; [exact Hin|].
    apply qualifies_iff. now split.
Qed.

Lemma C4_keyword_fallback_witness :
  Spec.unavailable Sample.plain
  /\ 0 <= or_count (RecallOpts.limit Sample.narrow) 10
  /\ Spec.plain_user (RecallOpts.userId Sample.narrow)
  /\ Spec.ascii_text "coffee"
  /\ Spec.ascii_contents Sample.store
  /\ exists rows ranked,
       recall Sample.backend Sample.plain Sample.store "coffee" Sample.narrow
       = Ok rows
       /\ Permutation ranked
            (List.filter (Spec.qualifies Sample.plain "coffee" Sample.narrow)
                         (Postgrest.memories Sample.store))
       /\ StronglySorted Spec.ranks_before ranked
       /\ rows = firstn (Z.to_nat (or_count (RecallOpts.limit Sample.narrow) 10))
                        ranked
       /\ StronglySorted Spec.ranks_before rows
       /\ (List.length rows
           <= Z.to_nat (or_count (RecallOpts.limit Sample.narrow) 10))%nat
       /\ Forall
            (fun m =>
               In m (Postgrest.memories Sample.store)
               /\ Spec.passes Sample.plain Sample.narrow m
               /\ Like.ilike (content m) ("%" ++ "coffee" ++ "%") = Some true)
            rows
       /\ (Spec.literal "coffee" ->
           Forall (fun m => Spec.occurs_in "coffee" (content m)) rows)
       /\ (forall m,
             In m (Postgrest.memories Sample.store) ->
             Spec.passes Sample.plain Sample.narrow m ->
             Like.ilike (content m) ("%" ++ "coffee" ++ "%") = Some true ->
             In m ranked).
Proof.
  split; [left; reflexivity|].
  split; [vm_compute; discriminate|].
  split; [reflexivity|]. split; [reflexivity|]. split; [reflexivity|].
  apply (C4_keyword_fallback Sample.backend Sample.plain Sample.store
           "coffee" Sample.narrow).
  - left. reflexivity.
  - vm_compute. discriminate.
  - reflexivity.
  - reflexivity.
  - reflexivity.
Defined.

(** C5: when embedding generation fails with a provider error, [remember]
    rejects with that error and the store is as it was: no row is written.
    This covers a selected OpenAI provider without an API key, the
    unimplemented 'voyage' provider, and a failing call of the provider. *)
Theorem C5_remember_aborts_on_provider_error (B : Backend)
        (this : OpenClawMemoryConfig) (st : Postgrest.Store)
        (memory : RememberArg.t) :
  (forall e,
     generateEmbedding B this (RememberArg.content memory) = Throw e ->
     remember B this st memory = (Throw e, st))
  /\ (embeddingProvider this = Some Voyage ->
      remember B this st memory
      = (Throw (Error "Voyage AI embeddings not yet implemented"), st))
  /\ (embeddingProvider this = Some Openai -> openai this = None ->
      remember B this st memory
      = (Throw (Error "OpenAI API key not provided"), st))
  /\ (forall client e,
        embeddingProvider this = Some Openai -> openai this = Some client ->
        embeddings_create B client
          (or_string (embeddingModel this) "text-embedding-3-small")
          (RememberArg.content memory) = Throw e ->
        remember B this st memory = (Throw e, st)).
Proof.
  assert (H : forall e,
             generateEmbedding B this (RememberArg.content memory) = Throw e ->
             remember B this st memory = (Throw e, st)).
  { intros e E. unfold remember. now rewrite E. }
  split; [exact H|]. split; [|split].
  - intros Ep. apply H. unfold generateEmbedding. now rewrite Ep.
  - intros Ep Ek. apply H. unfold generateEmbedding. now rewrite Ep, Ek.
  - intros client e Ep Ek Ec. apply H. unfold generateEmbedding.
    now rewrite Ep, Ek, Ec.
Qed.

Lemma C5_remember_aborts_on_provider_error_witness :
  embeddingProvider Sample.keyless = Some Openai
  /\ openai Sample.keyless = None
  /\ remember Sample.backend Sample.keyless Sample.store Sample.note
     = (Throw (Error "OpenAI API key not provided"), Sample.store).
Proof.
  split; [reflexivity|]. split; [reflexivity|].
  apply (C5_remember_aborts_on_provider_error Sample.backend Sample.keyless
           Sample.store Sample.note); reflexivity.
Defined.

(** ** The summary template *)

Lemma string_append_assoc (a b c : string) : (a ++ b) ++ c = a ++ b ++ c.
Proof. induction a as [|x a IH]; simpl; [reflexivity|now rewrite IH]. Qed.

Lemma string_append_nil_r (a : string) : a ++ "" = a.
Proof. induction a as [|x a IH]; simpl; [reflexivity|now rewrite IH]. Qed.

Lemma join_bulleted (m : Memory) (ms : list Memory) :
  Spec.newline
  ++ join Spec.newline (map (fun m => "- " ++ content m) (m :: ms))
  = Spec.bulleted (m :: ms).
Proof.
  revert m; induction ms as [|m' ms IH]; intros m.
  - cbn [map join Spec.bulleted].
    now rewrite string_append_nil_r.
  - change (join Spec.newline (map (fun m => "- " ++ content m) (m :: m' :: ms)))
      with (("- " ++ content m)
              ++ Spec.newline
              ++ join Spec.newline
                   (map (fun m => "- " ++ content m) (m' :: ms))).
    rewrite IH. cbn [Spec.bulleted].
    now rewrite (string_append_assoc "- " (content m)).
Qed.

Lemma rendered_summary (ms : list Memory) :
  (if 0 <? Z.of_nat (List.length ms)
   then "Relevant memories:" ++ String (ascii_of_nat 10) ""
        ++ join (String (ascii_of_nat 10) "")
                (map (fun m => "- " ++ content m) ms)
   else "No relevant memories found.")
  = Spec.summary_of ms.
Proof.
  destruct ms as [|m ms]; [reflexivity|].
  change (0 <? Z.of_nat (List.length (m :: ms))) with true.
  cbn [Spec.summary_of]. f_equal. apply join_bulleted.
Qed.

(** C6, counterexample: on a store of six notes
    [getContext("note", { maxMemories: 0 })] returns five memories, while
    [recall] called with the limit 0 returns the six: the limit of the call
    is not [maxMemories]. *)
Lemma C6_zero_max_memories_counterexample :
  ~ AsWorded.context_limit_is_maxMemories
      Sample.backend Sample.plain Demo.six "note" Demo.no_memories.
Proof.
  intros H. specialize (H 0).
  destruct (getContext Sample.backend Sample.plain Demo.six "note"
                       Demo.no_memories) as [ctx|e] eqn:E.
  - specialize (H ctx eq_refl eq_refl).
    vm_compute in E. injection E as <-.
    vm_compute in H. discriminate H.
  - vm_compute in E. discriminate E.
Qed.

(** C6 (amended): [getContext] obtains its memories from [recall], called
    with the given [userId] and with [maxMemories] as the limit when it is
    supplied and not 0, with the limit 5 when it is absent or 0, and fails
    when that call fails.  Its [summary] is the fixed
    template: for a non-empty list the header line followed by one bulleted
    line per memory, in the order [recall] returned them and with the
    content whole; for an empty list the text 'No relevant memories
    found.'. *)
Theorem C6_getContext_template (B : Backend) (this : OpenClawMemoryConfig)
        (st : Postgrest.Store) (query : string) (opts : ContextOpts.t) :
  (ContextOpts.maxMemories opts = None ->
   RecallOpts.limit (Spec.context_recall_options opts) = Some 5)
  /\ (forall n, ContextOpts.maxMemories opts = Some n -> n <> 0 ->
      RecallOpts.limit (Spec.context_recall_options opts) = Some n)
  /\ (ContextOpts.maxMemories opts = Some 0 ->
      RecallOpts.limit (Spec.context_recall_options opts) = Some 5)
  /\ RecallOpts.userId (Spec.context_recall_options opts)
     = ContextOpts.userId opts
  /\ (forall e,
        recall B this st query (Spec.context_recall_options opts) = Throw e ->
        getContext B this st query opts = Throw e)
  /\ (forall ms,
        recall B this st query (Spec.context_recall_options opts) = Ok ms ->
        truthy_string (ContextOpts.sessionId opts) = None ->
        getContext B this st query opts
        = Ok {| ctx_memories := ms;
                recentMessages := [];
                summary := Spec.summary_of ms |})
  /\ (forall ms sessionId msgs,
        recall B this st query (Spec.context_recall_options opts) = Ok ms ->
        truthy_string (ContextOpts.sessionId opts) = Some sessionId ->
        getMessages st sessionId
          {| MessagesOpts.limit :=
               Some (or_count (ContextOpts.maxMessages opts) 20);
             MessagesOpts.offset := None |} = Ok msgs ->
        getContext B this st query opts
        = Ok {| ctx_memories := ms;
                recentMessages := msgs;
                summary := Spec.summary_of ms |})
  /\ (forall ctx,
        getContext B this st query opts = Ok ctx ->
        recall B this st query (Spec.context_recall_options opts)
        = Ok (ctx_memories ctx)
        /\ summary ctx = Spec.summary_of (ctx_memories ctx)).
Proof.
  split.
  { intros E. unfold Spec.context_recall_options. cbn. now rewrite E. }
  split.
  { intros n E Hn. unfold Spec.context_recall_options. cbn. rewrite E.
    cbn. destruct (Z.eqb_spec n 0); [contradiction|reflexivity]. }
  split.
  { intros E. unfold Spec.context_recall_options. cbn. now rewrite E. }
  split; [reflexivity|].
  unfold getContext.
  change {| RecallOpts.userId := ContextOpts.userId opts;
            RecallOpts.category := None;
            RecallOpts.limit :=
              Some (or_count (ContextOpts.maxMemories opts) 5);
            RecallOpts.minImportance := None;
            RecallOpts.minSimilarity := None |}
    with (Spec.context_recall_options opts).
  destruct (recall B this st query (Spec.context_recall_options opts))
    as [ms|e0]; cbn [bind].
  - split; [discriminate|].
    split.
    { intros ms' [= <-] Es. rewrite Es. cbn [bind].
      now rewrite rendered_summary. }
    split.
    { intros ms' sid msgs [= <-] Es Em. rewrite Es, Em. cbn [bind].
      now rewrite rendered_summary. }
    intros ctx.
    destruct (truthy_string (ContextOpts.sessionId opts)) as [sid|].
    + destruct (getMessages st sid _) as [msgs|e1]; cbn [bind];
        [|discriminate].
      intros [= <-]. cbn. split; [reflexivity|apply rendered_summary].
    + cbn [bind]. intros [= <-]. cbn.
      split; [reflexivity|apply rendered_summary].
  - split; [now intros e [= <-]|].
    split; [discriminate|]. split; [discriminate|]. discriminate.
Qed.

Lemma C6_getContext_template_witness :
  recall Sample.backend Sample.plain Sample.store "e"
         (Spec.context_recall_options ContextOpts.empty)
  = Ok [Sample.mem_a; Sample.mem_b; Sample.mem_n]
  /\ truthy_string (ContextOpts.sessionId ContextOpts.empty) = None
  /\ getContext Sample.backend Sample.plain Sample.store "e" ContextOpts.empty
     = Ok {| ctx_memories := [Sample.mem_a; Sample.mem_b; Sample.mem_n];
             recentMessages := [];
             summary := Spec.summary_of
                          [Sample.mem_a; Sample.mem_b; Sample.mem_n] |}.
Proof.
  split; [vm_compute; reflexivity|]. split; [reflexivity|].
  apply (C6_getContext_template Sample.backend Sample.plain Sample.store "e"
           ContextOpts.empty).
  - vm_compute. reflexivity.
  - reflexivity.
Defined.

(** ** Looking a memory up by its key *)

Lemma find_absent {A : Type} (f : A -> bool) (l : list A) :
  (forall x, In x l -> f x = false) -> List.find f l = None.
Proof.
  induction l as [|y l IH]; intros H; [reflexivity|].
  simpl. rewrite (H y (or_introl eq_refl)).
  apply IH. intros x Hx. apply H. now right.
Qed.

(** The rows [findSimilarMemories] returns around a memory that carries an
    embedding. *)
Lemma similar_rows (B : Backend) (st : Postgrest.Store) (memoryId : string)
      (opts : SimilarOpts.t) (source : Memory) (e : list Q) :
  List.find (fun m => String.eqb (id m) memoryId) (Postgrest.memories st)
  = Some source ->
  embedding source = Some e ->
  exists rows,
    findSimilarMemories B st memoryId opts = Ok rows
    /\ Forall
         (fun m =>
            id m <> memoryId
            /\ In m (Postgrest.memories st)
            /\ agent_id m = agent_id source
            /\ exists e',
                 embedding m = Some e'
                 /\ (nullish (SimilarOpts.minSimilarity opts) (8 # 10)
                     <= similarity B e e')%Q)
         rows.
Proof.
  intros E Ee.
  unfold findSimilarMemories, Postgrest.find_similar_memories.
  cbn [Postgrest.memory_id similar_rpc_args Postgrest.f_match_threshold
       Postgrest.f_match_count].
  rewrite E, Ee. cbn [rows_or_throw or_empty].
  eexists. split; [reflexivity|].
  apply Forall_forall. intros m Hm.
  apply firstn_In, sort_by_In, filter_In in Hm. destruct Hm as [Hin Hm].
  rewrite !andb_true_iff, negb_true_iff in Hm.
  destruct Hm as [[Hid Ha] Hs].
  split; [now apply String.eqb_neq|]. split; [exact Hin|].
  split; [now apply String.eqb_eq|]. now apply similar_to_iff.
Qed.

(** C7: [findSimilarMemories] fails with NotFound when no memory has the
    given id and when the memory that has it carries no embedding.
    Otherwise it returns the vector search around that memory's embedding,
    with a similarity threshold of [minSimilarity], 0.8 when absent, and a
    cap of [limit], 5 when absent or 0; the memory with the given id is
    never among the rows. *)
Theorem C7_findSimilarMemories (B : Backend) (st : Postgrest.Store)
        (memoryId : string) (opts : SimilarOpts.t) :
  (SimilarOpts.minSimilarity opts = None ->
   Postgrest.f_match_threshold (similar_rpc_args memoryId opts) = (8 # 10)%Q)
  /\ (forall t, SimilarOpts.minSimilarity opts = Some t ->
      Postgrest.f_match_threshold (similar_rpc_args memoryId opts) = t)
  /\ (SimilarOpts.limit opts = None ->
      Postgrest.f_match_count (similar_rpc_args memoryId opts) = 5)
  /\ (forall n, SimilarOpts.limit opts = Some n -> n <> 0 ->
      Postgrest.f_match_count (similar_rpc_args memoryId opts) = n)
  /\ (SimilarOpts.limit opts = Some 0 ->
      Postgrest.f_match_count (similar_rpc_args memoryId opts) = 5)
  /\ ((forall m, In m (Postgrest.memories st) -> id m <> memoryId) ->
      findSimilarMemories B st memoryId opts
      = Throw (PostgrestError Postgrest.not_found))
  /\ (forall source,
        List.find (fun m => String.eqb (id m) memoryId) (Postgrest.memories st)
        = Some source ->
        embedding source = None ->
        findSimilarMemories B st memoryId opts
        = Throw (PostgrestError Postgrest.not_found))
  /\ (forall source e,
        List.find (fun m => String.eqb (id m) memoryId) (Postgrest.memories st)
        = Some source ->
        embedding source = Some e ->
        exists rows,
          findSimilarMemories B st memoryId opts = Ok rows
          /\ rows
             = firstn (Z.to_nat (or_count (SimilarOpts.limit opts) 5))
                 (Postgrest.sort_by (Postgrest.closer (similarity B) e)
                    (List.filter
                       (fun m =>
                          negb (String.eqb (id m) memoryId)
                          && String.eqb (agent_id m) (agent_id source)
                          && Postgrest.similar_to (similarity B) e
                               (nullish (SimilarOpts.minSimilarity opts)
                                        (8 # 10)%Q) m)
                       (Postgrest.memories st)))
          /\ (List.length rows
              <= Z.to_nat (or_count (SimilarOpts.limit opts) 5))%nat
          /\ Forall
               (fun m =>
                  id m <> memoryId
                  /\ In m (Postgrest.memories st)
                  /\ agent_id m = agent_id source
                  /\ exists e',
                       embedding m = Some e'
                       /\ (nullish (SimilarOpts.minSimilarity opts) (8 # 10)
                           <= similarity B e e')%Q)
               rows).
Proof.
  split; [now intros E; cbn; rewrite E|].
  split; [now intros t E; cbn; rewrite E|].
  split; [now intros E; cbn; rewrite E|].
  split.
  { intros n E Hn. cbn. rewrite E. cbn.
    destruct (Z.eqb_spec n 0); [contradiction|reflexivity]. }
  split; [now intros E; cbn; rewrite E|].
  unfold findSimilarMemories, Postgrest.find_similar_memories.
  cbn [Postgrest.memory_id similar_rpc_args Postgrest.f_match_threshold
       Postgrest.f_match_count].
  split; [|split].
  - intros Habs. rewrite find_absent; [reflexivity|].
    intros m Hm. apply String.eqb_neq. now apply Habs.
  - intros source E En. now rewrite E, En.
  - intros source e E Ee. rewrite E, Ee. cbn [rows_or_throw or_empty].
    eexists. split; [reflexivity|]. split; [reflexivity|].
    split; [apply firstn_le_length|].
    apply Forall_forall. intros m Hm.
    apply firstn_In, sort_by_In, filter_In in Hm. destruct Hm as [Hin Hm].
    rewrite !andb_true_iff, negb_true_iff in Hm.
    destruct Hm as [[Hid Ha] Hs].
    split; [now apply String.eqb_neq|]. split; [exact Hin|].
    split; [now apply String.eqb_eq|]. now apply similar_to_iff.
Qed.

Lemma C7_findSimilarMemories_witness :
  List.find (fun m => String.eqb (id m) "A") (Postgrest.memories Sample.twins)
  = Some Sample.mem_a
  /\ embedding Sample.mem_a = Some [1%Q; 0%Q]
  /\ exists rows,
       findSimilarMemories Sample.backend Sample.twins "A" SimilarOpts.empty
       = Ok rows
       /\ rows
          = firstn (Z.to_nat 5)
              (Postgrest.sort_by
                 (Postgrest.closer (similarity Sample.backend) [1%Q; 0%Q])
                 (List.filter
                    (fun m =>
                       negb (String.eqb (id m) "A")
                       && String.eqb (agent_id m) (agent_id Sample.mem_a)
                       && Postgrest.similar_to (similarity Sample.backend)
                            [1%Q; 0%Q] (8 # 10)%Q m)
                    (Postgrest.memories Sample.twins)))
       /\ (List.length rows <= Z.to_nat 5)%nat
       /\ Forall
            (fun m =>
               id m <> "A"
               /\ In m (Postgrest.memories Sample.twins)
               /\ agent_id m = agent_id Sample.mem_a
               /\ exists e', embedding m = Some e'
                             /\ ((8 # 10) <= similarity Sample.backend
                                               [1%Q; 0%Q] e')%Q)
            rows.
Proof.
  split; [reflexivity|]. split; [reflexivity|].
  destruct (C7_findSimilarMemories Sample.backend Sample.twins "A"
              SimilarOpts.empty) as (_ & _ & _ & _ & _ & _ & _ & H).
  apply (H Sample.mem_a [1%Q; 0%Q]); reflexivity.
Defined.

(** C8, counterexample: on the sample store [forget("Z")], issued by the
    instance of agent-1, deletes the memory [Z], which belongs to
    agent-2. *)
Lemma C8_forget_other_agent_counterexample :
  ~ AsWorded.forget_within_agent Sample.plain Sample.store "Z".
Proof.
  intros H.
  assert (Hin : In Sample.mem_z (Postgrest.memories Sample.store))
    by (right; right; right; left; reflexivity).
  assert (Hagent : agent_id Sample.mem_z <> agentId Sample.plain)
    by (vm_compute; discriminate).
  specialize (H Sample.mem_z Hin Hagent). vm_compute in H.
  repeat (destruct H as [H|H]; [discriminate H|]). exact H.
Qed.

(** C8 (amended): the searches and the insert are scoped to the instance's
    agent: every memory [recall] returns and the row [remember] writes
    carry its [agentId].  [forget] and [findSimilarMemories] address a
    memory by its id alone: [forget] deletes the rows with the given id,
    whichever agent owns them, and no other row, and [findSimilarMemories]
    returns memories of the agent that owns the referenced memory. *)
Theorem C8_agent_scoping (B : Backend) (this : OpenClawMemoryConfig)
        (st : Postgrest.Store) :
  (forall query opts rows,
     recall B this st query opts = Ok rows ->
     Forall (fun m => agent_id m = agentId this) rows)
  /\ (forall memory m st',
        remember B this st memory = (Ok m, st') ->
        agent_id m = agentId this
        /\ Postgrest.memories st' = (Postgrest.memories st ++ [m])%list)
  /\ (forall memoryId,
        fst (forget st memoryId) = Ok tt
        /\ forall m,
             In m (Postgrest.memories (snd (forget st memoryId)))
             <-> In m (Postgrest.memories st) /\ id m <> memoryId)
  /\ (forall memoryId opts source rows,
        List.find (fun m => String.eqb (id m) memoryId) (Postgrest.memories st)
        = Some source ->
        findSimilarMemories B st memoryId opts = Ok rows ->
        Forall (fun m => agent_id m = agent_id source) rows).
Proof.
  split; [|split; [|split]].
  - intros query opts rows E. apply recall_sound in E. destruct E as [_ H].
    eapply Forall_impl; [|exact H]. cbn beta. now intros m [_ [Ha _]].
  - intros memory m st'. unfold remember.
    destruct (generateEmbedding B this (RememberArg.content memory))
      as [e|err]; [|discriminate].
    cbn. intros [= <- <-]. now split.
  - intros memoryId. split; [reflexivity|].
    intros m. cbn. rewrite filter_In, negb_true_iff, String.eqb_neq.
    reflexivity.
  - intros memoryId opts source rows Es.
    destruct (embedding source) as [e|] eqn:Ee.
    + destruct (similar_rows B st memoryId opts source e Es Ee)
        as (rows' & E & H).
      rewrite E. intros [= <-].
      eapply Forall_impl; [|exact H]. cbn beta. now intros m (_ & _ & Ha & _).
    + unfold findSimilarMemories, Postgrest.find_similar_memories.
      cbn [Postgrest.memory_id similar_rpc_args]. rewrite Es, Ee.
      discriminate.
Qed.

Lemma C8_agent_scoping_witness :
  recall Sample.backend Sample.plain Sample.store "coffee" Sample.narrow
  = Ok [Sample.mem_b]
  /\ Forall (fun m => agent_id m = agentId Sample.plain) [Sample.mem_b].
Proof.
  split; [vm_compute; reflexivity|].
  destruct (C8_agent_scoping Sample.backend Sample.plain Sample.store)
    as [H _].
  apply (H "coffee" Sample.narrow). vm_compute. reflexivity.
Defined.

(** C9: the row [remember] hands to the store has importance exactly 1/2
    when the caller gave none (and the caller's value otherwise, 0
    included) and the empty object as metadata when the caller gave none;
    whenever embedding generation succeeds, the call succeeds and the
    stored memory carries these values. *)
Theorem C9_remember_defaults (B : Backend) (this : OpenClawMemoryConfig)
        (st : Postgrest.Store) (memory : RememberArg.t) :
  (forall emb,
     RememberArg.importance memory = None ->
     Postgrest.ins_importance (remember_row this memory emb) = (1 # 2)%Q)
  /\ (forall emb i,
        RememberArg.importance memory = Some i ->
        Postgrest.ins_importance (remember_row this memory emb) = i)
  /\ (forall emb,
        RememberArg.metadata memory = None ->
        Postgrest.ins_metadata (remember_row this memory emb) = [])
  /\ (forall emb,
        generateEmbedding B this (RememberArg.content memory) = Ok emb ->
        exists m st',
          remember B this st memory = (Ok m, st')
          /\ Postgrest.memories st' = (Postgrest.memories st ++ [m])%list
          /\ content m = RememberArg.content memory
          /\ embedding m = emb
          /\ (RememberArg.importance memory = None ->
              importance m = (1 # 2)%Q)
          /\ (RememberArg.metadata memory = None -> metadata m = [])).
Proof.
  split; [now intros emb E; cbn; rewrite E|].
  split; [now intros emb i E; cbn; rewrite E|].
  split; [now intros emb E; cbn; rewrite E|].
  intros emb E. unfold remember. rewrite E. cbn.
  eexists. eexists. split; [reflexivity|]. cbn.
  repeat split.
  - now intros ->.
  - now intros ->.
Qed.

Lemma C9_remember_defaults_witness :
  RememberArg.importance Sample.note = None
  /\ Postgrest.ins_importance (remember_row Sample.plain Sample.note None)
     = (1 # 2)%Q.
Proof.
  split; [reflexivity|].
  destruct (C9_remember_defaults Sample.backend Sample.plain Sample.store
              Sample.note) as [H _].
  apply H. reflexivity.
Defined.

(** C10, counterexample: with no embedding provider,
    [recall("", { limit: 0 })] on the sample store returns the three
    memories of the agent, not the first 0 of them. *)
Lemma C10_empty_query_limit_counterexample :
  ~ AsWorded.empty_query_top_limit
      Sample.backend Sample.plain Sample.store
      (HybridOpts.as_recall Sample.zero_limit).
Proof.
  intros H.
  destruct (H (or_introl eq_refl) eq_refl eq_refl eq_refl 0 eq_refl)
    as (ranked & _ & _ & E).
  vm_compute in E. discriminate E.
Qed.

(** C10 (amended): in the keyword path the content filter of the empty
    query is the pattern [%%], which every content satisfies; hence, with
    no embedding available and no other filter, [recall("")] returns the
    agent's memories ordered by importance descending then [created_at]
    descending, whatever their content, cut at the limit when it is
    positive and at 10 when it is absent or 0. *)
Theorem C10_empty_query_matches_all (B : Backend)
        (this : OpenClawMemoryConfig) (st : Postgrest.Store)
        (opts : RecallOpts.t) :
  In (Postgrest.Ilike_content "%%")
     (Postgrest.filters (text_search_query this "" opts))
  /\ (forall text, Like.ilike text "%%" = Some true)
  /\ (Spec.unavailable this ->
      RecallOpts.userId opts = None ->
      RecallOpts.category opts = None ->
      RecallOpts.minImportance opts = None ->
      0 <= or_count (RecallOpts.limit opts) 10 ->
      exists ranked,
        Permutation ranked
          (List.filter (fun m => String.eqb (agent_id m) (agentId this))
                       (Postgrest.memories st))
        /\ StronglySorted Spec.ranks_before ranked
        /\ recall B this st "" opts
           = Ok (firstn (Z.to_nat (or_count (RecallOpts.limit opts) 10))
                        ranked)).
Proof.
  split.
  { unfold text_search_query. cbv zeta.
    match goal with
    | |- In _ (Postgrest.filters (?q |> Postgrest.where_ ?f)) =>
        change (Postgrest.filters (q |> Postgrest.where_ f))
          with (Postgrest.filters q ++ [f])%list
    end.
    apply in_or_app. right. left. reflexivity. }
  split; [exact ilike_empty_query|].
  intros Hun Hu Hc Hi Hcap.
  exists (Postgrest.sort_by (Postgrest.before Spec.rank_keys)
            (List.filter (fun m => String.eqb (agent_id m) (agentId this))
                         (Postgrest.memories st))).
  split; [apply sort_by_perm|]. split; [apply sort_by_rank_sorted|].
  rewrite (recall_unavailable B this st "" opts Hun).
  rewrite (text_search_ok this st "" opts Hcap).
  do 3 f_equal. apply filter_ext. intros m.
  unfold Spec.qualifies. rewrite Hu, Hc, Hi. cbn [truthy_string truthy_number].
  rewrite (ilike_empty_query (content m)).
  now rewrite !andb_true_r.
Qed.

Lemma C10_empty_query_matches_all_witness :
  Spec.unavailable Sample.plain
  /\ RecallOpts.userId RecallOpts.empty = None
  /\ RecallOpts.category RecallOpts.empty = None
  /\ RecallOpts.minImportance RecallOpts.empty = None
  /\ 0 <= or_count (RecallOpts.limit RecallOpts.empty) 10
  /\ exists ranked,
       Permutation ranked
         (List.filter
            (fun m => String.eqb (agent_id m) (agentId Sample.plain))
            (Postgrest.memories Sample.store))
       /\ StronglySorted Spec.ranks_before ranked
       /\ recall Sample.backend Sample.plain Sample.store "" RecallOpts.empty
          = Ok (firstn (Z.to_nat (or_count (RecallOpts.limit RecallOpts.empty)
                                           10))
                       ranked).
Proof.
  split; [left; reflexivity|].
  do 3 (split; [reflexivity|]).
  split; [vm_compute; discriminate|].
  destruct (C10_empty_query_matches_all Sample.backend Sample.plain
              Sample.store RecallOpts.empty) as (_ & _ & H).
  apply H; try reflexivity.
  - left. reflexivity.
  - vm_compute. discriminate.
Defined.

(** * Further properties of the class *)

(** ** Windows of a list *)

Section WindowFacts.
Context {A : Type}.
Local Open Scope list_scope.

Lemma in_skipn_in (n : nat) (l : list A) (x : A) :
  In x (skipn n l) -> In x l.
Proof.
  revert l; induction n as [|n IH]; intros [|y l]; simpl; auto.
Qed.

Lemma skipn_strongly_sorted (R : A -> A -> Prop) (n : nat) (l : list A) :
  StronglySorted R l -> StronglySorted R (skipn n l).
Proof.
  revert l; induction n as [|n IH]; intros l Hl; [exact Hl|].
  destruct Hl as [|y l Hl _]; simpl; [constructor|now apply IH].
Qed.

Lemma firstn_then_next (n m : nat) (l : list A) :
  firstn n l ++ firstn m (skipn n l) = firstn (n + m) l.
Proof.
  revert l; induction n as [|n IH]; intros l; [reflexivity|].
  destruct l as [|y l]; simpl.
  - now destruct m.
  - now rewrite IH.
Qed.

Lemma skipn_add (n m : nat) (l : list A) :
  skipn (n + m) l = skipn m (skipn n l).
Proof.
  revert l; induction n as [|n IH]; intros l; [reflexivity|].
  destruct l as [|y l]; simpl; [now destruct m|apply IH].
Qed.

Lemma in_firstn_or_full (n : nat) (l : list A) (x : A) :
  In x l -> In x (firstn n l) \/ List.length (firstn n l) = n.
Proof.
  intros Hx. destruct (Nat.le_gt_cases (List.length l) n) as [H|H].
  - left. now rewrite firstn_all2.
  - right. apply firstn_length_le. lia.
Qed.

Lemma filter_keeps_all (f : A -> bool) (l : list A) :
  (forall x, In x l -> f x = true) -> List.filter f l = l.
Proof.
  induction l as [|y l IH]; intros H; [reflexivity|].
  simpl. rewrite (H y (or_introl eq_refl)). f_equal.
  apply IH. intros x Hx. apply H. now right.
Qed.

Lemma filter_drops_all (f : A -> bool) (l : list A) :
  (forall x, In x l -> f x = false) -> List.filter f l = [].
Proof.
  induction l as [|y l IH]; intros H; [reflexivity|].
  simpl. rewrite (H y (or_introl eq_refl)).
  apply IH. intros x Hx. apply H. now right.
Qed.

End WindowFacts.

(** ** The query builder on any table *)

Section TableFacts.
Context {R : Type}.
Import Postgrest.
Local Open Scope list_scope.

Lemma before_by_columns (cols : list ((R -> Z) * bool)) (r1 r2 : R) :
  Table.before_by (Listing.columns cols) r1 r2 = true
  <-> Listing.in_order cols r1 r2.
Proof.
  induction cols as [|[c asc] cols IH]; simpl.
  - tauto.
  - unfold Table.by_column at 1.
    destruct (Z.compare_spec (c r1) (c r2)) as [E|E|E].
    + rewrite IH. split.
      * intros H. right. now split.
      * intros [H|[_ H]]; [destruct asc; lia|exact H].
    + destruct asc; split; try discriminate; auto.
      intros [H|[H _]]; lia.
    + destruct asc; simpl; split; try discriminate; auto.
      intros [H|[H _]]; lia.
Qed.

Lemma in_order_total (cols : list ((R -> Z) * bool)) (r1 r2 : R) :
  Listing.in_order cols r1 r2 \/ Listing.in_order cols r2 r1.
Proof.
  induction cols as [|[c asc] cols IH]; simpl; [now left|].
  destruct (Z.compare_spec (c r1) (c r2)) as [E|E|E].
  - destruct IH as [H|H]; [left|right]; right; split; auto.
  - destruct asc; [left|right]; now left.
  - destruct asc; [right|left]; now left.
Qed.

Lemma in_order_trans (cols : list ((R -> Z) * bool)) (r1 r2 r3 : R) :
  Listing.in_order cols r1 r2 -> Listing.in_order cols r2 r3 ->
  Listing.in_order cols r1 r3.
Proof.
  induction cols as [|[c asc] cols IH]; simpl; [auto|].
  intros [H12|[E12 H12]] [H23|[E23 H23]].
  - left. destruct asc; lia.
  - left. destruct asc; lia.
  - left. destruct asc; lia.
  - right. split; [lia|auto].
Qed.

Lemma sort_by_columns_sorted (cols : list ((R -> Z) * bool)) (l : list R) :
  StronglySorted (Listing.in_order cols)
    (sort_by (Table.before_by (Listing.columns cols)) l).
Proof.
  apply StronglySorted_impl
    with (fun a b => Table.before_by (Listing.columns cols) a b = true).
  - intros x y. apply before_by_columns.
  - apply sort_by_sorted.
    + intros x y. rewrite !before_by_columns. apply in_order_total.
    + intros x y z. rewrite !before_by_columns. apply in_order_trans.
Qed.

(** What [await q] answers when it answers with rows. *)
Lemma run_rows (rows : list R) (q : Table.select R) (l : list R) :
  rows_or_throw (Table.run rows q) = Ok l ->
  0 <= Table.first_row q
  /\ l = match Table.row_count q with
         | Some n => firstn (Z.to_nat n)
                       (skipn (Z.to_nat (Table.first_row q))
                              (Table.selected q rows))
         | None => skipn (Z.to_nat (Table.first_row q)) (Table.selected q rows)
         end.
Proof.
  unfold Table.run.
  destruct (Z.ltb_spec (Table.first_row q) 0) as [H|H]; cbn [orb].
  - discriminate.
  - destruct (match Table.row_count q with
              | Some n => n <? 0
              | None => false
              end); [discriminate|].
    cbn. intros [= <-]. split; [exact H|reflexivity].
Qed.

Lemma run_in_selected (rows : list R) (q : Table.select R) (l : list R) :
  rows_or_throw (Table.run rows q) = Ok l ->
  forall r, In r l -> In r (Table.selected q rows).
Proof.
  intros E r Hr. apply run_rows in E. destruct E as [_ ->].
  destruct (Table.row_count q).
  - now apply firstn_In, in_skipn_in in Hr.
  - now apply in_skipn_in in Hr.
Qed.

Lemma selected_in (rows : list R) (q : Table.select R) (r : R) :
  In r (Table.selected q rows)
  <-> In r rows /\ forallb (fun test => test r) (Table.conds q) = true.
Proof.
  unfold Table.selected. now rewrite sort_by_In, filter_In.
Qed.

Lemma run_sorted (rows : list R) (q : Table.select R) (l : list R)
      (cols : list ((R -> Z) * bool)) :
  Table.keys q = Listing.columns cols ->
  rows_or_throw (Table.run rows q) = Ok l ->
  StronglySorted (Listing.in_order cols) l.
Proof.
  intros Ek E. apply run_rows in E. destruct E as [_ ->].
  assert (H : StronglySorted (Listing.in_order cols) (Table.selected q rows)).
  { unfold Table.selected. rewrite Ek. apply sort_by_columns_sorted. }
  destruct (Table.row_count q).
  - now apply firstn_sorted, skipn_strongly_sorted.
  - now apply skipn_strongly_sorted.
Qed.

Lemma run_length (rows : list R) (q : Table.select R) (l : list R) (n : Z) :
  Table.row_count q = Some n ->
  rows_or_throw (Table.run rows q) = Ok l ->
  (List.length l <= Z.to_nat n)%nat.
Proof.
  intros En E. apply run_rows in E. destruct E as [_ ->]. rewrite En.
  apply firstn_le_length.
Qed.

End TableFacts.

(** ** Listing the memories *)

Section ListingFacts.
Import Postgrest.
Local Open Scope list_scope.
Variable this : OpenClawMemoryConfig.

Lemma getMemories_sound (st : Store) (opts : MemoriesOpts.t)
      (rows : list Memory) :
  getMemories this st opts = Ok rows ->
  (List.length rows <= Z.to_nat (or_count (MemoriesOpts.limit opts) 50))%nat
  /\ StronglySorted (Listing.in_order [(created_at, false)]) rows
  /\ Forall
       (fun m =>
          In m (memories st)
          /\ agent_id m = agentId this
          /\ (forall u, MemoriesOpts.userId opts = Some u -> u <> "" ->
                user_id m = Some u)
          /\ (forall c, MemoriesOpts.category opts = Some c -> c <> "" ->
                category m = Some c))
       rows.
Proof.
  unfold getMemories. cbv zeta.
  set (o := or_count (MemoriesOpts.offset opts) 0).
  set (n := or_count (MemoriesOpts.limit opts) 50).
  destruct (truthy_string (MemoriesOpts.userId opts)) as [u|] eqn:Eu;
    destruct (truthy_string (MemoriesOpts.category opts)) as [c|] eqn:Ec;
    intros E;
    (split;
     [replace n with (o + n - 1 - o + 1) by lia;
      eapply run_length; [|exact E]; reflexivity
     |split;
      [eapply (run_sorted _ _ _ [(created_at, false)]); [|exact E];
       reflexivity
      |apply Forall_forall; intros m Hm;
       apply (run_in_selected _ _ _ E), selected_in in Hm;
       destruct Hm as [Hin Hm]; cbn in Hm;
       rewrite ?andb_true_iff in Hm]]).
  - destruct Hm as (Ha & Hu & Hc & _).
    apply truthy_string_some in Eu, Ec.
    apply String.eqb_eq in Ha. apply option_eqb_iff in Hu, Hc.
    repeat split; auto; intros; destruct Eu, Ec; congruence.
  - destruct Hm as (Ha & Hu & _).
    apply truthy_string_some in Eu. apply truthy_string_none in Ec.
    apply String.eqb_eq in Ha. apply option_eqb_iff in Hu.
    repeat split; auto; intros; destruct Eu, Ec; congruence.
  - destruct Hm as (Ha & Hc & _).
    apply truthy_string_none in Eu. apply truthy_string_some in Ec.
    apply String.eqb_eq in Ha. apply option_eqb_iff in Hc.
    repeat split; auto; intros; destruct Eu, Ec; congruence.
  - destruct Hm as (Ha & _).
    apply truthy_string_none in Eu, Ec. apply String.eqb_eq in Ha.
    repeat split; auto; intros; destruct Eu, Ec; congruence.
Qed.

End ListingFacts.

(** ** Writing, deleting and finding a memory *)

Lemma forget_memories (st : Postgrest.Store) (memoryId : string) (m : Memory) :
  In m (Postgrest.memories (snd (forget st memoryId)))
  <-> In m (Postgrest.memories st) /\ id m <> memoryId.
Proof.
  cbn. now rewrite filter_In, negb_true_iff, String.eqb_neq.
Qed.

Lemma forget_absent (st : Postgrest.Store) (memoryId : string) :
  (forall m, In m (Postgrest.memories st) -> id m <> memoryId) ->
  forget st memoryId = (Ok tt, st).
Proof.
  intros H. unfold forget, Postgrest.delete_memory_eq_id.
  rewrite filter_keeps_all.
  - now destruct st.
  - intros m Hm. apply negb_true_iff, String.eqb_neq. now apply H.
Qed.

(** X1: once [forget(id)] has run, neither [recall] nor [getMemories]
    returns a memory with that id, whatever the query and the options. *)
Theorem X1_forget_leaves_no_trace (B : Backend) (this : OpenClawMemoryConfig)
        (st : Postgrest.Store) (memoryId : string) :
  (forall query opts rows,
     recall B this (snd (forget st memoryId)) query opts = Ok rows ->
     Forall (fun m => id m <> memoryId) rows)
  /\ (forall opts rows,
        getMemories this (snd (forget st memoryId)) opts = Ok rows ->
        Forall (fun m => id m <> memoryId) rows).
Proof.
  split.
  - intros query opts rows E. apply recall_sound in E. destruct E as [_ H].
    eapply Forall_impl; [|exact H]. cbn beta. intros m [Hin _].
    now apply forget_memories in Hin.
  - intros opts rows E. apply getMemories_sound in E.
    destruct E as (_ & _ & H).
    eapply Forall_impl; [|exact H]. cbn beta. intros m [Hin _].
    now apply forget_memories in Hin.
Qed.

Lemma X1_forget_leaves_no_trace_witness :
  recall Sample.backend Sample.plain (snd (forget Sample.store "A")) ""
         RecallOpts.empty
  = Ok [Sample.mem_b; Sample.mem_n]
  /\ Forall (fun m => id m <> "A") [Sample.mem_b; Sample.mem_n].
Proof.
  split; [vm_compute; reflexivity|].
  destruct (X1_forget_leaves_no_trace Sample.backend Sample.plain
              Sample.store "A") as [H _].
  apply (H "" RecallOpts.empty). vm_compute. reflexivity.
Defined.

(** X2: [forget] of an id that no memory has succeeds and leaves the store
    exactly as it was; hence a second [forget] of the same id changes
    nothing more. *)
Theorem X2_forget_is_idempotent (st : Postgrest.Store) (memoryId : string) :
  ((forall m, In m (Postgrest.memories st) -> id m <> memoryId) ->
   forget st memoryId = (Ok tt, st))
  /\ forget (snd (forget st memoryId)) memoryId
     = (Ok tt, snd (forget st memoryId)).
Proof.
  split; [apply forget_absent|].
  apply forget_absent. intros m Hm. now apply forget_memories in Hm.
Qed.

Lemma X2_forget_is_idempotent_witness :
  (forall m, In m (Postgrest.memories Sample.store) -> id m <> "Q")
  /\ forget Sample.store "Q" = (Ok tt, Sample.store).
Proof.
  assert (H : forall m, In m (Postgrest.memories Sample.store) -> id m <> "Q").
  { intros m Hm. cbn in Hm.
    repeat (destruct Hm as [<-|Hm]; [discriminate|]). contradiction. }
  split; [exact H|].
  now apply (X2_forget_is_idempotent Sample.store "Q").
Defined.

(** X3: when the key the store gives a new memory is not yet in use,
    [remember] followed by [forget] of the returned id leaves the table of
    memories as it was before the two calls. *)
Theorem X3_remember_then_forget (B : Backend) (this : OpenClawMemoryConfig)
        (st st' : Postgrest.Store) (memory : RememberArg.t) (m : Memory) :
  remember B this st memory = (Ok m, st') ->
  (forall x, In x (Postgrest.memories st) -> id x <> id m) ->
  fst (forget st' (id m)) = Ok tt
  /\ Postgrest.memories (snd (forget st' (id m))) = Postgrest.memories st
  /\ Postgrest.messages (snd (forget st' (id m))) = Postgrest.messages st.
Proof.
  unfold remember.
  destruct (generateEmbedding B this (RememberArg.content memory))
    as [e|err]; [|discriminate].
  cbn. intros [= <- <-] Hfresh. cbn.
  split; [reflexivity|]. split; [|reflexivity].
  rewrite filter_app. cbn. rewrite String.eqb_refl. cbn.
  rewrite app_nil_r. apply filter_keeps_all.
  intros x Hx. apply negb_true_iff, String.eqb_neq. now apply Hfresh.
Qed.

Lemma X3_remember_then_forget_witness :
  remember Sample.backend Sample.plain Sample.store Sample.note
  = (Ok Demo.noted, Demo.after_note)
  /\ (forall x, In x (Postgrest.memories Sample.store) ->
                id x <> id Demo.noted)
  /\ Postgrest.memories (snd (forget Demo.after_note (id Demo.noted)))
     = Postgrest.memories Sample.store.
Proof.
  assert (E : remember Sample.backend Sample.plain Sample.store Sample.note
              = (Ok Demo.noted, Demo.after_note)) by (vm_compute; reflexivity).
  assert (H : forall x, In x (Postgrest.memories Sample.store) ->
                        id x <> id Demo.noted).
  { intros x Hx. cbn in Hx.
    repeat (destruct Hx as [<-|Hx]; [discriminate|]). contradiction. }
  split; [exact E|]. split; [exact H|].
  apply (X3_remember_then_forget Sample.backend Sample.plain Sample.store
           Demo.after_note Sample.note Demo.noted E H).
Defined.

(** X4: without an embedding provider, a memory that [remember] has just
    stored is found by [recall] for every query that occurs in its content
    (letter case aside, and free of pattern characters): it is among the
    returned rows unless the limit (10 when absent or 0) is already
    filled. *)
Theorem X4_remembered_is_recalled (B : Backend) (this : OpenClawMemoryConfig)
        (st st' : Postgrest.Store) (memory : RememberArg.t) (m : Memory)
        (query : string) (limit : option Z) :
  Spec.unavailable this ->
  remember B this st memory = (Ok m, st') ->
  Spec.literal query ->
  Spec.occurs_in query (RememberArg.content memory) ->
  0 <= or_count limit 10 ->
  exists rows,
    recall B this st' query (RecallOpts.with_limit limit RecallOpts.empty)
    = Ok rows
    /\ (In m rows \/ List.length rows = Z.to_nat (or_count limit 10)).
Proof.
  intros Hun E Hlit Hocc Hcap.
  set (opts := RecallOpts.with_limit limit RecallOpts.empty).
  assert (Hm : In m (Postgrest.memories st')
               /\ Spec.qualifies this query opts m = true).
  { unfold remember in E.
    rewrite (proj2 (generateEmbedding_unavailable B this _) Hun) in E.
    cbn in E. injection E as <- <-. cbn [Postgrest.memories]. split.
    - apply in_or_app. right. now left.
    - apply qualifies_iff. split.
      + repeat split; cbn; intros; discriminate.
      + now apply ilike_literal. }
  rewrite (recall_unavailable B this st' query opts Hun).
  rewrite (text_search_ok this st' query opts Hcap).
  eexists. split; [reflexivity|].
  apply in_firstn_or_full. apply sort_by_In, filter_In. exact Hm.
Qed.

Lemma X4_remembered_is_recalled_witness :
  Spec.unavailable Sample.plain
  /\ remember Sample.backend Sample.plain Sample.store Sample.note
     = (Ok Demo.noted, Demo.after_note)
  /\ Spec.literal "VIM"
  /\ Spec.occurs_in "VIM" (RememberArg.content Sample.note)
  /\ 0 <= or_count None 10
  /\ exists rows,
       recall Sample.backend Sample.plain Demo.after_note "VIM"
              (RecallOpts.with_limit None RecallOpts.empty) = Ok rows
       /\ (In Demo.noted rows
           \/ List.length rows = Z.to_nat (or_count None 10)).
Proof.
  assert (Hun : Spec.unavailable Sample.plain) by (left; reflexivity).
  assert (E : remember Sample.backend Sample.plain Sample.store Sample.note
              = (Ok Demo.noted, Demo.after_note)) by (vm_compute; reflexivity).
  assert (Hlit : Spec.literal "VIM") by reflexivity.
  assert (Hocc : Spec.occurs_in "VIM" (RememberArg.content Sample.note)).
  { exists (Spec.fold_case "uses "), []. reflexivity. }
  assert (Hcap : 0 <= or_count None 10) by (vm_compute; discriminate).
  repeat (split; [assumption|]).
  exact (X4_remembered_is_recalled Sample.backend Sample.plain Sample.store
           Demo.after_note Sample.note Demo.noted "VIM" None
           Hun E Hlit Hocc Hcap).
Defined.

(** X5: [generateEmbedding] yields a vector exactly when the provider is
    'openai', an API key was given, and the provider's call succeeds with
    that vector; the model it asks for is [embeddingModel], or
    text-embedding-3-small when that is absent or empty.  With any other
    configuration it yields null or throws without calling the provider. *)
Theorem X5_embedding_only_from_openai (B : Backend)
        (this : OpenClawMemoryConfig) (text : string) (e : list Q) :
  (generateEmbedding B this text = Ok (Some e)
   <-> embeddingProvider this = Some Openai
       /\ exists key,
            openaiApiKey this = Some key /\ key <> ""
            /\ embeddings_create B key
                 (match embeddingModel this with
                  | Some model => if String.eqb model ""
                                  then "text-embedding-3-small"
                                  else model
                  | None => "text-embedding-3-small"
                  end) text = Ok e)
  /\ (embeddingProvider this <> Some Openai ->
      forall B', generateEmbedding B' this text = generateEmbedding B this text).
Proof.
  split.
  - unfold generateEmbedding, openai, or_string.
    assert (Hmodel : match truthy_string (embeddingModel this) with
                     | Some v => v
                     | None => "text-embedding-3-small"
                     end
                     = match embeddingModel this with
                       | Some model => if String.eqb model ""
                                       then "text-embedding-3-small"
                                       else model
                       | None => "text-embedding-3-small"
                       end).
    { unfold truthy_string. destruct (embeddingModel this) as [v|];
        [now destruct (String.eqb v "")|reflexivity]. }
    rewrite Hmodel.
    destruct (embeddingProvider this) as [[| |]|].
    + destruct (truthy_string (openaiApiKey this)) as [key|] eqn:Ek.
      * apply truthy_string_some in Ek. destruct Ek as [Ek Hne].
        split.
        -- intros E. split; [reflexivity|]. exists key.
           split; [exact Ek|]. split; [exact Hne|].
           destruct (embeddings_create B key _ text); cbn in E;
             [now injection E as ->|discriminate].
        -- intros (_ & key' & Ek' & _ & Ec).
           rewrite Ek in Ek'. injection Ek' as <-. now rewrite Ec.
      * apply truthy_string_none in Ek. split; [discriminate|].
        intros (_ & key & Ek' & Hne & _).
        destruct Ek as [Ek|Ek]; rewrite Ek in Ek'; [discriminate|].
        injection Ek' as <-. contradiction.
    + split; [discriminate|]. now intros [H _].
    + split; [discriminate|]. now intros [H _].
    + split; [discriminate|]. now intros [H _].
  - intros Hp B'. unfold generateEmbedding.
    destruct (embeddingProvider this) as [[| |]|]; try reflexivity.
    contradiction.
Qed.

Lemma X5_embedding_only_from_openai_witness :
  embeddingProvider Sample.keyed = Some Openai
  /\ openaiApiKey Sample.keyed = Some "sk-test"
  /\ "sk-test" <> ""
  /\ embeddings_create Sample.backend "sk-test" "text-embedding-3-small" "x"
     = Ok [1%Q; 0%Q]
  /\ generateEmbedding Sample.backend Sample.keyed "x" = Ok (Some [1%Q; 0%Q]).
Proof.
  split; [reflexivity|]. split; [reflexivity|]. split; [discriminate|].
  split; [reflexivity|].
  apply (proj2 (proj1 (X5_embedding_only_from_openai
                         Sample.backend Sample.keyed "x" [1%Q; 0%Q]))).
  split; [reflexivity|]. exists "sk-test".
  split; [reflexivity|]. split; [discriminate|reflexivity].
Defined.

(** ** The messages of a session *)

Section MessageFacts.
Import Postgrest.
Local Open Scope list_scope.

Lemma or_count_offset (a : Z) : or_count (Some a) 0 = a.
Proof. unfold or_count. now destruct (Z.eqb_spec a 0). Qed.

Lemma or_count_given (n d : Z) : n <> 0 -> or_count (Some n) d = n.
Proof. intros H. unfold or_count. now destruct (Z.eqb_spec n 0). Qed.

Lemma or_count_nonzero (x : option Z) (d : Z) : d <> 0 -> or_count x d <> 0.
Proof.
  intros H. unfold or_count. destruct x as [v|]; [|exact H].
  now destruct (Z.eqb_spec v 0).
Qed.

Lemma history_sorted (st : Store) (sid : string) :
  StronglySorted (fun a b => msg_created_at a <= msg_created_at b)
                 (Listing.history st sid).
Proof.
  apply StronglySorted_impl with (fun a b => message_before a b = true).
  - intros x y. unfold message_before. apply Z.leb_le.
  - apply sort_by_sorted; unfold message_before.
    + intros x y. rewrite !Z.leb_le. lia.
    + intros x y z. rewrite !Z.leb_le. lia.
Qed.

Lemma history_in (st : Store) (sid : string) (m : Message) :
  In m (Listing.history st sid) <-> In m (messages st) /\ session_id m = sid.
Proof.
  unfold Listing.history. now rewrite sort_by_In, filter_In, String.eqb_eq.
Qed.

(** [getMessages] answers exactly when the offset and the limit it uses
    are not negative, with that window of the session's history. *)
Lemma getMessages_window (st : Store) (sid : string) (opts : MessagesOpts.t)
      (rows : list Message) :
  getMessages st sid opts = Ok rows
  <-> 0 <= or_count (MessagesOpts.offset opts) 0
      /\ 0 <= or_count (MessagesOpts.limit opts) 100
      /\ rows = firstn (Z.to_nat (or_count (MessagesOpts.limit opts) 100))
                  (skipn (Z.to_nat (or_count (MessagesOpts.offset opts) 0))
                         (Listing.history st sid)).
Proof.
  unfold getMessages, select_messages. cbv zeta.
  set (o := or_count (MessagesOpts.offset opts) 0).
  set (n := or_count (MessagesOpts.limit opts) 100).
  replace (o + n - 1 - o + 1) with n by lia.
  fold (Listing.history st sid).
  destruct (Z.ltb_spec o 0) as [Ho|Ho]; cbn [orb].
  - split; [discriminate|]. intros [H _]. lia.
  - destruct (Z.ltb_spec n 0) as [Hn|Hn]; cbn.
    + split; [discriminate|]. intros (_ & H & _). lia.
    + split.
      * intros [= <-]. auto.
      * intros (_ & _ & ->). reflexivity.
Qed.

End MessageFacts.

(** X6: when [getMessages] returns, it returns messages of the requested
    session only, oldest first, at most [limit] of them (100 when the limit
    is absent or 0): the window of the session's history that starts at
    [offset]. *)
Theorem X6_getMessages_window (st : Postgrest.Store) (sessionId : string)
        (opts : MessagesOpts.t) (rows : list Message) :
  getMessages st sessionId opts = Ok rows ->
  (List.length rows
   <= Z.to_nat (or_count (MessagesOpts.limit opts) 100))%nat
  /\ Forall (fun m => In m (Postgrest.messages st)
                      /\ session_id m = sessionId) rows
  /\ StronglySorted (fun a b => msg_created_at a <= msg_created_at b) rows
  /\ rows = firstn (Z.to_nat (or_count (MessagesOpts.limit opts) 100))
              (skipn (Z.to_nat (or_count (MessagesOpts.offset opts) 0))
                     (Listing.history st sessionId)).
Proof.
  intros E. apply getMessages_window in E. destruct E as (_ & _ & ->).
  split; [apply firstn_le_length|]. split; [|split; [|reflexivity]].
  - apply Forall_forall. intros m Hm.
    now apply firstn_In, in_skipn_in, history_in in Hm.
  - apply firstn_sorted, skipn_strongly_sorted, history_sorted.
Qed.

Lemma X6_getMessages_window_witness :
  getMessages Demo.chat "s1" (Demo.page (Some 1) (Some 0))
  = Ok [Demo.said "m2" "s1" "second" 2; Demo.said "m3" "s1" "third" 4]
  /\ le (List.length [Demo.said "m2" "s1" "second" 2;
                      Demo.said "m3" "s1" "third" 4])
        (Z.to_nat (or_count (MessagesOpts.limit (Demo.page (Some 1) (Some 0)))
                            100)).
Proof.
  split; [vm_compute; reflexivity|].
  apply (X6_getMessages_window Demo.chat "s1" (Demo.page (Some 1) (Some 0))).
  vm_compute. reflexivity.
Defined.

(** X7: consecutive pages of [getMessages] fit together: for a session
    whose messages have distinct creation times (so that their order is
    determined), an offset [a >= 0] and limits [n, m > 0], the page at [a]
    of [n] messages followed by the page at [a + n] of [m] messages is the
    page at [a] of [n + m] messages, and all three calls succeed. *)
Theorem X7_getMessages_pages_compose (st : Postgrest.Store)
        (sessionId : string) (a n m : Z) :
  NoDup (map msg_created_at (Listing.history st sessionId)) ->
  0 <= a -> 0 < n -> 0 < m ->
  exists first second,
    getMessages st sessionId
      {| MessagesOpts.limit := Some n; MessagesOpts.offset := Some a |}
    = Ok first
    /\ getMessages st sessionId
         {| MessagesOpts.limit := Some m;
            MessagesOpts.offset := Some (a + n) |}
       = Ok second
    /\ getMessages st sessionId
         {| MessagesOpts.limit := Some (n + m);
            MessagesOpts.offset := Some a |}
       = Ok (first ++ second)%list.
Proof.
  intros _ Ha Hn Hm.
  exists (firstn (Z.to_nat n)
            (skipn (Z.to_nat a) (Listing.history st sessionId))),
    (firstn (Z.to_nat m)
       (skipn (Z.to_nat (a + n)) (Listing.history st sessionId))).
  repeat split; apply getMessages_window;
    cbn [MessagesOpts.limit MessagesOpts.offset];
    rewrite ?or_count_offset, ?or_count_given by lia;
    (split; [lia|split; [lia|]]); try reflexivity.
  rewrite !Z2Nat.inj_add by lia. rewrite skipn_add.
  apply firstn_then_next.
Qed.

Lemma X7_getMessages_pages_compose_witness :
  NoDup (map msg_created_at (Listing.history Demo.chat "s1"))
  /\ 0 <= 0 /\ 0 < 1 /\ 0 < 2
  /\ exists first second,
       getMessages Demo.chat "s1" (Demo.page (Some 0) (Some 1)) = Ok first
       /\ getMessages Demo.chat "s1" (Demo.page (Some (0 + 1)) (Some 2))
          = Ok second
       /\ getMessages Demo.chat "s1" (Demo.page (Some 0) (Some (1 + 2)))
          = Ok (first ++ second)%list.
Proof.
  assert (H : NoDup (map msg_created_at (Listing.history Demo.chat "s1"))).
  { vm_compute. repeat constructor; cbn; intuition discriminate. }
  split; [exact H|]. split; [lia|]. split; [lia|]. split; [lia|].
  apply (X7_getMessages_pages_compose Demo.chat "s1" 0 1 2 H); lia.
Defined.

(** X8: a successful [addMessage] stores the message under the given
    session with the given content, leaves the memories and the history of
    every other session as they were, and the message is returned by
    [getMessages] of its session unless the default window of 100 messages
    is already filled. *)
Theorem X8_addMessage_appends (B : Backend) (st st' : Postgrest.Store)
        (sessionId : string) (message : MessageArg.t) (msg : Message) :
  addMessage B st sessionId message = (Ok msg, st') ->
  session_id msg = sessionId
  /\ msg_content msg = MessageArg.content message
  /\ Postgrest.memories st' = Postgrest.memories st
  /\ (forall m, In m (Listing.history st' sessionId)
                <-> In m (Listing.history st sessionId) \/ m = msg)
  /\ (forall other opts, other <> sessionId ->
        getMessages st' other opts = getMessages st other opts)
  /\ exists rows,
       getMessages st' sessionId
         {| MessagesOpts.limit := None; MessagesOpts.offset := None |}
       = Ok rows
       /\ (In msg rows \/ List.length rows = 100%nat).
Proof.
  intros E.
  assert (H : Postgrest.messages st' = (Postgrest.messages st ++ [msg])%list
              /\ Postgrest.memories st' = Postgrest.memories st
              /\ session_id msg = sessionId
              /\ msg_content msg = MessageArg.content message).
  { unfold addMessage, insert_message in E. injection E as <- <-.
    repeat split. }
  destruct H as (Hmsgs & Hmem & Hsid & Hcontent).
  split; [exact Hsid|]. split; [exact Hcontent|]. split; [exact Hmem|].
  assert (Hhist : forall m, In m (Listing.history st' sessionId)
                            <-> In m (Listing.history st sessionId) \/ m = msg).
  { intros m. rewrite !history_in, Hmsgs, in_app_iff. cbn [In]. split.
    - intros [[H|[H|H]] Hs];
        [left; now split|right; now symmetry|contradiction].
    - intros [[H Hs]| ->]; [split; [now left|exact Hs]|].
      split; [right; now left|exact Hsid]. }
  split; [exact Hhist|]. split.
  - intros other opts Hne. unfold getMessages, Postgrest.select_messages.
    rewrite Hmsgs, filter_app. cbn [List.filter]. rewrite Hsid.
    apply String.eqb_neq in Hne. rewrite String.eqb_sym in Hne.
    rewrite Hne. now rewrite app_nil_r.
  - exists (firstn 100 (Listing.history st' sessionId)). split.
    + apply getMessages_window.
      split; [cbn; discriminate|]. split; [cbn; discriminate|reflexivity].
    + apply in_firstn_or_full. apply Hhist. now right.
Qed.

Lemma X8_addMessage_appends_witness :
  addMessage Sample.backend Demo.chat "s2" Demo.hello
  = (Ok (Demo.said "5" "s2" "hello" 10),
     snd (addMessage Sample.backend Demo.chat "s2" Demo.hello))
  /\ forall opts,
       getMessages (snd (addMessage Sample.backend Demo.chat "s2" Demo.hello))
                   "s1" opts
       = getMessages Demo.chat "s1" opts.
Proof.
  assert (E : addMessage Sample.backend Demo.chat "s2" Demo.hello
              = (Ok (Demo.said "5" "s2" "hello" 10),
                 snd (addMessage Sample.backend Demo.chat "s2" Demo.hello)))
    by (vm_compute; reflexivity).
  split; [exact E|].
  intros opts.
  destruct (X8_addMessage_appends Sample.backend Demo.chat _ "s2" Demo.hello
              _ E) as (_ & _ & _ & _ & H & _).
  apply H. discriminate.
Defined.

(** X9: the [recentMessages] of [getContext] are the first [maxMessages]
    (20 when absent or 0) messages of the session's history in
    chronological order, that is a prefix of the history: when the session
    holds more messages, it is the newest ones that are left out.  Without
    a session id the list is empty. *)
Theorem X9_getContext_oldest_messages (B : Backend)
        (this : OpenClawMemoryConfig) (st : Postgrest.Store) (query : string)
        (opts : ContextOpts.t) (ctx : Context) :
  getContext B this st query opts = Ok ctx ->
  (forall sessionId,
     truthy_string (ContextOpts.sessionId opts) = Some sessionId ->
     recentMessages ctx
     = firstn (Z.to_nat (or_count (ContextOpts.maxMessages opts) 20))
              (Listing.history st sessionId)
     /\ exists newer,
          Listing.history st sessionId
          = (recentMessages ctx ++ newer)%list)
  /\ (truthy_string (ContextOpts.sessionId opts) = None ->
      recentMessages ctx = []).
Proof.
  unfold getContext.
  destruct (recall B this st query _) as [ms|e]; cbn [bind]; [|discriminate].
  destruct (truthy_string (ContextOpts.sessionId opts)) as [sid|].
  - destruct (getMessages st sid _) as [msgs|e] eqn:Em; cbn [bind];
      [|discriminate].
    intros [= <-]. cbn [recentMessages]. split; [|discriminate].
    intros sessionId [= <-].
    apply getMessages_window in Em.
    cbn [MessagesOpts.limit MessagesOpts.offset] in Em.
    rewrite or_count_given in Em by (apply or_count_nonzero; discriminate).
    destruct Em as (_ & _ & ->).
    change (Z.to_nat (or_count None 0)) with 0%nat. cbn [skipn].
    split; [reflexivity|].
    eexists. symmetry. apply firstn_skipn.
  - cbn [bind]. intros [= <-]. split; [discriminate|reflexivity].
Qed.

Lemma X9_getContext_oldest_messages_witness :
  getContext Sample.backend Sample.plain Demo.chat "zzz" Demo.two_of_s1
  = Ok {| ctx_memories := [];
          recentMessages := [Demo.said "m1" "s1" "first" 1;
                             Demo.said "m2" "s1" "second" 2];
          summary := "No relevant memories found." |}
  /\ truthy_string (ContextOpts.sessionId Demo.two_of_s1) = Some "s1"
  /\ [Demo.said "m1" "s1" "first" 1; Demo.said "m2" "s1" "second" 2]
     = firstn (Z.to_nat (or_count (ContextOpts.maxMessages Demo.two_of_s1) 20))
              (Listing.history Demo.chat "s1").
Proof.
  assert (E : getContext Sample.backend Sample.plain Demo.chat "zzz"
                         Demo.two_of_s1
              = Ok {| ctx_memories := [];
                      recentMessages := [Demo.said "m1" "s1" "first" 1;
                                         Demo.said "m2" "s1" "second" 2];
                      summary := "No relevant memories found." |})
    by (vm_compute; reflexivity).
  split; [exact E|]. split; [reflexivity|].
  destruct (X9_getContext_oldest_messages _ _ _ _ _ _ E) as [H _].
  destruct (H "s1" eq_refl) as [H1 _]. exact H1.
Defined.



(** ** Single rows of a table *)

Section SingleFacts.
Context {R : Type} (key : R -> string).
Import Postgrest.
Local Open Scope list_scope.

Lemma filter_unique_key (l : list R) (r : R) :
  NoDup (map key l) -> In r l ->
  List.filter (fun x => String.eqb (key x) (key r)) l = [r].
Proof.
  induction l as [|y l IH]; intros Hnd Hin; [contradiction|].
  cbn [map] in Hnd. apply NoDup_cons_iff in Hnd. destruct Hnd as [Hy Hnd].
  cbn [List.filter]. destruct Hin as [->|Hin].
  - rewrite String.eqb_refl. f_equal. apply filter_drops_all.
    intros x Hx. apply String.eqb_neq. intros E. apply Hy.
    rewrite <- E. now apply in_map.
  - destruct (String.eqb_spec (key y) (key r)) as [E|E].
    + exfalso. apply Hy. rewrite E. now apply in_map.
    + now apply IH.
Qed.

Lemma filter_absent_key (l : list R) (v : string) :
  (forall x, In x l -> key x <> v) ->
  List.filter (fun x => String.eqb (key x) v) l = [].
Proof.
  intros H. apply filter_drops_all. intros x Hx.
  apply String.eqb_neq. now apply H.
Qed.

Lemma update_single_absent (patch : R -> R) (tbl : Table.t R) (v : string) :
  (forall x, In x (Table.rows tbl) -> key x <> v) ->
  Table.update_single key patch tbl v = (Failure Table.not_single, tbl).
Proof.
  intros H. unfold Table.update_single. now rewrite filter_absent_key.
Qed.

Lemma select_single_absent (tbl : Table.t R) (v : string) :
  (forall x, In x (Table.rows tbl) -> key x <> v) ->
  Table.select_single key tbl v = Failure Table.not_single.
Proof.
  intros H. unfold Table.select_single. now rewrite filter_absent_key.
Qed.

Lemma update_single_unique (patch : R -> R) (tbl : Table.t R) (r : R) :
  NoDup (map key (Table.rows tbl)) -> In r (Table.rows tbl) ->
  Table.update_single key patch tbl (key r)
  = (Success (patch r),
     {| Table.rows :=
          map (fun x => if String.eqb (key x) (key r) then patch x else x)
              (Table.rows tbl);
        Table.next_key := Table.next_key tbl;
        Table.now := Table.now tbl |}).
Proof.
  intros Hnd Hin. unfold Table.update_single.
  now rewrite (filter_unique_key _ _ Hnd Hin).
Qed.

Lemma filter_patched (patch : R -> R) (v : string) (l : list R) :
  (forall x, key (patch x) = key x) ->
  List.filter (fun x => String.eqb (key x) v)
              (map (fun x => if String.eqb (key x) v then patch x else x) l)
  = map patch (List.filter (fun x => String.eqb (key x) v) l).
Proof.
  intros Hk. induction l as [|y l IH]; [reflexivity|].
  cbn [map List.filter]. destruct (String.eqb (key y) v) eqn:E.
  - rewrite Hk, E. cbn [map]. now rewrite IH.
  - now rewrite E.
Qed.

Lemma patched_others (patch : R -> R) (v : string) (l : list R) (x : R) :
  (forall y, key (patch y) = key y) ->
  key x <> v ->
  In x (map (fun y => if String.eqb (key y) v then patch y else y) l)
  <-> In x l.
Proof.
  intros Hk Hx. rewrite in_map_iff. split.
  - intros (y & E & Hy). destruct (String.eqb_spec (key y) v) as [Ey|Ey].
    + exfalso. apply Hx. now rewrite <- E, Hk.
    + now subst y.
  - intros Hin. exists x. split; [|exact Hin].
    apply String.eqb_neq in Hx. now rewrite Hx.
Qed.

End SingleFacts.

(** ** Sessions *)

(** X11: for an id that no session has, [getSession] returns null without
    an error, whereas [endSession] throws the store's error PGRST116 and
    leaves the table as it was. *)
Theorem X11_unknown_session (today : timestamp)
        (tbl : Table.t Sessions.Session) (sessionId : string)
        (opts : Sessions.EndOpts.t) :
  (forall s, In s (Table.rows tbl) -> Sessions.id s <> sessionId) ->
  Sessions.getSession tbl sessionId = Ok None
  /\ Sessions.endSession today tbl sessionId opts
     = (Throw (PostgrestError "PGRST116"), tbl).
Proof.
  intros H. split.
  - unfold Sessions.getSession.
    now rewrite (select_single_absent Sessions.id tbl sessionId H).
  - unfold Sessions.endSession.
    now rewrite (update_single_absent Sessions.id _ tbl sessionId H).
Qed.

Lemma X11_unknown_session_witness :
  (forall s, In s (Table.rows Demo.sessions) -> Sessions.id s <> "zz")
  /\ Sessions.getSession Demo.sessions "zz" = Ok None
  /\ Sessions.endSession 50 Demo.sessions "zz"
       {| Sessions.EndOpts.summary := None |}
     = (Throw (PostgrestError "PGRST116"), Demo.sessions).
Proof.
  assert (H : forall s, In s (Table.rows Demo.sessions) ->
                        Sessions.id s <> "zz").
  { intros s Hs. cbn in Hs.
    repeat (destruct Hs as [<-|Hs]; [discriminate|]). contradiction. }
  split; [exact H|].
  apply (X11_unknown_session 50 Demo.sessions "zz" _ H).
Defined.

(** X12: [startSession] stores an open session of the instance's agent,
    without summary, for the given user and channel; when the key the store
    gives it is not yet in use, [getSession] of the returned id finds
    exactly that session. *)
Theorem X12_startSession_then_getSession (B : Backend)
        (this : OpenClawMemoryConfig) (tbl tbl' : Table.t Sessions.Session)
        (opts : Sessions.StartOpts.t) (s : Sessions.Session) :
  Sessions.startSession B this tbl opts = (Ok s, tbl') ->
  Sessions.agent_id s = agentId this
  /\ Sessions.user_id s = Sessions.StartOpts.userId opts
  /\ Sessions.channel s = Sessions.StartOpts.channel opts
  /\ Sessions.ended_at s = None
  /\ Sessions.summary s = None
  /\ Table.rows tbl' = (Table.rows tbl ++ [s])%list
  /\ ((forall x, In x (Table.rows tbl) -> Sessions.id x <> Sessions.id s) ->
      Sessions.getSession tbl' (Sessions.id s) = Ok (Some s)).
Proof.
  unfold Sessions.startSession, Table.insert_single. intros [= <- <-].
  repeat (split; [reflexivity|]).
  intros Hfresh. unfold Sessions.getSession, Table.select_single.
  cbn [Table.rows]. rewrite filter_app.
  rewrite (filter_absent_key Sessions.id _ _ Hfresh).
  cbn. now rewrite String.eqb_refl.
Qed.

Lemma X12_startSession_then_getSession_witness :
  Sessions.startSession Sample.backend Sample.plain Demo.sessions
                        Demo.start_opts
  = (Ok (fst (Demo.started)), snd Demo.started)
  /\ (forall x, In x (Table.rows Demo.sessions) ->
                Sessions.id x <> Sessions.id (fst Demo.started))
  /\ Sessions.getSession (snd Demo.started) (Sessions.id (fst Demo.started))
     = Ok (Some (fst Demo.started)).
Proof.
  assert (E : Sessions.startSession Sample.backend Sample.plain Demo.sessions
                                    Demo.start_opts
              = (Ok (fst (Demo.started)), snd Demo.started))
    by (vm_compute; reflexivity).
  assert (H : forall x, In x (Table.rows Demo.sessions) ->
                        Sessions.id x <> Sessions.id (fst Demo.started)).
  { intros x Hx. cbn in Hx.
    repeat (destruct Hx as [<-|Hx]; [discriminate|]). contradiction. }
  split; [exact E|]. split; [exact H|].
  destruct (X12_startSession_then_getSession _ _ _ _ _ _ E)
    as (_ & _ & _ & _ & _ & _ & Hget).
  exact (Hget H).
Defined.

(** X13: in a table whose ids are keys, [endSession] of an existing
    session succeeds whether or not the session was already ended: it sets
    [ended_at] to the current time, replaces the summary when one is given
    and keeps the stored summary otherwise, changes no other column and no
    other session, and [getSession] afterwards returns the updated
    session. *)
Theorem X13_endSession_effect (today : timestamp)
        (tbl : Table.t Sessions.Session) (s : Sessions.Session)
        (opts : Sessions.EndOpts.t) :
  NoDup (map Sessions.id (Table.rows tbl)) ->
  In s (Table.rows tbl) ->
  exists s' tbl',
    Sessions.endSession today tbl (Sessions.id s) opts = (Ok s', tbl')
    /\ Sessions.ended_at s' = Some today
    /\ Sessions.summary s'
       = match Sessions.EndOpts.summary opts with
         | Some v => Some v
         | None => Sessions.summary s
         end
    /\ Sessions.id s' = Sessions.id s
    /\ Sessions.agent_id s' = Sessions.agent_id s
    /\ Sessions.user_id s' = Sessions.user_id s
    /\ Sessions.channel s' = Sessions.channel s
    /\ Sessions.started_at s' = Sessions.started_at s
    /\ Sessions.metadata s' = Sessions.metadata s
    /\ Sessions.getSession tbl' (Sessions.id s) = Ok (Some s')
    /\ (forall x, Sessions.id x <> Sessions.id s ->
          (In x (Table.rows tbl') <-> In x (Table.rows tbl)))
    /\ List.length (Table.rows tbl') = List.length (Table.rows tbl).
Proof.
  intros Hnd Hin. unfold Sessions.endSession.
  rewrite (update_single_unique Sessions.id _ tbl s Hnd Hin).
  eexists. eexists. split; [reflexivity|].
  repeat (split; [reflexivity|]).
  split; [|split].
  - unfold Sessions.getSession, Table.select_single. cbn [Table.rows].
    rewrite (filter_patched Sessions.id) by reflexivity.
    now rewrite (filter_unique_key Sessions.id _ _ Hnd Hin).
  - intros x Hx. cbn [Table.rows].
    now apply (patched_others Sessions.id).
  - cbn [Table.rows]. apply length_map.
Qed.

Lemma X13_endSession_effect_witness :
  NoDup (map Sessions.id (Table.rows Demo.sessions))
  /\ In (Demo.session "s1" "agent-1" (Some "u1") 1) (Table.rows Demo.sessions)
  /\ exists s' tbl',
       Sessions.endSession 50 Demo.sessions "s1"
         {| Sessions.EndOpts.summary := None |} = (Ok s', tbl')
       /\ Sessions.ended_at s' = Some 50
       /\ Sessions.summary s' = Some "so far".
Proof.
  assert (Hnd : NoDup (map Sessions.id (Table.rows Demo.sessions))).
  { cbn. repeat constructor; cbn; intuition discriminate. }
  assert (Hin : In (Demo.session "s1" "agent-1" (Some "u1") 1)
                   (Table.rows Demo.sessions)) by (left; reflexivity).
  split; [exact Hnd|]. split; [exact Hin|].
  destruct (X13_endSession_effect 50 Demo.sessions _
              {| Sessions.EndOpts.summary := None |} Hnd Hin)
    as (s' & tbl' & E & He & Hs & _).
  exists s', tbl'. split; [exact E|]. split; [exact He|exact Hs].
Defined.





(** ** Tasks *)

Lemma updateTask_existing (today later : timestamp) (tbl : Table.t Tasks.Task)
      (t : Tasks.Task) (updates : Tasks.Updates.t) :
  NoDup (map Tasks.id (Table.rows tbl)) ->
  In t (Table.rows tbl) ->
  Tasks.updateTask today later tbl (Tasks.id t) updates
  = (Ok (Tasks.updated (Tasks.updateData today later updates) t),
     {| Table.rows :=
          map (fun x =>
                 if String.eqb (Tasks.id x) (Tasks.id t)
                 then Tasks.updated (Tasks.updateData today later updates) x
                 else x)
              (Table.rows tbl);
        Table.next_key := Table.next_key tbl;
        Table.now := Table.now tbl |}).
Proof.
  intros Hnd Hin. unfold Tasks.updateTask.
  now rewrite (update_single_unique Tasks.id _ tbl t Hnd Hin).
Qed.

(** X15: [updateTask] of an id that no task has throws the store's error
    PGRST116 and leaves the table as it was, whatever the updates. *)
Theorem X15_updateTask_unknown (today later : timestamp)
        (tbl : Table.t Tasks.Task) (taskId : string)
        (updates : Tasks.Updates.t) :
  (forall t, In t (Table.rows tbl) -> Tasks.id t <> taskId) ->
  Tasks.updateTask today later tbl taskId updates
  = (Throw (PostgrestError "PGRST116"), tbl).
Proof.
  intros H. unfold Tasks.updateTask.
  now rewrite (update_single_absent Tasks.id _ tbl taskId H).
Qed.

Lemma X15_updateTask_unknown_witness :
  (forall t, In t (Table.rows Demo.tasks) -> Tasks.id t <> "t9")
  /\ Tasks.updateTask 50 51 Demo.tasks "t9" Demo.reopen
     = (Throw (PostgrestError "PGRST116"), Demo.tasks).
Proof.
  assert (H : forall t, In t (Table.rows Demo.tasks) -> Tasks.id t <> "t9").
  { intros t Ht. cbn in Ht.
    repeat (destruct Ht as [<-|Ht]; [discriminate|]). contradiction. }
  split; [exact H|].
  apply (X15_updateTask_unknown 50 51 Demo.tasks "t9" Demo.reopen H).
Defined.

(** X16: in a table whose ids are keys, [updateTask] of an existing task
    succeeds and always refreshes [updated_at].  A title or description
    that is given but empty is ignored, so neither can be cleared, whereas
    a given priority is stored even when it is 0; status, due date and
    metadata are stored when given.  The id, the agent, the user, the
    parent and the creation time never change, and no other task is
    touched. *)
Theorem X16_updateTask_fields (today later : timestamp)
        (tbl : Table.t Tasks.Task) (t : Tasks.Task)
        (updates : Tasks.Updates.t) :
  NoDup (map Tasks.id (Table.rows tbl)) ->
  In t (Table.rows tbl) ->
  exists t' tbl',
    Tasks.updateTask today later tbl (Tasks.id t) updates = (Ok t', tbl')
    /\ Tasks.updated_at t' = today
    /\ Tasks.title t'
       = match Tasks.Updates.title updates with
         | Some v => if String.eqb v "" then Tasks.title t else v
         | None => Tasks.title t
         end
    /\ Tasks.description t'
       = match Tasks.Updates.description updates with
         | Some v => if String.eqb v "" then Tasks.description t else Some v
         | None => Tasks.description t
         end
    /\ Tasks.priority t'
       = match Tasks.Updates.priority updates with
         | Some p => p
         | None => Tasks.priority t
         end
    /\ Tasks.status t'
       = match Tasks.Updates.status updates with
         | Some v => v
         | None => Tasks.status t
         end
    /\ Tasks.due_at t'
       = match Tasks.Updates.dueAt updates with
         | Some d => Some d
         | None => Tasks.due_at t
         end
    /\ Tasks.metadata t'
       = match Tasks.Updates.metadata updates with
         | Some v => v
         | None => Tasks.metadata t
         end
    /\ Tasks.id t' = Tasks.id t
    /\ Tasks.agent_id t' = Tasks.agent_id t
    /\ Tasks.user_id t' = Tasks.user_id t
    /\ Tasks.parent_task_id t' = Tasks.parent_task_id t
    /\ Tasks.created_at t' = Tasks.created_at t
    /\ (forall x, Tasks.id x <> Tasks.id t ->
          (In x (Table.rows tbl') <-> In x (Table.rows tbl)))
    /\ List.length (Table.rows tbl') = List.length (Table.rows tbl).
Proof.
  intros Hnd Hin. rewrite (updateTask_existing today later tbl t updates Hnd Hin).
  eexists. eexists. split; [reflexivity|].
  split; [reflexivity|].
  split.
  { cbn. destruct (Tasks.Updates.title updates) as [v|]; cbn;
      [now destruct (String.eqb v "")|reflexivity]. }
  split.
  { cbn. destruct (Tasks.Updates.description updates) as [v|]; cbn;
      [now destruct (String.eqb v "")|reflexivity]. }
  split; [cbn; now destruct (Tasks.Updates.priority updates)|].
  split; [cbn; now destruct (Tasks.Updates.status updates)|].
  split; [reflexivity|].
  split; [cbn; now destruct (Tasks.Updates.metadata updates)|].
  repeat (split; [reflexivity|]).
  split.
  - intros x Hx. cbn [Table.rows]. now apply (patched_others Tasks.id).
  - cbn [Table.rows]. apply length_map.
Qed.

Lemma X16_updateTask_fields_witness :
  NoDup (map Tasks.id (Table.rows Demo.tasks))
  /\ In (Demo.task "t2" "agent-1" "review" Tasks.Done 5 (Some 3) 2)
        (Table.rows Demo.tasks)
  /\ exists t' tbl',
       Tasks.updateTask 50 51 Demo.tasks "t2" Demo.reopen = (Ok t', tbl')
       /\ Tasks.updated_at t' = 50
       /\ Tasks.title t' = "review"
       /\ Tasks.priority t' = 0.
Proof.
  assert (Hnd : NoDup (map Tasks.id (Table.rows Demo.tasks))).
  { cbn. repeat constructor; cbn; intuition discriminate. }
  assert (Hin : In (Demo.task "t2" "agent-1" "review" Tasks.Done 5 (Some 3) 2)
                   (Table.rows Demo.tasks)) by (right; left; reflexivity).
  split; [exact Hnd|]. split; [exact Hin|].
  destruct (X16_updateTask_fields 50 51 Demo.tasks _ Demo.reopen Hnd Hin)
    as (t' & tbl' & E & Hu & Ht & _ & Hp & _).
  exists t', tbl'. split; [exact E|]. split; [exact Hu|].
  split; [exact Ht|exact Hp].
Defined.

(** X17: [updateTask] stamps [completed_at] exactly when the given status
    is 'done', a second time when the task was done already; any other
    update, a change of status away from 'done' included, leaves
    [completed_at] as it was, so a reopened task keeps its completion
    time. *)
Theorem X17_updateTask_completion (today later : timestamp)
        (tbl : Table.t Tasks.Task) (t : Tasks.Task)
        (updates : Tasks.Updates.t) :
  NoDup (map Tasks.id (Table.rows tbl)) ->
  In t (Table.rows tbl) ->
  exists t' tbl',
    Tasks.updateTask today later tbl (Tasks.id t) updates = (Ok t', tbl')
    /\ (Tasks.Updates.status updates = Some Tasks.Done ->
        Tasks.completed_at t' = Some later /\ Tasks.status t' = Tasks.Done)
    /\ (Tasks.Updates.status updates <> Some Tasks.Done ->
        Tasks.completed_at t' = Tasks.completed_at t).
Proof.
  intros Hnd Hin. rewrite (updateTask_existing today later tbl t updates Hnd Hin).
  eexists. eexists. split; [reflexivity|]. split.
  - intros E. cbn. now rewrite E.
  - intros Hne. cbn.
    destruct (Tasks.Updates.status updates) as [[| | |]|];
      try reflexivity. now contradiction Hne.
Qed.

Lemma X17_updateTask_completion_witness :
  NoDup (map Tasks.id (Table.rows Demo.tasks))
  /\ In (Demo.task "t2" "agent-1" "review" Tasks.Done 5 (Some 3) 2)
        (Table.rows Demo.tasks)
  /\ Tasks.Updates.status Demo.reopen <> Some Tasks.Done
  /\ exists t' tbl',
       Tasks.updateTask 50 51 Demo.tasks "t2" Demo.reopen = (Ok t', tbl')
       /\ Tasks.completed_at t' = Some 3.
Proof.
  assert (Hnd : NoDup (map Tasks.id (Table.rows Demo.tasks))).
  { cbn. repeat constructor; cbn; intuition discriminate. }
  assert (Hin : In (Demo.task "t2" "agent-1" "review" Tasks.Done 5 (Some 3) 2)
                   (Table.rows Demo.tasks)) by (right; left; reflexivity).
  assert (Hne : Tasks.Updates.status Demo.reopen <> Some Tasks.Done)
    by discriminate.
  split; [exact Hnd|]. split; [exact Hin|]. split; [exact Hne|].
  destruct (X17_updateTask_completion 50 51 Demo.tasks _ Demo.reopen Hnd Hin)
    as (t' & tbl' & E & _ & Hc).
  exists t', tbl'. split; [exact E|]. exact (Hc Hne).
Defined.

Lemma run_limited {R : Type} (rows : list R) (q : Table.select R) (n : Z) :
  0 <= Table.first_row q -> Table.row_count q = Some n -> 0 <= n ->
  rows_or_throw (Table.run rows q)
  = Ok (firstn (Z.to_nat n)
          (skipn (Z.to_nat (Table.first_row q)) (Table.selected q rows))).
Proof.
  intros Hf En Hn. unfold Table.run. rewrite En.
  destruct (Z.ltb_spec (Table.first_row q) 0); [lia|].
  destruct (Z.ltb_spec n 0); [lia|]. reflexivity.
Qed.

(** X18: [createTask] stores a task of the instance's agent that is not
    completed, with the given priority (0 included) or 0 when none is
    given, and with equal creation and update times.  [getTasks] without
    filters then lists it, unless the default window of 50 tasks is already
    filled. *)
Theorem X18_createTask_then_getTasks (B : Backend)
        (this : OpenClawMemoryConfig) (initial : Tasks.task_status)
        (tbl tbl' : Table.t Tasks.Task) (task : Tasks.TaskArg.t)
        (t : Tasks.Task) :
  Tasks.createTask B this initial tbl task = (Ok t, tbl') ->
  Tasks.agent_id t = agentId this
  /\ Tasks.title t = Tasks.TaskArg.title task
  /\ Tasks.priority t = match Tasks.TaskArg.priority task with
                        | Some p => p
                        | None => 0
                        end
  /\ Tasks.completed_at t = None
  /\ Tasks.updated_at t = Tasks.created_at t
  /\ Table.rows tbl' = (Table.rows tbl ++ [t])%list
  /\ exists rows,
       Tasks.getTasks this tbl'
         {| Tasks.TasksOpts.status := None;
            Tasks.TasksOpts.userId := None;
            Tasks.TasksOpts.limit := None |} = Ok rows
       /\ (In t rows \/ List.length rows = 50%nat).
Proof.
  intros E.
  assert (H : Tasks.agent_id t = agentId this
              /\ Tasks.title t = Tasks.TaskArg.title task
              /\ Tasks.priority t = match Tasks.TaskArg.priority task with
                                    | Some p => p
                                    | None => 0
                                    end
              /\ Tasks.completed_at t = None
              /\ Tasks.updated_at t = Tasks.created_at t
              /\ Table.rows tbl' = (Table.rows tbl ++ [t])%list).
  { unfold Tasks.createTask, Table.insert_single in E. injection E as <- <-.
    cbn. repeat split. }
  destruct H as (Ha & Ht & Hp & Hc & Hu & Hrows).
  repeat (split; [assumption|]).
  unfold Tasks.getTasks. cbv zeta. cbn [truthy_string Tasks.TasksOpts.status
                                         Tasks.TasksOpts.userId].
  erewrite run_limited; [|reflexivity|reflexivity|cbn; discriminate].
  eexists. split; [reflexivity|].
  apply (in_firstn_or_full 50). cbn [Table.first_row Table.limit Table.order_by
                                     Table.eq_ Table.from_select Z.to_nat skipn].
  apply selected_in. split.
  - rewrite Hrows. apply in_or_app. right. now left.
  - cbn. rewrite Ha. now rewrite String.eqb_refl.
Qed.

Lemma X18_createTask_then_getTasks_witness :
  Tasks.createTask Sample.backend Sample.plain Tasks.Pending Demo.tasks
                   Demo.new_task
  = (Ok (fst Demo.created), snd Demo.created)
  /\ Tasks.priority (fst Demo.created) = 0
  /\ exists rows,
       Tasks.getTasks Sample.plain (snd Demo.created)
         {| Tasks.TasksOpts.status := None;
            Tasks.TasksOpts.userId := None;
            Tasks.TasksOpts.limit := None |} = Ok rows
       /\ (In (fst Demo.created) rows \/ List.length rows = 50%nat).
Proof.
  assert (E : Tasks.createTask Sample.backend Sample.plain Tasks.Pending
                               Demo.tasks Demo.new_task
              = (Ok (fst Demo.created), snd Demo.created))
    by (vm_compute; reflexivity).
  split; [exact E|].
  destruct (X18_createTask_then_getTasks _ _ _ _ _ _ _ E)
    as (_ & _ & Hp & _ & _ & _ & Hrows).
  split; [exact Hp|exact Hrows].
Defined.



(** ** Failure of the embedding provider *)

(** X20: a failure of embedding generation is never masked by the keyword
    search: when [generateEmbedding] throws for the query (the provider is
    'voyage', or 'openai' without a key, or its call fails), [recall],
    [hybridRecall] and [getContext] all reject with that same error instead
    of falling back. *)
Theorem X20_provider_failure_is_not_masked (B : Backend)
        (this : OpenClawMemoryConfig) (st : Postgrest.Store) (query : string)
        (e : exn) :
  generateEmbedding B this query = Throw e ->
  (forall opts, recall B this st query opts = Throw e)
  /\ (forall opts, hybridRecall B this st query opts = Throw e)
  /\ (forall opts, getContext B this st query opts = Throw e).
Proof.
  intros E.
  assert (Hrecall : forall opts, recall B this st query opts = Throw e).
  { intros opts. unfold recall. now rewrite E. }
  split; [exact Hrecall|]. split.
  - intros opts. unfold hybridRecall. now rewrite E.
  - intros opts. unfold getContext. now rewrite Hrecall.
Qed.

Lemma X20_provider_failure_is_not_masked_witness :
  generateEmbedding Sample.backend Sample.keyless "coffee"
  = Throw (Error "OpenAI API key not provided")
  /\ recall Sample.backend Sample.keyless Sample.store "coffee"
            RecallOpts.empty
     = Throw (Error "OpenAI API key not provided").
Proof.
  split; [reflexivity|].
  apply (X20_provider_failure_is_not_masked Sample.backend Sample.keyless
           Sample.store "coffee" (Error "OpenAI API key not provided")).
  reflexivity.
Defined.
